(** * pyadtpulsedotcom: the portal client's session and command state machine

    A shallow embedding of [pyadtpulsedotcom.py] (class [AdtPulsedotcom]):
    the coroutines [async_login], [async_update], [_send] and the three
    [async_alarm_*] wrappers, run against a scripted transport.

    - Python objects and control flow are modelled by a small monad with
      state (the client object and an observation trace), exceptions,
      [return], one frame of locals per call and a recursion budget.
    - The aiohttp session is a function from the index of the call and the
      request to a reply: either a raised transport error or a response
      with its status, cookies and body; reading the body does not fail.
    - A response body is identified with the tree that
      [BeautifulSoup(text, 'html.parser')] builds from it.
    - Time is not modelled: an [async_timeout] that expires shows as the
      [TimeoutError] reply of the request being awaited.

    The file has three parts: the embedding, the observations and sample
    sessions the statements use, and the properties. *)

From Stdlib Require Import String Ascii List ZArith Lia Bool Arith.
Import ListNotations.
Local Open Scope string_scope.
Local Open Scope list_scope.

(** ** Python values used by the client *)

(** Values a coroutine of the class returns: [None], [False] or [True]. *)
Inductive PyVal : Type :=
| VNone
| VBool (b : bool).

(** Exceptions that the modelled code can raise or name in a handler. *)
Inductive Exn : Type :=
| TimeoutError          (* asyncio.TimeoutError *)
| ClientError           (* aiohttp.ClientError *)
| AttributeError
| IndexError
| KeyError (key : string)
| TypeError
| ValueError
| UnboundLocalError (name : string).

(** A [dict] with [str] keys, in insertion order. *)
Module Dict.
Definition t (V : Type) : Type := list (string * V).

Fixpoint get {V : Type} (d : t V) (k : string) : option V :=
  match d with
  | [] => None
  | (k', v) :: d' => if String.eqb k' k then Some v else get d' k
  end.

(** [d[k] = v]: overwrite in place, or append a new key. *)
Fixpoint set {V : Type} (d : t V) (k : string) (v : V) : t V :=
  match d with
  | [] => [(k, v)]
  | (k', v') :: d' =>
      if String.eqb k' k then (k', v) :: d' else (k', v') :: set d' k v
  end.

(** Truth value of a dict: non-empty. *)
Definition truthy {V : Type} (d : t V) : bool :=
  match d with [] => false | _ :: _ => true end.
End Dict.

(** ** Strings *)

(** [sub in s] for [str]. *)
Fixpoint contains (sub s : string) : bool :=
  if String.prefix sub s then true
  else match s with
       | EmptyString => false
       | String _ s' => contains sub s'
       end.

Definition lower_ascii (c : ascii) : ascii :=
  let n := nat_of_ascii c in
  if (Nat.leb 65 n && Nat.leb n 90)%bool then ascii_of_nat (n + 32) else c.

Fixpoint lower (s : string) : string :=
  match s with
  | EmptyString => EmptyString
  | String c s' => String (lower_ascii c) (lower s')
  end.

Definition brace (c : ascii) : bool :=
  (Ascii.eqb c "{") || (Ascii.eqb c "}").

(** [template.format(args...)] with automatic field numbering: [{}] takes the
    next argument, [{{] and [}}] are literal braces.  Any other use of a
    brace raises ([ValueError] here; explicit field names and format
    specifications are outside the model). Surplus arguments are ignored. *)
Fixpoint str_format (template : string) (args : list string) : Exn + string :=
  match template with
  | EmptyString => inr EmptyString
  | String c rest =>
      if Ascii.eqb c "{" then
        match rest with
        | String c' rest' =>
            if Ascii.eqb c' "{" then
              match str_format rest' args with
              | inr s => inr (String "{" s)
              | inl e => inl e
              end
            else if Ascii.eqb c' "}" then
              match args with
              | a :: args' =>
                  match str_format rest' args' with
                  | inr s => inr (a ++ s)%string
                  | inl e => inl e
                  end
              | [] => inl IndexError
              end
            else inl ValueError
        | EmptyString => inl ValueError
        end
      else if Ascii.eqb c "}" then
        match rest with
        | String c' rest' =>
            if Ascii.eqb c' "}" then
              match str_format rest' args with
              | inr s => inr (String "}" s)
              | inl e => inl e
              end
            else inl ValueError
        | EmptyString => inl ValueError
        end
      else
        match str_format rest args with
        | inr s => inr (String c s)
        | inl e => inl e
        end
  end.

Fixpoint brace_free (s : string) : bool :=
  match s with
  | EmptyString => true
  | String c s' => negb (brace c) && brace_free s'
  end.

(** ** Parsed HTML *)

(** The tree built by [BeautifulSoup(text, 'html.parser')]: tags (names in
    lower case, as the parser stores them) and text. *)
#[local] Set Warnings "-register-all".
Inductive Node : Type :=
| NavigableString (s : string)
| Tag (name : string) (attrs : Dict.t string) (contents : list Node).

Definition Soup : Type := list Node.

(** [tag.get_text()]: the strings below the tag, in document order. *)
Fixpoint get_text (n : Node) : string :=
  match n with
  | NavigableString s => s
  | Tag _ _ cs =>
      (fix go (l : list Node) : string :=
         match l with
         | [] => EmptyString
         | c :: l' => (get_text c ++ go l')%string
         end) cs
  end.

(** The tags of a subtree in document order, the root first. *)
Fixpoint tags (n : Node) : list Node :=
  match n with
  | NavigableString _ => []
  | Tag _ _ cs =>
      n :: (fix go (l : list Node) : list Node :=
              match l with
              | [] => []
              | c :: l' => tags c ++ go l'
              end) cs
  end.

(** One simple CSS selector, the two shapes the class uses: [#ident]
    selects by the [id] attribute, a bare identifier is a type selector
    and selects by tag name (case-insensitively in an HTML document). *)
Definition selects (selector : string) (n : Node) : bool :=
  match n with
  | NavigableString _ => false
  | Tag name attrs _ =>
      match selector with
      | String "#" ident =>
          match Dict.get attrs "id" with
          | Some v => String.eqb v ident
          | None => false
          end
      | _ => String.eqb (lower name) (lower selector)
      end
  end.

(** [tree.select(selector)] *)
Definition select (selector : string) (tree : Soup) : list Node :=
  filter (selects selector) (flat_map tags tree).

(** ** The transport *)

Inductive Method : Type := GET | POST.

(** What the client passes as the URL: a [str], or the bound method
    [s.format] itself where the source writes [URL.format] without a call. *)
Inductive UrlArg : Type :=
| Str (s : string)
| BoundFormat (s : string).

Record Request : Type := mkRequest {
  method : Method;
  url : UrlArg;
  data : Dict.t string
}.

Record ClientResponse : Type := mkResponse {
  status : Z;
  cookies : Dict.t string;   (* name -> morsel value *)
  text : Soup
}.

Inductive TransportError : Type := Timeout | Connection.

Definition exn_of (e : TransportError) : Exn :=
  match e with Timeout => TimeoutError | Connection => ClientError end.

Inductive Reply : Type :=
| Fails (e : TransportError)
| Responds (r : ClientResponse).

(** The reply to the [n]-th request made through the session. *)
Definition Transport : Type := nat -> Request -> Reply.

(** ** Logging *)

Inductive Level : Type := DEBUG | INFO | ERROR.

Inductive LogArg : Type :=
| AStr (s : string)
| AInt (z : Z)
| ASoup (t : Soup)
| ADict (d : Dict.t string).

Record LogRecord : Type := mkLog {
  levelname : Level;
  msg : LogArg;
  args : list LogArg
}.

(** ** Client object and observation trace *)

Record World : Type := mkWorld {
  _username : string;
  _password : string;
  _login_info : option (Dict.t string);
  state : option string;
  requests : list Request;                   (* every transport call, in order *)
  opened : list (nat * ClientResponse);      (* responses handed out, by call index *)
  released : list nat;                       (* [response.release()] calls *)
  records : list LogRecord
}.

(** A local variable holding a response. *)
Inductive Local : Type :=
| Unbound
| IsNone
| Obj (rid : nat) (r : ClientResponse).

(** ** The execution monad *)

Inductive Completion (A : Type) : Type :=
| Normal (a : A)       (* control falls through *)
| Return (v : PyVal)   (* a [return] statement *)
| Raise (e : Exn)
| OutOfFuel.           (* the recursion budget is spent *)

Arguments Normal {A} a.
Arguments Return {A} v.
Arguments Raise {A} e.
Arguments OutOfFuel {A}.

(** A statement: runs in a frame (the local [response]) and a world. *)
Definition M (A : Type) : Type :=
  Local -> World -> Completion A * Local * World.

Definition ret {A : Type} (a : A) : M A :=
  fun l w => (Normal a, l, w).

Definition bind {A B : Type} (m : M A) (k : A -> M B) : M B :=
  fun l w =>
    match m l w with
    | (Normal a, l', w') => k a l' w'
    | (Return v, l', w') => (Return v, l', w')
    | (Raise e, l', w') => (Raise e, l', w')
    | (OutOfFuel, l', w') => (OutOfFuel, l', w')
    end.

Notation "x <- m ;; k" := (bind m (fun x => k))
  (at level 61, m at next level, right associativity).
Notation "' p <- m ;; k" := (bind m (fun x => let 'p := x in k))
  (at level 61, p pattern, m at next level, right associativity).
Notation "m ;; k" := (bind m (fun _ => k))
  (at level 61, right associativity).

Definition skip : M unit := ret tt.
Definition raise {A : Type} (e : Exn) : M A := fun l w => (Raise e, l, w).
Definition return_ {A : Type} (v : PyVal) : M A := fun l w => (Return v, l, w).
Definition out_of_fuel {A : Type} : M A := fun l w => (OutOfFuel, l, w).

Definition lift {A : Type} (r : Exn + A) : M A :=
  match r with inl e => raise e | inr a => ret a end.

Definition when (b : bool) (m : M unit) : M unit :=
  if b then m else skip.

(** [try: body except ...: handler]. [handlers e] is the first clause
    matching [e], if any. An exception raised by a handler propagates. *)
Definition try_except (body : M unit) (handlers : Exn -> option (M unit)) : M unit :=
  fun l w =>
    match body l w with
    | (Raise e, l', w') =>
        match handlers e with
        | Some h => h l' w'
        | None => (Raise e, l', w')
        end
    | other => other
    end.

(** [try: body finally: fin]. The [finally] block runs however [body]
    completes; if it completes abruptly itself, that completion wins. *)
Definition try_finally (body : M unit) (fin : M unit) : M unit :=
  fun l w =>
    match body l w with
    | (OutOfFuel, l', w') => (OutOfFuel, l', w')
    | (c, l', w') =>
        match fin l' w' with
        | (Normal _, l'', w'') => (c, l'', w'')
        | other => other
        end
    end.

(** Calling a coroutine with [yield from]: a fresh frame for the callee;
    falling off the end of the body returns [None]. *)
Definition call (body : M unit) : M PyVal :=
  fun l w =>
    match body Unbound w with
    | (Normal _, _, w') => (Normal VNone, l, w')
    | (Return v, _, w') => (Normal v, l, w')
    | (Raise e, _, w') => (Raise e, l, w')
    | (OutOfFuel, _, w') => (OutOfFuel, l, w')
    end.

(** *** Primitive statements *)

Definition set_response (r : Local) : M unit :=
  fun _ w => (Normal tt, r, w).

(** Reading the local [response]. *)
Definition get_response : M Local :=
  fun l w =>
    match l with
    | Unbound => (Raise (UnboundLocalError "response"), l, w)
    | _ => (Normal l, l, w)
    end.

Definition get_login_info : M (option (Dict.t string)) :=
  fun l w => (Normal (_login_info w), l, w).

Definition set_login_info (v : option (Dict.t string)) : M unit :=
  fun l w =>
    (Normal tt, l,
     mkWorld (_username w) (_password w) v (state w)
             (requests w) (opened w) (released w) (records w)).

Definition get_state : M (option string) :=
  fun l w => (Normal (state w), l, w).

Definition set_state (v : option string) : M unit :=
  fun l w =>
    (Normal tt, l,
     mkWorld (_username w) (_password w) (_login_info w) v
             (requests w) (opened w) (released w) (records w)).

Definition get_username : M string := fun l w => (Normal (_username w), l, w).
Definition get_password : M string := fun l w => (Normal (_password w), l, w).

Definition emit (lvl : Level) (m : LogArg) (a : list LogArg) : M unit :=
  fun l w =>
    (Normal tt, l,
     mkWorld (_username w) (_password w) (_login_info w) (state w)
             (requests w) (opened w) (released w)
             (records w ++ [mkLog lvl m a])).

Definition _LOGGER_debug (m : string) (a : list LogArg) : M unit := emit DEBUG (AStr m) a.
Definition _LOGGER_info (m : string) (a : list LogArg) : M unit := emit INFO (AStr m) a.
Definition _LOGGER_error (m : string) (a : list LogArg) : M unit := emit ERROR (AStr m) a.

(** [d[k]] on a dict. *)
Definition getitem {V : Type} (d : Dict.t V) (k : string) : M V :=
  match Dict.get d k with
  | Some v => ret v
  | None => raise (KeyError k)
  end.

(** [x[k]] where [x] is [None] or a dict. *)
Definition subscript (x : option (Dict.t string)) (k : string) : M string :=
  match x with
  | None => raise TypeError
  | Some d => getitem d k
  end.

(** [l[0]] on a list. *)
Definition first {A : Type} (l : list A) : M A :=
  match l with
  | [] => raise IndexError
  | x :: _ => ret x
  end.

(** [response.release()] *)
Definition release (rid : nat) : M unit :=
  fun l w =>
    (Normal tt, l,
     mkWorld (_username w) (_password w) (_login_info w) (state w)
             (requests w) (opened w) (released w ++ [rid]) (records w)).

Section Client.

(** The context path is read off the portal's front page when the class
    is defined ([adtpulse_version]); it is a parameter here. *)
Variable ADTPULSEDOTCOM_CONTEXT_PATH : string.

(** [self._websession]; [self._loop] only feeds the timeouts. *)
Variable websession : Transport.

Definition ADTPULSEDOTCOM_URL : string := "https://portal.adtpulse.com".

Definition LOGIN_URL : string :=
  (ADTPULSEDOTCOM_URL ++ ADTPULSEDOTCOM_CONTEXT_PATH ++ "/access/signin.jsp")%string.

Definition DASHBOARD_URL : string :=
  (ADTPULSEDOTCOM_URL ++ ADTPULSEDOTCOM_CONTEXT_PATH ++ "/summary/summary.jsp")%string.

Definition USERNAME : string := "usernameForm".
Definition PASSWORD : string := "passwordForm".
Definition MESSAGE_CONTROL : string := "warnMsgContents".
Definition EVENTVALIDATION : string := "__EVENTVALIDATION".
Definition DISARM_EVENT_VALIDATION : string :=
  ("MnXvTutfO7KZZ1zZ7QR19E0sfvOVCpK7SV" ++
   "yeJ0IkUkbXpfEqLa4fa9PzFK2ydqxNal")%string.
Definition ARM_STAY_EVENT_VALIDATION : string :=
  ("/CwyHTpKH4aUp/pqo5gRwFJmKGubsvmx3RI6n" ++
   "IFcyrtacuqXSy5dMoqBPX3aV2ruxZBTUVxenQ" ++
   "7luwjnNdcsxQW/p+YvHjN9ialbwACZfQsFt2o5")%string.
Definition ARM_AWAY_EVENT_VALIDATION : string :=
  "3ciB9sbTGyjfsnXn7J4LjfBvdGlkqiHoeh1vPjc5".
Definition DISARM_COMMAND : string := "Disarm".
Definition ARM_STAY_COMMAND : string := "Arm Stay".
Definition ARM_AWAY_COMMAND : string := "Arm Away".
Definition ALARM_STATE : string := "divOrbTextSummary".

Definition COMMAND_LIST : Dict.t (Dict.t string) :=
  [ ("Disarm",   [ ("command", DISARM_COMMAND);
                   ("eventvalidation", DISARM_EVENT_VALIDATION) ]);
    ("Arm+Stay", [ ("command", ARM_STAY_COMMAND);
                   ("eventvalidation", ARM_STAY_EVENT_VALIDATION) ]);
    ("Arm+Away", [ ("command", ARM_AWAY_COMMAND);
                   ("eventvalidation", ARM_AWAY_EVENT_VALIDATION) ]) ].

(** [__init__]: the session and the loop are the section's transport. *)
Definition __init__ (username password : string) : World :=
  mkWorld username password None None [] [] [] [].

(** One awaited request under [async_timeout.timeout(10)]: the call is
    recorded, and either the transport error is raised (a timeout shows
    as [TimeoutError]) or the response object is handed out. *)
Definition send_request (rq : Request) : M (nat * ClientResponse) :=
  fun l w =>
    let n := length (requests w) in
    match websession n rq with
    | Fails e =>
        (Raise (exn_of e), l,
         mkWorld (_username w) (_password w) (_login_info w) (state w)
                 (requests w ++ [rq]) (opened w) (released w) (records w))
    | Responds r =>
        (Normal (n, r), l,
         mkWorld (_username w) (_password w) (_login_info w) (state w)
                 (requests w ++ [rq]) (opened w ++ [(n, r)]) (released w)
                 (records w))
    end.

Definition websession_get (u : UrlArg) : M (nat * ClientResponse) :=
  send_request (mkRequest GET u []).

Definition websession_post (u : UrlArg) (d : Dict.t string)
  : M (nat * ClientResponse) :=
  send_request (mkRequest POST u d).

Definition BeautifulSoup (markup : Soup) : Soup := markup.

(** The clause [except (asyncio.TimeoutError, aiohttp.ClientError)]. *)
Definition transport_error (e : Exn) : bool :=
  match e with
  | TimeoutError | ClientError => true
  | _ => false
  end.

(** [async_login] *)
Definition async_login : M PyVal :=
  call (
    _LOGGER_debug "Attempting to log into AdtPulse.com..." [] ;;
    set_response IsNone ;;
    try_except
      ( '(rid, response) <- websession_get (Str LOGIN_URL) ;;
        set_response (Obj rid response) ;;
        _LOGGER_debug "Response status from AdtPulse.com: %s"
                      [AInt (status response)] ;;
        let text := text response in
        emit DEBUG (ASoup text) [] ;;
        let tree := BeautifulSoup text in
        sessionkey <- getitem (cookies response) "JSESSIONID" ;;
        set_login_info (Some [("sessionkey", sessionkey)]) ;;
        emit DEBUG (ADict [("sessionkey", sessionkey)]) [] ;;
        _LOGGER_info "Successfully retrieved sessionkey from AdtPulse.com" [] )
      (fun e =>
         if transport_error e then
           Some (_LOGGER_error "Can not get login page from AdtPulse.com" [] ;;
                 return_ (VBool false))
         else match e with
              | AttributeError =>
                  Some (_LOGGER_error "Unable to get sessionKey from AdtPulse.com" [] ;;
                        raise e)
              | _ => None
              end) ;;
    username <- get_username ;;
    password <- get_password ;;
    let params := Dict.set (Dict.set [] USERNAME username) PASSWORD password in
    try_except
      ( '(rid, response) <- websession_post (BoundFormat LOGIN_URL) params ;;
        set_response (Obj rid response) ;;
        _LOGGER_debug "Status from AdtPulse.com login %s" [AInt (status response)] ;;
        _LOGGER_info "Successful login to AdtPulse.com" [] )
      (fun e =>
         if transport_error e then
           Some (_LOGGER_error "Can not load login page from AdtPulse.com" [] ;;
                 return_ (VBool false))
         else None)
  ).

(** The [finally] clause of [async_update] and [_send]:
    [if response is not None: yield from response.release()]. *)
Definition release_response : M unit :=
  response <- get_response ;;
  match response with
  | Obj rid _ => release rid
  | _ => skip
  end.

(** Truth value of [self._login_info]: [None] or a dict. *)
Definition truth (login_info : option (Dict.t string)) : bool :=
  match login_info with
  | Some d => Dict.truthy d
  | None => false
  end.

(** The [try] statement of [async_update]; [async_update'] stands for
    the [self.async_update()] of its recovery branch. *)
Definition update_try (async_update' : M PyVal) : M unit :=
  try_finally
    (try_except
       ( '(rid, response) <- websession_get (BoundFormat DASHBOARD_URL) ;;
         set_response (Obj rid response) ;;
         _LOGGER_debug "Response from AdtPulse.com: %s"
                       [AInt (status response)] ;;
         let text := text response in
         emit DEBUG (ASoup text) [] ;;
         let tree := BeautifulSoup text in
         try_except
           ( tag <- first (select ALARM_STATE tree) ;;
             set_state (Some (get_text tag)) ;;
             _LOGGER_debug "Current alarm state: %s" [AStr (get_text tag)] )
           (fun e =>
              match e with
              | IndexError =>
                  (* We may have timed out. Re-login again *)
                  Some (set_state None ;;
                        set_login_info None ;;
                        async_update' ;; skip)
              | _ => None
              end) )
       (fun e =>
          if transport_error e then
            Some (_LOGGER_error "Can not load login page from AdtPulse.com" [] ;;
                  return_ (VBool false))
          else None))
    release_response.

(** [async_update]; [fuel] bounds the depth of the recursion. *)
Fixpoint async_update (fuel : nat) : M PyVal :=
  match fuel with
  | O => out_of_fuel
  | S fuel' =>
      call (
        _LOGGER_debug "Calling update on AdtPulse.com" [] ;;
        set_response IsNone ;;
        login_info <- get_login_info ;;
        when (negb (truth login_info)) (async_login ;; skip) ;;
        update_try (async_update fuel')
      )
  end.

(** The body of [_send]; the primed arguments stand for the methods it
    calls on [self]. The local [response] is first bound by the POST. *)
Definition send_body (event : string)
           (async_update' async_alarm_disarm' async_alarm_arm_away' : M PyVal)
  : M unit :=
  _LOGGER_debug "Sending %s to AdtPulse.com" [AStr event] ;;
  try_finally
    (try_except
       ( login_info <- get_login_info ;;
         sessionkey <- subscript login_info "sessionkey" ;;
         target <- lift (str_format DASHBOARD_URL [sessionkey]) ;;
         command <- getitem COMMAND_LIST event ;;
         eventvalidation <- getitem command "eventvalidation" ;;
         command <- getitem COMMAND_LIST event ;;
         field <- getitem command "command" ;;
         '(rid, response) <-
           websession_post
             (Str target)
             (Dict.set (Dict.set [] EVENTVALIDATION eventvalidation)
                       field event) ;;
         set_response (Obj rid response) ;;
         _LOGGER_debug "Response from AdtPulse.com %s"
                       [AInt (status response)] ;;
         let text := text response in
         let tree := BeautifulSoup text in
         try_except
           ( tag <- first (select ("#" ++ MESSAGE_CONTROL)%string tree) ;;
             let message := get_text tag in
             when (contains "command" message)
                  (emit DEBUG (AStr message) [] ;;
                   (* Update adtpulse.com status after calling state change. *)
                   async_update' ;; skip) )
           (fun e =>
              match e with
              | IndexError =>
                  (* May have been logged out *)
                  Some (async_login ;;
                        if String.eqb event "Disarm" then
                          async_alarm_disarm' ;; skip
                        else if String.eqb event "Arm+Stay" then
                          async_alarm_arm_away' ;; skip
                        else if String.eqb event "Arm+Away" then
                          async_alarm_arm_away' ;; skip
                        else skip)
              | _ => None
              end) )
       (fun e =>
          if transport_error e then
            Some (_LOGGER_error
                    "Error while trying to disarm AdtPulse.com system" [])
          else None))
    release_response.

(** [_send], with [async_alarm_disarm] and [async_alarm_arm_away] as it
    calls them back; [fuel] bounds the depth of the recursion. *)
Fixpoint _send (fuel : nat) (event : string) : M PyVal :=
  match fuel with
  | O => out_of_fuel
  | S fuel' =>
      call (send_body event
                      (async_update fuel')
                      (call (_send fuel' "Disarm" ;; skip))
                      (call (_send fuel' "Arm+Away" ;; skip)))
  end.

(** [async_alarm_disarm] *)
Definition async_alarm_disarm (fuel : nat) : M PyVal :=
  call (_send fuel "Disarm" ;; skip).

(** [async_alarm_arm_home] *)
Definition async_alarm_arm_home (fuel : nat) : M PyVal :=
  call (_send fuel "Arm+Stay" ;; skip).

(** [async_alarm_arm_away] *)
Definition async_alarm_arm_away (fuel : nat) : M PyVal :=
  call (_send fuel "Arm+Away" ;; skip).

End Client.

(** ** The context path: [adtpulse_version] *)

(** [tag.string]: the text of a tag whose only child is a string, or a
    tag with such a [.string]; [None] otherwise. *)
Fixpoint tag_string (n : Node) : option string :=
  match n with
  | NavigableString s => Some s
  | Tag _ _ cs =>
      match cs with
      | [c] => tag_string c
      | _ => None
      end
  end.

(** [tree.find_all(name, attr=value)]: the tags of that name whose
    attribute has that value, in document order. *)
Definition find_all (name attr value : string) (tree : Soup) : list Node :=
  filter (fun n =>
            match n with
            | NavigableString _ => false
            | Tag name' attrs _ =>
                String.eqb name' name &&
                match Dict.get attrs attr with
                | Some v => String.eqb v value
                | None => false
                end
            end)
         (flat_map tags tree).

(** [s.split(sep, 1)] for a one-character separator: [s] alone when
    [sep] does not occur, else the text before and after its first
    occurrence. *)
Fixpoint split_once (sep : ascii) (s : string) : list string :=
  match s with
  | EmptyString => [EmptyString]
  | String c s' =>
      if Ascii.eqb c sep then [EmptyString; s']
      else match split_once sep s' with
           | before :: rest => String c before :: rest
           | [] => []
           end
  end.

(** [s[start:stop]] *)
Definition slice (s : string) (start stop : Z) : string :=
  let len := Z.of_nat (String.length s) in
  let clamp i := if (i <? 0)%Z then Z.max 0 (len + i) else Z.min i len in
  let a := clamp start in
  let b := clamp stop in
  String.substring (Z.to_nat a) (Z.to_nat (b - a)) s.

(** [adtpulse_version]; [requests_get] is the blocking [requests.get],
    which hands back the parsed content or raises. *)
Definition adtpulse_version (requests_get : string -> Exn + Soup)
           (ADTPULSEDOTCOM_URL : string) : Exn + string :=
  match requests_get ADTPULSEDOTCOM_URL with
  | inl e => inl e
  | inr content =>
      let parsed := BeautifulSoup content in
      match nth_error (find_all "script" "type" "text/javascript" parsed) 4 with
      | None => inl IndexError
      | Some tag =>
          match tag_string tag with
          | None => inl TypeError          (* ["=" in None] *)
          | Some adtpulse_script =>
              let value :=
                if contains "=" adtpulse_script then
                  match split_once "=" adtpulse_script with
                  | [param; value] => inr (Some value)
                  | _ => inl ValueError    (* unpacking *)
                  end
                else inr None              (* [value] stays unbound *)
              in
              match value with
              | inl e => inl e
              | inr None => inl (UnboundLocalError "value")
              | inr (Some value) =>
                  let adtpulse_version := value in
                  let adtpulse_version := slice adtpulse_version 1 (-2) in
                  inr adtpulse_version
              end
          end
      end
  end.

(** The class constants built from it. *)
Definition ADTPULSEDOTCOM_CONTEXT_PATH (requests_get : string -> Exn + Soup)
  : Exn + string :=
  adtpulse_version requests_get ADTPULSEDOTCOM_URL.

(** ** Observations on a run *)

(** The four request sites of the class differ in method or in the shape of
    the URL argument, so a recorded request tells which site issued it. *)
Definition is_login_get (rq : Request) : bool :=
  match method rq, url rq with GET, Str _ => true | _, _ => false end.


Definition is_dashboard_get (rq : Request) : bool :=
  match method rq, url rq with GET, BoundFormat _ => true | _, _ => false end.

Definition is_command_post (rq : Request) : bool :=
  match method rq, url rq with POST, Str _ => true | _, _ => false end.

Definition count (p : Request -> bool) (rqs : list Request) : nat :=
  length (filter p rqs).

(** The session check of [async_update]: [not self._login_info] is false. *)
Definition is_active (w : World) : bool := truth (_login_info w).

(** The requests the class builds. *)
Definition login_get (ctx : string) : Request :=
  mkRequest GET (Str (LOGIN_URL ctx)) [].

Definition login_post (ctx username password : string) : Request :=
  mkRequest POST (BoundFormat (LOGIN_URL ctx))
            [(USERNAME, username); (PASSWORD, password)].

Definition dashboard_get (ctx : string) : Request :=
  mkRequest GET (BoundFormat (DASHBOARD_URL ctx)) [].

Definition command_post (ctx eventvalidation field event : string) : Request :=
  mkRequest POST (Str (DASHBOARD_URL ctx))
            [(EVENTVALIDATION, eventvalidation); (field, event)].

Definition disarm_post (ctx : string) : Request :=
  command_post ctx DISARM_EVENT_VALIDATION DISARM_COMMAND "Disarm".

Definition arm_stay_post (ctx : string) : Request :=
  command_post ctx ARM_STAY_EVENT_VALIDATION ARM_STAY_COMMAND "Arm+Stay".

Definition arm_away_post (ctx : string) : Request :=
  command_post ctx ARM_AWAY_EVENT_VALIDATION ARM_AWAY_COMMAND "Arm+Away".

(** [w] after a piece of a run: session and state as given, the four
    traces extended. *)
Definition advance (w : World) (login_info : option (Dict.t string))
           (st : option string) (rqs : list Request)
           (ops : list (nat * ClientResponse)) (rels : list nat)
           (recs : list LogRecord) : World :=
  mkWorld (_username w) (_password w) login_info st
          (requests w ++ rqs) (opened w ++ ops) (released w ++ rels)
          (records w ++ recs).

Definition raised {A : Type} (c : Completion A) : nat :=
  match c with Raise _ => 1 | _ => 0 end.

Definition fuel_left {A : Type} (c : Completion A) : bool :=
  match c with OutOfFuel => false | _ => true end.

(** No transport error leaves the coroutine. *)
Definition quiet {A : Type} (c : Completion A) : Prop :=
  forall e, c = Raise e -> transport_error e = false.

(** *** Scrapes of the dashboard along a trace *)

(** What [async_update] reads off a dashboard page. *)
Definition scraped (r : ClientResponse) : option string :=
  match select ALARM_STATE (text r) with
  | [] => None
  | tag :: _ => Some (get_text tag)
  end.

(** The state after request [i], from the state before it. *)
Definition scrape (tr : Transport) (i : nat) (rq : Request)
           (st : option string) : option string :=
  if is_dashboard_get rq then
    match tr i rq with
    | Responds r => scraped r
    | Fails _ => st
    end
  else st.

(** The state after the requests [rqs], the first of which is request [i]. *)
Fixpoint replay (tr : Transport) (i : nat) (rqs : list Request)
         (st : option string) : option string :=
  match rqs with
  | [] => st
  | rq :: rest => replay tr (S i) rest (scrape tr i rq st)
  end.

(** Request [i] is a dashboard GET whose page has no state element. *)
Definition scrape_fails (tr : Transport) (i : nat) (rq : Request) : bool :=
  is_dashboard_get rq &&
  match tr i rq with
  | Responds r =>
      match select ALARM_STATE (text r) with [] => true | _ :: _ => false end
  | Fails _ => false
  end.

Fixpoint failed_scrapes (tr : Transport) (i : nat) (rqs : list Request) : nat :=
  match rqs with
  | [] => 0
  | rq :: rest =>
      (if scrape_fails tr i rq then 1 else 0) + failed_scrapes tr (S i) rest
  end.

(** What a run of [async_update], or of its [try] statement, adds to the
    trace: [new] are its requests, [entry] the logins its session check
    causes, [c_raised] is 1 when an exception leaves it. *)
Record refresh_run (tr : Transport) (entry : nat) (w : World) (c_raised : nat)
       (fuel_left : bool) (w' : World) (new : list Request) : Prop :=
  mkRefreshRun {
  run_requests : requests w' = requests w ++ new;
  run_state : state w' = replay tr (length (requests w)) new (state w);
  run_commands : count is_command_post new = 0;
  run_logins : fuel_left = true ->
    count is_login_get new =
      entry + failed_scrapes tr (length (requests w)) new;
  run_refreshes : fuel_left = true ->
    count is_dashboard_get new + c_raised =
      1 + failed_scrapes tr (length (requests w)) new
}.

(** Request [k] of [new] (request [i + k] of the run) is a dashboard GET
    whose page scrapes to [result]. *)
Definition scrape_at (tr : Transport) (i : nat) (new : list Request) (k : nat)
           (result : option string) : Prop :=
  exists rq r,
    nth_error new k = Some rq /\ is_dashboard_get rq = true /\
    tr (i + k) rq = Responds r /\ scraped r = result.


(** *** Commands *)

(** The form [_send] posts for [event], for the keys of [COMMAND_LIST]. *)
Definition command_request (ctx event : string) : option Request :=
  match Dict.get COMMAND_LIST event with
  | Some command =>
      match Dict.get command "eventvalidation", Dict.get command "command" with
      | Some eventvalidation, Some field =>
          Some (command_post ctx eventvalidation field event)
      | _, _ => None
      end
  | None => None
  end.

(** The command the recovery branch of [_send] issues after a login, as
    its [if]/[elif] chain reads. *)
Definition redispatch (event : string) : option string :=
  if String.eqb event "Disarm" then Some "Disarm"
  else if String.eqb event "Arm+Stay" then Some "Arm+Away"
  else if String.eqb event "Arm+Away" then Some "Arm+Away"
  else None.

(** The requests of a Disarm whose session expires [k] times in a row:
    each round is the command, the login GET and the credentials POST. *)
Fixpoint recovery_trace (ctx username password : string) (k : nat)
  : list Request :=
  match k with
  | O => [disarm_post ctx]
  | S k' =>
      disarm_post ctx :: login_get ctx :: login_post ctx username password
        :: recovery_trace ctx username password k'
  end.

(** From request [n] on, the portal reports the session expired (no
    message element in the reply to the Disarm) and then lets the client
    log in. *)
Definition expires (ctx : string) (tr : Transport) (username password : string)
           (n : nat) : Prop :=
  (exists r, tr n (disarm_post ctx) = Responds r /\
             select ("#" ++ MESSAGE_CONTROL)%string (text r) = []) /\
  (exists r key, tr (S n) (login_get ctx) = Responds r /\
                 Dict.get (cookies r) "JSESSIONID" = Some key) /\
  (exists r, tr (S (S n)) (login_post ctx username password) = Responds r).

(** The reply to the Disarm at request [n] carries a message that does
    not contain "command". *)
Definition notice_at (ctx : string) (tr : Transport) (n : nat) : Prop :=
  exists r tag more,
    tr n (disarm_post ctx) = Responds r /\
    select ("#" ++ MESSAGE_CONTROL)%string (text r) = tag :: more /\
    contains "command" (get_text tag) = false.

(** *** Relations between the world before and after a run *)

(** [w'] continues [w]: same credentials, the four traces extended. *)
Record extends (w w' : World) : Prop := mkExtends {
  ext_username : _username w' = _username w;
  ext_password : _password w' = _password w;
  ext_requests : exists new, requests w' = requests w ++ new;
  ext_opened : exists new, opened w' = opened w ++ new;
  ext_released : exists new, released w' = released w ++ new;
  ext_records : exists new, records w' = records w ++ new
}.

(** Every run of [m] relates the world it starts in to the one it ends in. *)
Definition keeps (R : World -> World -> Prop) {A : Type} (m : M A) : Prop :=
  forall l w c l' w', m l w = (c, l', w') -> R w w'.

(** *** Responses along a trace *)

(** The responses handed out for the requests [rqs], the first of which
    is request [i]: one for each request the transport answers. *)
Fixpoint answered (tr : Transport) (i : nat) (rqs : list Request)
  : list (nat * ClientResponse) :=
  match rqs with
  | [] => []
  | rq :: rest =>
      match tr i rq with
      | Responds r => [(i, r)]
      | Fails _ => []
      end ++ answered tr (S i) rest
  end.

(** Among them, the indices of the answered dashboard GETs. *)
Fixpoint dashboard_answered (tr : Transport) (i : nat) (rqs : list Request)
  : list nat :=
  match rqs with
  | [] => []
  | rq :: rest =>
      (if is_dashboard_get rq then
         match tr i rq with
         | Responds _ => [i]
         | Fails _ => []
         end
       else []) ++ dashboard_answered tr (S i) rest
  end.

(** What a run of [async_update], or of its [try] statement, opens and
    releases; [done] says that it did not run out of fuel. *)
Record refresh_account (tr : Transport) (w : World) (done : bool)
       (w' : World) (new : list Request) : Prop := mkRefreshAccount {
  acc_requests : requests w' = requests w ++ new;
  acc_opened :
    opened w' = opened w ++ answered tr (length (requests w)) new;
  acc_released : done = true ->
    released w' =
      released w ++ rev (dashboard_answered tr (length (requests w)) new)
}.

(** The ways a refresh can end. *)
Definition refresh_completion (c : Completion PyVal) : Prop :=
  c = Normal VNone \/ c = Normal (VBool false)
  \/ c = Raise (KeyError "JSESSIONID") \/ c = OutOfFuel.

(** The ways its [try] statement can end. *)
Definition try_completion (c : Completion unit) : Prop :=
  c = Normal tt \/ c = Return (VBool false)
  \/ c = Raise (KeyError "JSESSIONID") \/ c = OutOfFuel.

(** The requests of a refresh whose session is lost [k] times in a row:
    each round is the dashboard GET, the login GET and the credentials
    POST; the last dashboard GET ends it. *)
Fixpoint refresh_trace (ctx username password : string) (k : nat)
  : list Request :=
  match k with
  | O => [dashboard_get ctx]
  | S k' =>
      dashboard_get ctx :: login_get ctx :: login_post ctx username password
        :: refresh_trace ctx username password k'
  end.

(** From request [n] on, the dashboard page has no state element and the
    client can then log in. *)
Definition session_lost (ctx : string) (tr : Transport)
           (username password : string) (n : nat) : Prop :=
  (exists r, tr n (dashboard_get ctx) = Responds r /\
             select ALARM_STATE (text r) = []) /\
  (exists r key, tr (S n) (login_get ctx) = Responds r /\
                 Dict.get (cookies r) "JSESSIONID" = Some key) /\
  (exists r, tr (S (S n)) (login_post ctx username password) = Responds r).

(** *** Replies to commands along a trace *)





(** No login after the first: a refresh on a held session issues no login
    GET, whatever comes back. *)
Definition refresh_skips_login (ctx : string) (tr : Transport) (w : World)
  : Prop :=
  forall fuel l c l' w',
    async_update ctx tr fuel l w = (c, l', w') ->
    c <> OutOfFuel ->
    count is_login_get (requests w') = count is_login_get (requests w).

(** ** The properties as the specification words them *)

(** Recovery bounded by one: a refresh on a held session whose dashboard
    page has no state element logs in once and fetches the dashboard once
    more, whatever comes back. *)
Definition recovers_once (ctx : string) (tr : Transport) (w : World) : Prop :=
  forall r fuel l c l' w',
    tr (length (requests w)) (dashboard_get ctx) = Responds r ->
    select ALARM_STATE (text r) = [] ->
    async_update ctx tr fuel l w = (c, l', w') ->
    c <> OutOfFuel ->
    count is_login_get (requests w') = count is_login_get (requests w) + 1 /\
    count is_dashboard_get (requests w') =
      count is_dashboard_get (requests w) + 2.


(** ** Sample pages and scripted sessions *)

Definition sample_context_path : string := "/myhome/13.0.0-153".

(** The sign-in page, which sets the session cookie. *)
Definition signin_page : ClientResponse :=
  mkResponse 200 [("JSESSIONID", "0123ABCD")]
             [Tag "form" [("name", "signin")] []].

(** The same page served without a cookie. *)
Definition signin_page_no_cookie : ClientResponse :=
  mkResponse 200 [] [Tag "form" [("name", "signin")] []].

(** What the portal serves once the session is gone: neither the state
    element nor the message element. *)
Definition signed_out_page : ClientResponse :=
  mkResponse 200 [] [Tag "form" [("name", "signin")] []].

(** A dashboard: [<div id="divOrbTextSummary">Armed Away</div>]. *)
Definition armed_away_page : ClientResponse :=
  mkResponse 200 []
             [Tag "div" [("id", "divOrbTextSummary")]
                  [NavigableString "Armed Away"]].

(** A dashboard with a message that does not acknowledge a command. *)
Definition notice_page : ClientResponse :=
  mkResponse 200 []
             [Tag "div" [("id", "warnMsgContents")]
                  [NavigableString "Please try again."]].

(** A session that answers its requests from a list, in order, and fails
    once the list is used up. *)
Definition scripted (replies : list Reply) : Transport :=
  fun n _ => nth n replies (Fails Connection).

(** A client that holds a session and last saw [st]. *)
Definition signed_in (st : option string) : World :=
  mkWorld "user" "secret" (Some [("sessionkey", "0123ABCD")]) st [] [] [] [].

(** The session expires, and so does the one the first recovery obtains. *)
Definition expires_twice : Transport :=
  scripted [ Responds signed_out_page;
             Responds signin_page; Responds signed_out_page;
             Responds signed_out_page;
             Responds signin_page; Responds signed_out_page;
             Fails Timeout ].

(** The session expires once; the retry times out. *)
Definition expires_once : Transport :=
  scripted [ Responds signed_out_page;
             Responds signin_page; Responds signed_out_page;
             Fails Timeout ].


(** The session is reported expired once. *)
Definition expired_once_for_send : Transport :=
  scripted [ Responds signed_out_page;
             Responds signin_page; Responds signed_out_page;
             Responds notice_page ].

(** Login works: the sign-in page, then any page for the credentials. *)
Definition login_works : Transport :=
  scripted [ Responds signin_page; Responds signed_out_page ].

(** The sign-in page comes without a session cookie. *)
Definition login_without_cookie : Transport :=
  scripted [ Responds signin_page_no_cookie ].

(** The dashboard shows "Armed Away" once; after that the portal is
    unreachable. *)
Definition armed_away_once : Transport :=
  scripted [ Responds armed_away_page ].

(** The portal cannot be reached: every request fails. *)
Definition unreachable : Transport := scripted [].

(** Every dashboard GET shows "Armed Away", every login works. *)
Definition always_armed_away : Transport :=
  fun _ rq =>
    if is_dashboard_get rq then Responds armed_away_page
    else if is_login_get rq then Responds signin_page
    else Responds signed_out_page.

(** *** More sample pages *)

(** A script element of the front page. *)
Definition script (s : string) : Node :=
  Tag "script" [("type", "text/javascript")] [NavigableString s].

(** A front page whose fifth script of type text/javascript assigns the
    context path; a script without that type comes before it. *)
Definition front_page : Soup :=
  [ Tag "html" []
        [ Tag "head" []
              [ script "var a = 1;"; script "var b = 2;";
                Tag "script" [] [NavigableString "var skipped = 0;"];
                script "var c = 3;"; script "var d = 4;";
                script "var contextPath='/myhome/13.0.0-153';" ];
          Tag "body" [] [] ] ].

(** A front page with four scripts only. *)
Definition short_front_page : Soup :=
  [ Tag "html" []
        [ Tag "head" []
              [ script "var a = 1;"; script "var b = 2;";
                script "var c = 3;"; script "var d = 4;" ] ] ].

(** A front page whose fifth script assigns nothing. *)
Definition odd_front_page : Soup :=
  [ Tag "html" []
        [ Tag "head" []
              [ script "var a = 1;"; script "var b = 2;";
                script "var c = 3;"; script "var d = 4;";
                script "init();" ] ] ].

(** A page in which the class's selector does find something: an element
    whose tag name is the selector, [<divOrbTextSummary>Disarmed</...>]. *)
Definition state_page : ClientResponse :=
  mkResponse 200 []
             [Tag "divorbtextsummary" [] [NavigableString "Disarmed"]].

(** A dashboard whose message acknowledges a command. *)
Definition acknowledged_page : ClientResponse :=
  mkResponse 200 []
             [Tag "div" [("id", "warnMsgContents")]
                  [NavigableString "Your command has been sent."]].

(** The dashboard answers at once. *)
Definition dashboard_up : Transport := scripted [ Responds state_page ].

(** The login works and the dashboard answers. *)
Definition login_then_dashboard : Transport :=
  scripted [ Responds signin_page; Responds signed_out_page;
             Responds state_page ].

(** The login GET fails; the dashboard answers all the same. *)
Definition login_down_dashboard_up : Transport :=
  scripted [ Fails Connection; Responds state_page ].

(** The session expires once, then the dashboard shows the state. *)
Definition expires_then_state : Transport :=
  scripted [ Responds signed_out_page;
             Responds signin_page; Responds signed_out_page;
             Responds state_page ].

(** The credentials POST times out. *)
Definition login_post_times_out : Transport :=
  scripted [ Responds signin_page; Fails Timeout ].

(** A command is acknowledged and the refresh that follows succeeds. *)
Definition command_acknowledged : Transport :=
  scripted [ Responds acknowledged_page; Responds state_page ].

(** A command gets a plain notice. *)
Definition command_noticed : Transport := scripted [ Responds notice_page ].

(** The session is reported expired and the login page cannot be fetched;
    the command sent again gets a notice. *)
Definition expired_login_down : Transport :=
  scripted [ Responds signed_out_page; Fails Connection;
             Responds notice_page ].

(** The session is reported expired and the login page has no cookie. *)
Definition expired_login_without_cookie : Transport :=
  scripted [ Responds signed_out_page; Responds signin_page_no_cookie ].

(** A client without a session that last saw [st]. *)
Definition signed_out (st : option string) : World :=
  mkWorld "user" "secret" None st [] [] [] [].

(** The login works; the dashboard page that follows has no state
    element, the login works again, and the dashboard shows the state. *)
Definition login_then_expiry : Transport :=
  scripted [ Responds signin_page; Responds signed_out_page;
             Responds signed_out_page;
             Responds signin_page; Responds signed_out_page;
             Responds state_page ].

(** ** Proof support *)

Arguments LOGIN_URL : simpl never.
Arguments DASHBOARD_URL : simpl never.
Arguments async_login : simpl never.
Arguments async_update : simpl never.
Arguments _send : simpl never.
Arguments select : simpl never.
Arguments count : simpl never.
Arguments scrape : simpl never.
Arguments scrape_fails : simpl never.
Arguments Dict.get {V} d k : simpl nomatch.

Ltac unfold_monad :=
  unfold call, bind, try_except, try_finally, when, skip, ret, raise, return_,
    lift, getitem, subscript, first, release_response, get_response,
    set_response, get_login_info, set_login_info, get_state, set_state,
    get_username, get_password, _LOGGER_debug, _LOGGER_info, _LOGGER_error,
    emit, release, websession_get, websession_post, send_request in *.

Ltac normalize_traces :=
  repeat rewrite length_app in *;
  repeat rewrite Nat.add_1_r in *;
  repeat rewrite <- app_assoc in *;
  repeat rewrite app_nil_r in *;
  cbn in *.

(** ** Basic facts *)

Lemma str_format_brace_free (s : string) (args : list string) :
  brace_free s = true -> str_format s args = inr s.
Proof.
  induction s as [|c s IH]; intros H; [reflexivity|].
  cbn [brace_free] in H. apply andb_true_iff in H. destruct H as [Hc Hs].
  unfold brace in Hc. apply negb_true_iff, orb_false_iff in Hc.
  destruct Hc as [H1 H2].
  cbn [str_format]. rewrite H1, H2, (IH Hs). reflexivity.
Qed.

Lemma brace_free_app (s t : string) :
  brace_free (s ++ t) = brace_free s && brace_free t.
Proof.
  induction s as [|c s IH]; [reflexivity|].
  cbn [String.append brace_free]. rewrite IH. apply andb_assoc.
Qed.

Lemma brace_free_DASHBOARD_URL (ctx : string) :
  brace_free ctx = true -> brace_free (DASHBOARD_URL ctx) = true.
Proof.
  intros H. unfold DASHBOARD_URL.
  rewrite !brace_free_app, H. reflexivity.
Qed.

Lemma count_app (p : Request -> bool) (l1 l2 : list Request) :
  count p (l1 ++ l2) = count p l1 + count p l2.
Proof.
  unfold count. rewrite filter_app, length_app. reflexivity.
Qed.

Lemma count_cons (p : Request -> bool) rq l :
  count p (rq :: l) = (if p rq then 1 else 0) + count p l.
Proof. unfold count; cbn. destruct (p rq); reflexivity. Qed.

Lemma count_nil (p : Request -> bool) : count p [] = 0.
Proof. reflexivity. Qed.

Lemma call_frame (body : M unit) l w c l' w' :
  call body l w = (c, l', w') -> l' = l /\ forall v, c <> Return v.
Proof.
  unfold call. destruct (body Unbound w) as [[[a|v|e|] l0] w0];
    intros H; inversion H; subst; split; try reflexivity; intros v'; discriminate.
Qed.

(** ** Runs of [async_login] *)

Section Login.

Variable ctx : string.
Variable tr : Transport.

(** The login GET fails: [False], one request, nothing opened. *)
Lemma async_login_get_fails l w e :
  tr (length (requests w)) (login_get ctx) = Fails e ->
  exists recs,
    async_login ctx tr l w =
      (Normal (VBool false), l,
       advance w (_login_info w) (state w) [login_get ctx] [] [] recs).
Proof.
  intros H. unfold async_login, login_get, advance in *. unfold_monad. cbn.
  rewrite H. destruct e; cbn; normalize_traces; eexists; reflexivity.
Qed.

(** No session cookie in the login page: [KeyError] leaves the call. *)
Lemma async_login_no_cookie l w r :
  tr (length (requests w)) (login_get ctx) = Responds r ->
  Dict.get (cookies r) "JSESSIONID" = None ->
  exists recs,
    async_login ctx tr l w =
      (Raise (KeyError "JSESSIONID"), l,
       advance w (_login_info w) (state w) [login_get ctx]
               [(length (requests w), r)] [] recs).
Proof.
  intros H1 H2. unfold async_login, login_get, advance in *. unfold_monad. cbn.
  rewrite H1. cbn. rewrite H2. cbn. normalize_traces. eexists; reflexivity.
Qed.

(** The credentials POST fails: [False], the session stays set. *)
Lemma async_login_post_fails l w r key e :
  tr (length (requests w)) (login_get ctx) = Responds r ->
  Dict.get (cookies r) "JSESSIONID" = Some key ->
  tr (S (length (requests w)))
     (login_post ctx (_username w) (_password w)) = Fails e ->
  exists recs,
    async_login ctx tr l w =
      (Normal (VBool false), l,
       advance w (Some [("sessionkey", key)]) (state w)
               [login_get ctx; login_post ctx (_username w) (_password w)]
               [(length (requests w), r)] [] recs).
Proof.
  intros H1 H2 H3.
  unfold async_login, login_get, login_post, advance in *. unfold_monad. cbn.
  rewrite H1. cbn. rewrite H2. cbn. normalize_traces.
  rewrite H3. destruct e; cbn; normalize_traces; eexists; reflexivity.
Qed.

(** Both requests complete: the coroutine falls off its end. *)
Lemma async_login_completes l w r1 key r2 :
  tr (length (requests w)) (login_get ctx) = Responds r1 ->
  Dict.get (cookies r1) "JSESSIONID" = Some key ->
  tr (S (length (requests w)))
     (login_post ctx (_username w) (_password w)) = Responds r2 ->
  exists recs,
    async_login ctx tr l w =
      (Normal VNone, l,
       advance w (Some [("sessionkey", key)]) (state w)
               [login_get ctx; login_post ctx (_username w) (_password w)]
               [(length (requests w), r1); (S (length (requests w)), r2)]
               [] recs).
Proof.
  intros H1 H2 H3.
  unfold async_login, login_get, login_post, advance in *. unfold_monad. cbn.
  rewrite H1. cbn. rewrite H2. cbn. normalize_traces.
  rewrite H3. cbn. normalize_traces. eexists; reflexivity.
Qed.

(** Every run of [async_login]: the login GET comes first, at most the
    credentials POST follows, nothing is released and the state is kept. *)
Lemma async_login_run l w :
  exists c li rqs ops recs,
    async_login ctx tr l w =
      (c, l, advance w li (state w) (login_get ctx :: rqs) ops [] recs)
    /\ (rqs = [] \/ rqs = [login_post ctx (_username w) (_password w)])
    /\ (c = Normal VNone \/ c = Normal (VBool false)
        \/ c = Raise (KeyError "JSESSIONID")).
Proof.
  destruct (tr (length (requests w)) (login_get ctx)) as [e|r1] eqn:H1.
  { destruct (async_login_get_fails l w e H1) as [recs E].
    do 5 eexists. split; [exact E|]. split; [left; reflexivity|].
    right; left; reflexivity. }
  destruct (Dict.get (cookies r1) "JSESSIONID") as [key|] eqn:H2.
  2:{ destruct (async_login_no_cookie l w r1 H1 H2) as [recs E].
      do 5 eexists. split; [exact E|]. split; [left; reflexivity|].
      right; right; reflexivity. }
  destruct (tr (S (length (requests w)))
               (login_post ctx (_username w) (_password w))) as [e|r2] eqn:H3.
  { destruct (async_login_post_fails l w r1 key e H1 H2 H3) as [recs E].
    do 5 eexists. split; [exact E|]. split; [right; reflexivity|].
    right; left; reflexivity. }
  destruct (async_login_completes l w r1 key r2 H1 H2 H3) as [recs E].
  do 5 eexists. split; [exact E|]. split; [right; reflexivity|].
  left; reflexivity.
Qed.

End Login.


(** ** Runs of [async_update] *)

Section Refresh.

Variable ctx : string.
Variable tr : Transport.

Lemma async_update_S fuel :
  async_update ctx tr (S fuel) =
    call (_LOGGER_debug "Calling update on AdtPulse.com" [] ;;
          set_response IsNone ;;
          login_info <- get_login_info ;;
          when (negb (truth login_info)) (async_login ctx tr ;; skip) ;;
          update_try ctx tr (async_update ctx tr fuel)).
Proof. reflexivity. Qed.

Lemma async_update_frame fuel l w c l' w' :
  async_update ctx tr fuel l w = (c, l', w') -> l' = l /\ forall v, c <> Return v.
Proof.
  destruct fuel as [|fuel].
  - cbn. intros H; inversion H; subst. split; [reflexivity|intros v; discriminate].
  - rewrite async_update_S. apply call_frame.
Qed.

Lemma replay_app rqs1 : forall i rqs2 st,
  replay tr i (rqs1 ++ rqs2) st = replay tr (i + length rqs1) rqs2 (replay tr i rqs1 st).
Proof.
  induction rqs1 as [|rq rqs1 IH]; intros i rqs2 st; cbn.
  - rewrite Nat.add_0_r. reflexivity.
  - rewrite IH. f_equal. lia.
Qed.

Lemma failed_scrapes_app rqs1 : forall i rqs2,
  failed_scrapes tr i (rqs1 ++ rqs2) =
    failed_scrapes tr i rqs1 + failed_scrapes tr (i + length rqs1) rqs2.
Proof.
  induction rqs1 as [|rq rqs1 IH]; intros i rqs2; cbn.
  - rewrite Nat.add_0_r. reflexivity.
  - rewrite IH. replace (S i + length rqs1) with (i + S (length rqs1)) by lia. lia.
Qed.

Lemma update_try_run (retry : M PyVal) :
  (forall l w c l' w', retry l w = (c, l', w') ->
     l' = l /\ (forall v, c <> Return v) /\ quiet c /\
     exists new, refresh_run tr (if is_active w then 0 else 1) w (raised c) (fuel_left c) w' new) ->
  forall w c l' w',
    update_try ctx tr retry IsNone w = (c, l', w') ->
    quiet c /\ exists new, refresh_run tr 0 w (raised c) (fuel_left c) w' new.
Proof.
  intros Hretry w c l' w' H.
  unfold update_try, BeautifulSoup in H. unfold_monad. cbn in H.
  destruct (tr (length (requests w))
               {| method := GET; url := BoundFormat (DASHBOARD_URL ctx); data := [] |})
    as [e|r] eqn:Hreply.
  - (* the dashboard GET fails *)
    destruct e; cbn in H; inversion H; subst; clear H.
    all: split; [intros e; discriminate|].
    all: exists [dashboard_get ctx]; unfold dashboard_get; split; rewrite ?count_cons, ?count_nil; cbn; try reflexivity.
    all: unfold scrape, scrape_fails; cbn; rewrite Hreply; reflexivity.
  - cbn in H. destruct (select ALARM_STATE (text r)) as [|tag rest] eqn:Hsel; cbn in H.
    + (* no state element: recovery *)
      match type of H with context [retry ?l ?w2] =>
        destruct (retry l w2) as [[c2 l2] w3] eqn:E2 end.
      apply Hretry in E2. destruct E2 as (-> & Hret & Hq & new & R).
      destruct R as [Rq Rs Rc Rl Rr]. cbn in Rq, Rs, Rc, Rl, Rr.
      rewrite length_app, Nat.add_1_r in Rs, Rl, Rr. cbn in Rs, Rl, Rr.
      assert (Hfail : scrape_fails tr (length (requests w)) (dashboard_get ctx) = true).
      { unfold scrape_fails, dashboard_get. cbn. rewrite Hreply, Hsel. reflexivity. }
      unfold dashboard_get in Hfail.
      assert (Hscr : forall st, scrape tr (length (requests w)) (dashboard_get ctx) st = None).
      { intros st. unfold scrape, dashboard_get. cbn. rewrite Hreply. unfold scraped.
        rewrite Hsel. reflexivity. }
      unfold dashboard_get in Hscr.
      destruct c2 as [v|v|e|]; cbn in H.
      * inversion H; subst; clear H. split; [intros e; discriminate|].
        exists (dashboard_get ctx :: new). unfold dashboard_get. split; rewrite ?count_cons, ?count_nil; cbn.
        -- rewrite Rq, <- app_assoc. reflexivity.
        -- rewrite Hscr. exact Rs.
        -- exact Rc.
        -- intros _. rewrite Hfail. rewrite (Rl eq_refl). reflexivity.
        -- intros _. rewrite Hfail. specialize (Rr eq_refl). cbn in Rr. lia.
      * exfalso. exact (Hret v eq_refl).
      * rewrite (Hq e eq_refl) in H. cbn in H. inversion H; subst; clear H.
        split; [intros e' He'; inversion He'; subst; exact (Hq e' eq_refl)|].
        exists (dashboard_get ctx :: new). unfold dashboard_get. split; rewrite ?count_cons, ?count_nil; cbn.
        -- rewrite Rq, <- app_assoc. reflexivity.
        -- rewrite Hscr. exact Rs.
        -- exact Rc.
        -- intros _. rewrite Hfail. rewrite (Rl eq_refl). reflexivity.
        -- intros _. rewrite Hfail. specialize (Rr eq_refl). cbn in Rr. lia.
      * inversion H; subst; clear H. split; [intros e; discriminate|].
        exists (dashboard_get ctx :: new). unfold dashboard_get. split; rewrite ?count_cons, ?count_nil; cbn.
        -- rewrite Rq, <- app_assoc. reflexivity.
        -- rewrite Hscr. exact Rs.
        -- exact Rc.
        -- discriminate.
        -- discriminate.
    + (* the state element is there *)
      inversion H; subst; clear H. split; [intros e; discriminate|].
      exists [dashboard_get ctx]. unfold dashboard_get. split; rewrite ?count_cons, ?count_nil; cbn; try reflexivity.
      * unfold scrape, dashboard_get. cbn. rewrite Hreply. unfold scraped.
        rewrite Hsel. reflexivity.
      * intros _. unfold scrape_fails, dashboard_get. cbn. rewrite Hreply, Hsel. reflexivity.
      * intros _. unfold scrape_fails, dashboard_get. cbn. rewrite Hreply, Hsel. reflexivity.
Qed.

Lemma refresh_run_after_login w w1 cr fl w' pre new :
  requests w1 = requests w ++ pre ->
  state w1 = state w ->
  count is_login_get pre = 1 ->
  count is_dashboard_get pre = 0 ->
  count is_command_post pre = 0 ->
  refresh_run tr 0 w1 cr fl w' new ->
  refresh_run tr 1 w cr fl w' (pre ++ new).
Proof.
  intros Hq Hs Hl Hd Hc [Rq Rs Rc Rl Rr].
  assert (Hrep : forall i st, replay tr i pre st = st /\ failed_scrapes tr i pre = 0).
  { clear - Hd. induction pre as [|rq pre IH]; intros i st; [split; reflexivity|].
    rewrite count_cons in Hd. cbn.
    destruct (is_dashboard_get rq) eqn:E; [discriminate|].
    unfold scrape, scrape_fails. rewrite E. cbn. apply IH. exact Hd. }
  rewrite Hq, length_app in *.
  split.
  - rewrite Rq, app_assoc. reflexivity.
  - rewrite replay_app, (proj1 (Hrep _ _)), Rs, Hs. reflexivity.
  - rewrite count_app. lia.
  - intros F. rewrite count_app, failed_scrapes_app, (proj2 (Hrep _ None)), (Rl F). lia.
  - intros F. rewrite count_app, failed_scrapes_app, (proj2 (Hrep _ None)).
    specialize (Rr F). lia.
Qed.

Lemma async_update_run fuel : forall l w c l' w',
  async_update ctx tr fuel l w = (c, l', w') ->
  l' = l /\ (forall v, c <> Return v) /\ quiet c /\
  exists new,
    refresh_run tr (if is_active w then 0 else 1) w (raised c) (fuel_left c) w' new.
Proof.
  induction fuel as [|fuel IH]; intros l w c l' w' H.
  - cbn in H. inversion H; subst; clear H.
    split; [reflexivity|]. split; [intros v; discriminate|].
    split; [intros e; discriminate|].
    exists []. split; rewrite ?app_nil_r; try reflexivity; discriminate.
  - destruct (async_update_frame _ _ _ _ _ _ H) as [-> Hret].
    split; [reflexivity|]. split; [exact Hret|].
    rewrite async_update_S in H. unfold is_active.
    unfold call, bind, when, skip, ret, set_response, get_login_info,
      _LOGGER_debug, emit in H. cbn in H.
    destruct (truth (_login_info w)) eqn:Hact; cbn in H.
    + match type of H with context [update_try ctx tr ?f ?l ?w0] =>
        destruct (update_try ctx tr f l w0) as [[c1 l1] w1] eqn:E1 end.
      apply (update_try_run _ IH) in E1. destruct E1 as (Hq & new & [Rq Rs Rc Rl Rr]).
      cbn in Rq, Rs, Rc, Rl, Rr.
      destruct c1 as [[]|v|e|]; inversion H; subst; clear H.
      all: split; [intros e' He'; first [discriminate | inversion He'; subst; exact (Hq e' eq_refl)]|].
      all: exists new; split; assumption.
    + match type of H with context [async_login ctx tr ?l ?w0] =>
        destruct (async_login_run ctx tr l w0)
          as (c1 & li & rqs & ops & recs & E1 & Hrqs & Hc1) end.
      rewrite E1 in H. clear E1.
      assert (Hpre : count is_login_get (login_get ctx :: rqs) = 1 /\
                     count is_dashboard_get (login_get ctx :: rqs) = 0 /\
                     count is_command_post (login_get ctx :: rqs) = 0).
      { destruct Hrqs as [->| ->]; repeat split; reflexivity. }
      destruct Hpre as (Hl & Hd & Hc).
      destruct Hc1 as [->|[->| ->]]; cbn in H.
      3:{ inversion H; subst; clear H.
          split; [intros e He; inversion He; reflexivity|].
          exists ((login_get ctx :: rqs) ++ []).
          apply refresh_run_after_login with
            (w1 := advance w None (state w) (login_get ctx :: rqs) ops [] []);
            try assumption; try reflexivity.
          split; cbn; rewrite ?app_nil_r; try reflexivity; discriminate. }
      all: match type of H with context [update_try ctx tr ?f ?l ?w0] =>
             destruct (update_try ctx tr f l w0) as [[c2 l2] w2] eqn:E2 end.
      all: apply (update_try_run _ IH) in E2; destruct E2 as (Hq & new & R).
      all: destruct c2 as [[]|v|e|]; inversion H; subst; clear H.
      all: split; [intros e' He'; first [discriminate | inversion He'; subst; exact (Hq e' eq_refl)]|].
      all: exists ((login_get ctx :: rqs) ++ new).
      all: eapply refresh_run_after_login; try eassumption; try reflexivity.
Qed.
End Refresh.

(** ** Where the state comes from *)

Section Provenance.

Variable tr : Transport.

Lemma scrape_at_cons i rq new k result :
  scrape_at tr (S i) new k result -> scrape_at tr i (rq :: new) (S k) result.
Proof.
  intros (rq' & r & H1 & H2 & H3 & H4). exists rq', r.
  repeat split; try assumption. rewrite <- H3. f_equal. lia.
Qed.

(** A replayed state is the one before, or the result of one of the scrapes. *)
Lemma replay_sources new : forall i st,
  replay tr i new st = st \/ exists k, scrape_at tr i new k (replay tr i new st).
Proof.
  induction new as [|rq new IH]; intros i st; cbn; [left; reflexivity|].
  destruct (IH (S i) (scrape tr i rq st)) as [E|[k Hk]].
  - rewrite E. unfold scrape.
    destruct (is_dashboard_get rq) eqn:Hd; [|left; reflexivity].
    destruct (tr i rq) as [e|r] eqn:Hr; [left; reflexivity|].
    right. exists 0, rq, r. rewrite Nat.add_0_r. repeat split; assumption.
  - right. exists (S k). apply scrape_at_cons. exact Hk.
Qed.

(** After a scrape that found nothing, the replayed state is [None] or the
    result of a later scrape. *)
Lemma replay_after_failure new : forall i k st,
  scrape_at tr i new k None ->
  replay tr i new st = None \/
  exists k' found, k < k' /\ scrape_at tr i new k' (Some found) /\
                   replay tr i new st = Some found.
Proof.
  induction new as [|rq new IH]; intros i k st (rq' & r & H1 & H2 & H3 & H4).
  - destruct k; discriminate.
  - destruct k as [|k]; cbn in H1.
    + inversion H1; subst rq'. rewrite Nat.add_0_r in H3. cbn.
      replace (scrape tr i rq st) with (@None string)
        by (unfold scrape; rewrite H2, H3, H4; reflexivity).
      destruct (replay_sources new (S i) None) as [E|[k' Hk']]; [left; exact E|].
      destruct (replay tr (S i) new None) as [found|]; [|left; reflexivity].
      right. exists (S k'), found. split; [lia|]. split; [|reflexivity].
      apply scrape_at_cons. exact Hk'.
    + cbn. destruct (IH (S i) k (scrape tr i rq st)) as [E|(k' & found & L & S' & E)].
      * exists rq', r. repeat split; try assumption. rewrite <- H3. f_equal. lia.
      * left. exact E.
      * right. exists (S k'), found. split; [lia|]. split; [|exact E].
        apply scrape_at_cons. exact S'.
Qed.

End Provenance.

(** ** The session check of [async_update] *)

Section SessionCheck.

Variable ctx : string.
Variable tr : Transport.

(** The [try] statement starts with the dashboard GET, and issues nothing
    else unless the page has no state element. *)
Lemma update_try_first fuel w c l' w' :
  update_try ctx tr (async_update ctx tr fuel) IsNone w = (c, l', w') ->
  exists rest,
    requests w' = requests w ++ dashboard_get ctx :: rest /\
    (rest = [] \/
     exists r, tr (length (requests w)) (dashboard_get ctx) = Responds r /\
               select ALARM_STATE (text r) = []).
Proof.
  intros H.
  unfold update_try, BeautifulSoup in H. unfold_monad. cbn in H.
  fold (dashboard_get ctx) in H.
  destruct (tr (length (requests w)) (dashboard_get ctx)) as [e|r] eqn:Hreply.
  - destruct e; cbn in H; inversion H; subst; clear H.
    all: exists []; split; [reflexivity | left; reflexivity].
  - cbn in H. destruct (select ALARM_STATE (text r)) as [|tag more] eqn:Hsel; cbn in H.
    + match type of H with context [async_update ctx tr fuel ?l ?w2] =>
        destruct (async_update ctx tr fuel l w2) as [[c2 l2] w3] eqn:E2 end.
      destruct (async_update_run ctx tr fuel _ _ _ _ _ E2)
        as (-> & Hret & Hq & new & [Rq _ _ _ _]).
      cbn in Rq.
      assert (Hreq : requests w3 = requests w ++ dashboard_get ctx :: new)
        by (rewrite Rq, <- app_assoc; reflexivity).
      destruct c2 as [v|v|e|]; cbn in H.
      * inversion H; subst; clear H. exists new. split; [exact Hreq|].
        right. exists r. split; [reflexivity | exact Hsel].
      * exfalso. exact (Hret v eq_refl).
      * rewrite (Hq e eq_refl) in H. cbn in H. inversion H; subst; clear H.
        exists new. split; [exact Hreq|]. right. exists r. split; [reflexivity | exact Hsel].
      * inversion H; subst; clear H. exists new. split; [exact Hreq|].
        right. exists r. split; [reflexivity | exact Hsel].
    + inversion H; subst; clear H. exists []. split; [reflexivity | left; reflexivity].
Qed.

(** With a session held, [async_update] goes straight to the dashboard. *)
Lemma async_update_active_first fuel l w c l' w' :
  is_active w = true ->
  async_update ctx tr (S fuel) l w = (c, l', w') ->
  exists rest,
    requests w' = requests w ++ dashboard_get ctx :: rest /\
    (rest = [] \/
     exists r, tr (length (requests w)) (dashboard_get ctx) = Responds r /\
               select ALARM_STATE (text r) = []).
Proof.
  intros Hact H. rewrite async_update_S in H. unfold is_active in Hact.
  unfold call, bind, when, skip, ret, set_response, get_login_info,
    _LOGGER_debug, emit in H. cbn in H. rewrite Hact in H. cbn in H.
  match type of H with context [update_try ctx tr ?f ?l ?w0] =>
    destruct (update_try ctx tr f l w0) as [[c1 l1] w1] eqn:E1 end.
  apply update_try_first in E1. cbn in E1.
  destruct c1; inversion H; subst; exact E1.
Qed.

(** Without one, it logs in first. *)
Lemma async_update_inactive_first fuel l w c l' w' :
  is_active w = false ->
  async_update ctx tr (S fuel) l w = (c, l', w') ->
  exists rest, requests w' = requests w ++ login_get ctx :: rest.
Proof.
  intros Hact H. rewrite async_update_S in H. unfold is_active in Hact.
  unfold call, bind, when, skip, ret, set_response, get_login_info,
    _LOGGER_debug, emit in H. cbn in H. rewrite Hact in H. cbn in H.
  match type of H with context [async_login ctx tr ?l ?w0] =>
    destruct (async_login_run ctx tr l w0)
      as (c1 & li & rqs & ops & recs & E1 & _ & Hc1) end.
  rewrite E1 in H. clear E1.
  destruct Hc1 as [->|[->| ->]]; cbn in H.
  3:{ inversion H; subst; clear H. exists rqs. reflexivity. }
  all: match type of H with context [update_try ctx tr ?f ?l ?w0] =>
         destruct (update_try ctx tr f l w0) as [[c2 l2] w2] eqn:E2 end.
  all: apply update_try_first in E2; cbn in E2; destruct E2 as (rest & E2 & _).
  all: exists (rqs ++ dashboard_get ctx :: rest).
  all: destruct c2; inversion H; subst; rewrite E2, <- app_assoc; reflexivity.
Qed.

End SessionCheck.

(** C9, as it holds on the code. A login whose two requests complete
    returns with the session held. A refresh started while it is held
    goes straight to the dashboard GET, and makes no other request when
    that GET fails or its page has a state element. But each dashboard
    page without state element makes the recovery branch drop the session
    and the retry log in: a completed refresh has issued as many login
    GETs as it received such pages. *)
Theorem login_then_refresh_logs_in_to_recover ctx tr l w r1 key r2 :
  tr (length (requests w)) (login_get ctx) = Responds r1 ->
  Dict.get (cookies r1) "JSESSIONID" = Some key ->
  tr (S (length (requests w)))
     (login_post ctx (_username w) (_password w)) = Responds r2 ->
  exists w1,
    async_login ctx tr l w = (Normal VNone, l, w1) /\
    is_active w1 = true /\
    forall fuel l2 w2 c' l3 w3,
      _login_info w2 = _login_info w1 ->
      async_update ctx tr (S fuel) l2 w2 = (c', l3, w3) ->
      exists rest,
        requests w3 = requests w2 ++ dashboard_get ctx :: rest /\
        (rest = [] \/
         exists r,
           tr (length (requests w2)) (dashboard_get ctx) = Responds r /\
           select ALARM_STATE (text r) = []) /\
        (c' <> OutOfFuel ->
         count is_login_get rest =
           failed_scrapes tr (length (requests w2)) (dashboard_get ctx :: rest)).
Proof.
  intros H1 H2 H3.
  destruct (async_login_completes ctx tr l w r1 key r2 H1 H2 H3) as [recs E].
  eexists. split; [exact E|]. split; [reflexivity|].
  intros fuel l2 w2 c' l3 w3 Hheld Hrun.
  assert (Hact : is_active w2 = true) by (unfold is_active; rewrite Hheld; reflexivity).
  destruct (async_update_active_first ctx tr fuel l2 w2 c' l3 w3 Hact Hrun)
    as (rest & Hreq & Hfirst).
  exists rest. split; [exact Hreq|]. split; [exact Hfirst|].
  intros Hc.
  destruct (async_update_run ctx tr (S fuel) l2 w2 c' l3 w3 Hrun)
    as (_ & _ & _ & new & [Rq _ _ Rl _]).
  rewrite Hreq in Rq. apply app_inv_head in Rq. subst new.
  rewrite Hact, count_cons in Rl. cbn in Rl. apply Rl.
  destruct c'; try reflexivity. contradiction.
Qed.

(** C10. A new client has no state and no session, and its first refresh
    issues the login GET before anything else. *)
Theorem new_client_logs_in_first ctx tr username password fuel l :
  state (__init__ username password) = None /\
  _login_info (__init__ username password) = None /\
  exists rest,
    requests (snd (async_update ctx tr (S fuel) l (__init__ username password)))
    = login_get ctx :: rest.
Proof.
  split; [reflexivity|]. split; [reflexivity|].
  destruct (async_update ctx tr (S fuel) l (__init__ username password))
    as [[c l'] w'] eqn:E.
  apply async_update_inactive_first in E; [|reflexivity].
  exact E.
Qed.

(** ** Release of responses *)

(** [async_update] releases the dashboard response it opened, here on the
    path where the state element is found. *)
Lemma refresh_releases_its_response ctx tr fuel l w r tag more :
  is_active w = true ->
  tr (length (requests w)) (dashboard_get ctx) = Responds r ->
  select ALARM_STATE (text r) = tag :: more ->
  exists recs,
    async_update ctx tr (S fuel) l w =
      (Normal VNone, l,
       advance w (_login_info w) (Some (get_text tag)) [dashboard_get ctx]
               [(length (requests w), r)] [length (requests w)] recs).
Proof.
  intros Hact Hreply Hsel. unfold is_active in Hact.
  rewrite async_update_S. unfold update_try, BeautifulSoup, dashboard_get in *.
  unfold_monad. cbn. rewrite Hact. cbn. rewrite Hreply. cbn. rewrite Hsel. cbn.
  unfold advance. normalize_traces. eexists. reflexivity.
Qed.

(** A dashboard GET that fails opens nothing: the refresh returns [False]
    and the state stays as it was. *)
Lemma refresh_transport_failure ctx tr fuel l w e :
  is_active w = true ->
  tr (length (requests w)) (dashboard_get ctx) = Fails e ->
  exists recs,
    async_update ctx tr (S fuel) l w =
      (Normal (VBool false), l,
       advance w (_login_info w) (state w) [dashboard_get ctx] [] [] recs).
Proof.
  intros Hact Hreply. unfold is_active in Hact.
  rewrite async_update_S. unfold update_try, BeautifulSoup, dashboard_get in *.
  unfold_monad. cbn. rewrite Hact. cbn. rewrite Hreply.
  destruct e; cbn; unfold advance; normalize_traces; eexists; reflexivity.
Qed.

(** ** Runs of [_send] *)

Section Send.

Variable ctx : string.
Variable tr : Transport.
Hypothesis Hctx : brace_free ctx = true.

Lemma _send_S fuel event :
  _send ctx tr (S fuel) event =
    call (send_body ctx tr event
                    (async_update ctx tr fuel)
                    (call (_send ctx tr fuel "Disarm" ;; skip))
                    (call (_send ctx tr fuel "Arm+Away" ;; skip))).
Proof. reflexivity. Qed.

Lemma commands_cases event rq :
  command_request ctx event = Some rq ->
  (event = "Disarm" /\ rq = disarm_post ctx) \/
  (event = "Arm+Stay" /\ rq = arm_stay_post ctx) \/
  (event = "Arm+Away" /\ rq = arm_away_post ctx).
Proof.
  unfold command_request, COMMAND_LIST, Dict.get.
  destruct (String.eqb "Disarm" event) eqn:E1.
  { apply String.eqb_eq in E1. subst event. cbn. intros H; inversion H.
    left. split; reflexivity. }
  destruct (String.eqb "Arm+Stay" event) eqn:E2.
  { apply String.eqb_eq in E2. subst event. cbn. intros H; inversion H.
    right; left. split; reflexivity. }
  destruct (String.eqb "Arm+Away" event) eqn:E3.
  { apply String.eqb_eq in E3. subst event. cbn. intros H; inversion H.
    right; right. split; reflexivity. }
  discriminate.
Qed.

(** Up to the POST: the session key is read, the URL formatted, the form
    built. *)
Ltac run_to_post Hli Hkey rq :=
  rewrite _send_S; unfold send_body, BeautifulSoup; unfold_monad;
  cbn; rewrite Hli; unfold getitem; cbn; rewrite Hkey; cbn;
  rewrite (str_format_brace_free _ _ (brace_free_DASHBOARD_URL ctx Hctx));
  cbn;
  match goal with
  | |- context [tr _ ?q] => change q with rq
  end.

(** The POST fails: the handler logs, and the [finally] clause reads a
    [response] that was never bound. *)
Lemma send_transport_failure fuel event rq l w d key e :
  _login_info w = Some d ->
  Dict.get d "sessionkey" = Some key ->
  command_request ctx event = Some rq ->
  tr (length (requests w)) rq = Fails e ->
  _send ctx tr (S fuel) event l w =
    (Raise (UnboundLocalError "response"), l,
     advance w (Some d) (state w) [rq] [] []
             [ mkLog DEBUG (AStr "Sending %s to AdtPulse.com") [AStr event];
               mkLog ERROR
                     (AStr "Error while trying to disarm AdtPulse.com system")
                     [] ]).
Proof.
  intros Hli Hkey Hrq Hreply.
  destruct (commands_cases event rq Hrq) as [[-> ->]|[[-> ->]|[-> ->]]].
  all: run_to_post Hli Hkey ltac:(lazymatch goal with
                                  | H : tr _ ?q = Fails _ |- _ => q end).
  all: rewrite Hreply; destruct e; cbn; unfold advance.
  all: normalize_traces; reflexivity.
Qed.

(** The page carries a message that does not contain "command": the
    coroutine returns after its one request and releases the response. *)
Lemma send_notice fuel event rq l w d key r tag more :
  _login_info w = Some d ->
  Dict.get d "sessionkey" = Some key ->
  command_request ctx event = Some rq ->
  tr (length (requests w)) rq = Responds r ->
  select ("#" ++ MESSAGE_CONTROL)%string (text r) = tag :: more ->
  contains "command" (get_text tag) = false ->
  exists recs,
    _send ctx tr (S fuel) event l w =
      (Normal VNone, l,
       advance w (Some d) (state w) [rq] [(length (requests w), r)]
               [length (requests w)] recs).
Proof.
  intros Hli Hkey Hrq Hreply Hsel Hmsg.
  destruct (commands_cases event rq Hrq) as [[-> ->]|[[-> ->]|[-> ->]]].
  all: run_to_post Hli Hkey ltac:(lazymatch goal with
                                  | H : tr _ ?q = Responds _ |- _ => q end).
  all: rewrite Hreply; cbn.
  all: match goal with
       | |- context [select ?s (text ?p)] =>
           change (select s (text p))
             with (select ("#" ++ MESSAGE_CONTROL)%string (text p))
       end.
  all: rewrite Hsel; cbn; rewrite Hmsg; cbn; unfold advance.
  all: normalize_traces; eexists; reflexivity.
Qed.

(** The page carries no message element: [async_login], then the
    re-dispatch the source writes for [event]; here with both login
    requests completing and the re-dispatch returning. *)
Lemma send_recovers fuel event event' rq l w d key r r1 key1 r2 :
  _login_info w = Some d ->
  Dict.get d "sessionkey" = Some key ->
  command_request ctx event = Some rq ->
  redispatch event = Some event' ->
  tr (length (requests w)) rq = Responds r ->
  select ("#" ++ MESSAGE_CONTROL)%string (text r) = [] ->
  tr (S (length (requests w))) (login_get ctx) = Responds r1 ->
  Dict.get (cookies r1) "JSESSIONID" = Some key1 ->
  tr (S (S (length (requests w))))
     (login_post ctx (_username w) (_password w)) = Responds r2 ->
  exists recs,
    forall v l4 w4,
      _send ctx tr fuel event' Unbound
            (advance w (Some [("sessionkey", key1)]) (state w)
                     [rq; login_get ctx;
                      login_post ctx (_username w) (_password w)]
                     [(length (requests w), r);
                      (S (length (requests w)), r1);
                      (S (S (length (requests w))), r2)]
                     [] recs) = (Normal v, l4, w4) ->
      _send ctx tr (S fuel) event l w =
        (Normal VNone, l,
         advance w4 (_login_info w4) (state w4) [] [] [length (requests w)] []).
Proof.
  intros Hli Hkey Hrq Hre Hreply Hsel H1 H2 H3.
  destruct (async_login_completes
              ctx tr (Obj (length (requests w)) r)
              (advance w (Some d) (state w) [rq] [(length (requests w), r)] []
                       [ mkLog DEBUG (AStr "Sending %s to AdtPulse.com")
                               [AStr event];
                         mkLog DEBUG (AStr "Response from AdtPulse.com %s")
                               [AInt (status r)] ])
              r1 key1 r2) as [recs E].
  { cbn. rewrite length_app, Nat.add_1_r. exact H1. }
  { exact H2. }
  { cbn. rewrite length_app, Nat.add_1_r. exact H3. }
  exists ([ mkLog DEBUG (AStr "Sending %s to AdtPulse.com") [AStr event];
            mkLog DEBUG (AStr "Response from AdtPulse.com %s")
                  [AInt (status r)] ] ++ recs).
  intros v l4 w4 Hinner.
  unfold advance in E, Hinner. cbn in E, Hinner. rewrite ?app_nil_r in Hinner.
  rewrite length_app, Nat.add_1_r, <- !app_assoc, ?app_nil_r in E. cbn in E.
  destruct (commands_cases event rq Hrq) as [[-> ->]|[[-> ->]|[-> ->]]].
  all: cbn in Hre; inversion Hre; subst event'; clear Hre.
  all: run_to_post Hli Hkey ltac:(lazymatch goal with
                                  | H : tr (length (requests _)) ?q = Responds _ |- _ => q end).
  all: rewrite Hreply; cbn.
  all: match goal with
       | |- context [select ?s (text ?p)] =>
           change (select s (text p))
             with (select ("#" ++ MESSAGE_CONTROL)%string (text p))
       end.
  all: rewrite Hsel; cbn.
  all: rewrite <- !app_assoc; cbn.
  all: rewrite E; cbn.
  all: rewrite ?length_app, ?Nat.add_1_r, <- ?app_assoc, ?app_nil_r; cbn.
  all: rewrite Hinner; cbn.
  all: unfold advance; rewrite ?app_nil_r; reflexivity.
Qed.

(** One round of recovery: the command, the login, and the command the
    recovery branch issues, whose reply carries a message. *)
Lemma send_recovers_once
      fuel event event' rq rq' l w d key r r1 key1 r2 r3 tag more :
  _login_info w = Some d ->
  Dict.get d "sessionkey" = Some key ->
  command_request ctx event = Some rq ->
  redispatch event = Some event' ->
  command_request ctx event' = Some rq' ->
  tr (length (requests w)) rq = Responds r ->
  select ("#" ++ MESSAGE_CONTROL)%string (text r) = [] ->
  tr (S (length (requests w))) (login_get ctx) = Responds r1 ->
  Dict.get (cookies r1) "JSESSIONID" = Some key1 ->
  tr (S (S (length (requests w))))
     (login_post ctx (_username w) (_password w)) = Responds r2 ->
  (forall q, tr (S (S (S (length (requests w))))) q = Responds r3) ->
  select ("#" ++ MESSAGE_CONTROL)%string (text r3) = tag :: more ->
  contains "command" (get_text tag) = false ->
  exists w',
    _send ctx tr (S (S fuel)) event l w = (Normal VNone, l, w') /\
    requests w' =
      requests w ++ [ rq; login_get ctx;
                      login_post ctx (_username w) (_password w); rq' ].
Proof.
  intros Hli Hkey Hrq Hre Hrq' Hreply Hsel H1 H2 H3 H4 Hsel3 Hmsg.
  destruct (send_recovers (S fuel) event event' rq l w d key r r1 key1 r2
                          Hli Hkey Hrq Hre Hreply Hsel H1 H2 H3)
    as [recs Hstep].
  match type of Hstep with
  | forall v l4 w4, _send _ _ _ _ _ ?w3 = _ -> _ =>
      destruct (send_notice fuel event' rq' Unbound w3
                            [("sessionkey", key1)] key1 r3 tag more
                            eq_refl eq_refl Hrq')
        as [recs' Hinner]
  end.
  - unfold advance. cbn [requests]. rewrite length_app. cbn [length].
    replace (length (requests w) + 3) with (S (S (S (length (requests w)))))
      by lia.
    apply H4.
  - exact Hsel3.
  - exact Hmsg.
  - eexists. split; [exact (Hstep _ _ _ Hinner)|].
    cbn. rewrite app_nil_r, <- app_assoc. reflexivity.
Qed.

End Send.

(** ** The login coroutine *)

(** C5, on the code. A login whose GET and POST both complete falls off
    the end of [async_login]: the call returns [None], not [True]. The
    page the POST returns plays no part. *)
Theorem login_returns_none ctx tr l w r1 key r2 :
  tr (length (requests w)) (login_get ctx) = Responds r1 ->
  Dict.get (cookies r1) "JSESSIONID" = Some key ->
  tr (S (length (requests w)))
     (login_post ctx (_username w) (_password w)) = Responds r2 ->
  exists w', async_login ctx tr l w = (Normal VNone, l, w').
Proof.
  intros H1 H2 H3.
  destruct (async_login_completes ctx tr l w r1 key r2 H1 H2 H3) as [recs E].
  eexists. exact E.
Qed.

Lemma login_returns_none_witness :
  exists w',
    async_login sample_context_path login_works Unbound
                (__init__ "user" "secret") = (Normal VNone, Unbound, w').
Proof.
  apply (login_returns_none sample_context_path login_works Unbound
           (__init__ "user" "secret") signin_page "0123ABCD" signed_out_page);
    reflexivity.
Defined.

(** C6, on the code. [async_login] has no [finally] clause: a login whose
    two requests complete has opened two responses and released none. *)
Theorem login_never_releases ctx tr l w r1 key r2 :
  tr (length (requests w)) (login_get ctx) = Responds r1 ->
  Dict.get (cookies r1) "JSESSIONID" = Some key ->
  tr (S (length (requests w)))
     (login_post ctx (_username w) (_password w)) = Responds r2 ->
  exists c w',
    async_login ctx tr l w = (c, l, w') /\
    opened w' = opened w ++ [ (length (requests w), r1);
                              (S (length (requests w)), r2) ] /\
    released w' = released w.
Proof.
  intros H1 H2 H3.
  destruct (async_login_completes ctx tr l w r1 key r2 H1 H2 H3) as [recs E].
  do 2 eexists. split; [exact E|]. cbn. rewrite app_nil_r.
  split; reflexivity.
Qed.

Lemma login_never_releases_witness :
  exists c w',
    async_login sample_context_path login_works Unbound
                (__init__ "user" "secret") = (c, Unbound, w') /\
    opened w' = [] ++ [(0, signin_page); (1, signed_out_page)] /\
    released w' = [].
Proof.
  apply (login_never_releases sample_context_path login_works Unbound
           (__init__ "user" "secret") signin_page "0123ABCD" signed_out_page);
    reflexivity.
Defined.

(** C8. When the login GET is answered but the response has no
    [JSESSIONID] cookie, the lookup raises [KeyError], no handler of
    [async_login] takes it, and it leaves the call: the login raises
    instead of returning [False], and the session is left as it was. *)
Theorem login_without_cookie_raises ctx tr l w r :
  tr (length (requests w)) (login_get ctx) = Responds r ->
  Dict.get (cookies r) "JSESSIONID" = None ->
  exists w',
    async_login ctx tr l w = (Raise (KeyError "JSESSIONID"), l, w') /\
    _login_info w' = _login_info w /\
    requests w' = requests w ++ [login_get ctx].
Proof.
  intros H1 H2.
  destruct (async_login_no_cookie ctx tr l w r H1 H2) as [recs E].
  eexists. split; [exact E|]. split; reflexivity.
Qed.

Lemma login_without_cookie_raises_witness :
  exists w',
    async_login sample_context_path login_without_cookie Unbound
                (__init__ "user" "secret")
    = (Raise (KeyError "JSESSIONID"), Unbound, w') /\
    _login_info w' = None /\
    requests w' = [] ++ [login_get sample_context_path].
Proof.
  apply (login_without_cookie_raises
           sample_context_path login_without_cookie Unbound
           (__init__ "user" "secret") signin_page_no_cookie);
    reflexivity.
Defined.

Lemma login_then_refresh_logs_in_to_recover_witness :
  exists w1,
    async_login sample_context_path login_then_expiry Unbound
                (__init__ "user" "secret") = (Normal VNone, Unbound, w1) /\
    is_active w1 = true /\
    forall fuel l2 w2 c' l3 w3,
      _login_info w2 = _login_info w1 ->
      async_update sample_context_path login_then_expiry (S fuel) l2 w2
      = (c', l3, w3) ->
      exists rest,
        requests w3 = requests w2 ++ dashboard_get sample_context_path :: rest /\
        (rest = [] \/
         exists r,
           login_then_expiry (length (requests w2))
                             (dashboard_get sample_context_path) = Responds r /\
           select ALARM_STATE (text r) = []) /\
        (c' <> OutOfFuel ->
         count is_login_get rest =
           failed_scrapes login_then_expiry (length (requests w2))
                          (dashboard_get sample_context_path :: rest)).
Proof.
  apply (login_then_refresh_logs_in_to_recover
           sample_context_path login_then_expiry Unbound
           (__init__ "user" "secret") signin_page "0123ABCD" signed_out_page);
    reflexivity.
Defined.

(** C9 as stated fails: after a login that completed, a refresh started
    on the held session whose dashboard page has no state element logs in
    again. *)
Lemma login_then_refresh_logs_in_again :
  exists w1,
    async_login sample_context_path login_then_expiry Unbound
                (__init__ "user" "secret") = (Normal VNone, Unbound, w1) /\
    is_active w1 = true /\
    ~ refresh_skips_login sample_context_path login_then_expiry w1.
Proof.
  eexists. split; [vm_compute; reflexivity|]. split; [reflexivity|].
  intros H.
  match type of H with
  | refresh_skips_login _ _ ?w1 =>
      destruct (async_update sample_context_path login_then_expiry 2 Unbound w1)
        as [[c l'] w'] eqn:E;
      specialize (H 2 Unbound c l' w' E)
  end.
  vm_compute in E. inversion E; subst; clear E.
  specialize (H ltac:(discriminate)).
  vm_compute in H. discriminate.
Qed.

(** ** The selector of the state element *)

(** The selector the class uses is a type selector: it does not find the
    element with that [id]; an id selector would. *)
Lemma armed_away_div_not_selected :
  select ALARM_STATE (text armed_away_page) = [] /\
  select ("#" ++ ALARM_STATE)%string (text armed_away_page)
  = [Tag "div" [("id", "divOrbTextSummary")] [NavigableString "Armed Away"]].
Proof. split; reflexivity. Qed.

Lemma failed_scrapes_all tr rqs : forall i,
  (forall n rq, is_dashboard_get rq = true -> scrape_fails tr n rq = true) ->
  failed_scrapes tr i rqs = count is_dashboard_get rqs.
Proof.
  induction rqs as [|rq rqs IH]; intros i H; [reflexivity|].
  cbn [failed_scrapes]. rewrite count_cons, (IH (S i) H).
  destruct (is_dashboard_get rq) eqn:E.
  - rewrite (H i rq E). reflexivity.
  - unfold scrape_fails. rewrite E. reflexivity.
Qed.

Lemma replay_all_fail tr rqs : forall i st,
  (forall n rq, is_dashboard_get rq = true -> scrape_fails tr n rq = true) ->
  replay tr i rqs st = st \/ replay tr i rqs st = None.
Proof.
  intros i st H.
  destruct (replay_sources tr rqs i st) as [E|(k & rq & r & _ & Hd & Hr & Hs)];
    [left; exact E|].
  right. rewrite <- Hs.
  specialize (H (i + k) rq Hd). unfold scrape_fails in H.
  rewrite Hd, Hr in H. cbn in H. unfold scraped.
  destruct (select ALARM_STATE (text r)); [reflexivity | discriminate].
Qed.

(** While the portal answers every dashboard GET with the "Armed Away"
    page, no refresh returns: each takes the recovery branch and re-enters
    itself, until an exception of a login or the end of the budget stops
    it; the state is the one held before or [None]. *)
Lemma refresh_never_returns_on_armed_away_pages ctx tr fuel l w c l' w' :
  (forall n rq, is_dashboard_get rq = true ->
                tr n rq = Responds armed_away_page) ->
  async_update ctx tr fuel l w = (c, l', w') ->
  (c = OutOfFuel \/ exists e, c = Raise e) /\
  (state w' = state w \/ state w' = None).
Proof.
  intros Hpage H.
  assert (Hfail : forall n rq, is_dashboard_get rq = true ->
                               scrape_fails tr n rq = true).
  { intros n rq Hd. unfold scrape_fails. rewrite Hd, (Hpage n rq Hd).
    reflexivity. }
  destruct (async_update_run ctx tr fuel l w c l' w' H)
    as (_ & Hret & _ & new & [Rq Rs Rc Rl Rr]).
  split.
  - destruct c as [v|v|e|]; [| |right; exists e; reflexivity|left; reflexivity].
    + specialize (Rr eq_refl). rewrite (failed_scrapes_all tr new _ Hfail) in Rr.
      cbn in Rr. lia.
    + exfalso. exact (Hret v eq_refl).
  - rewrite Rs. apply replay_all_fail. exact Hfail.
Qed.

(** With the portal unreachable after that page, the refresh does return,
    and the state is [None]. *)
Lemma armed_away_once_returns_without_state fuel :
  exists w',
    async_update sample_context_path armed_away_once (S (S fuel)) Unbound
                 (signed_in None) = (Normal VNone, Unbound, w') /\
    state w' = None /\ _login_info w' = None.
Proof.
  eexists. split; [lazy; reflexivity|]. split; reflexivity.
Qed.

(** C1, on the code. A refresh on a held session whose dashboard GET is
    answered with status 200 and
    [<div id="divOrbTextSummary">Armed Away</div>] does not take the
    state from that page: the selector finds nothing in it, and the state
    ends as [None] or as the text scraped from a page that a later request
    of the same call received. *)
Theorem armed_away_page_is_not_scraped ctx tr fuel l w c l' w' :
  is_active w = true ->
  tr (length (requests w)) (dashboard_get ctx) = Responds armed_away_page ->
  async_update ctx tr (S fuel) l w = (c, l', w') ->
  exists new,
    requests w' = requests w ++ dashboard_get ctx :: new /\
    (state w' = None \/
     exists k found,
       scrape_at tr (S (length (requests w))) new k (Some found) /\
       state w' = Some found).
Proof.
  intros Hact Hreply Hrun.
  destruct (async_update_run ctx tr (S fuel) l w c l' w' Hrun)
    as (_ & _ & _ & new & [Rq Rs _ _ _]).
  destruct (async_update_active_first ctx tr fuel l w c l' w' Hact Hrun)
    as (rest & Hreq & _).
  assert (Hnew : new = dashboard_get ctx :: rest).
  { apply (app_inv_head (requests w)). rewrite <- Rq. exact Hreq. }
  subst new. exists rest. split; [exact Hreq|].
  cbn [replay] in Rs.
  replace (scrape tr (length (requests w)) (dashboard_get ctx) (state w))
    with (@None string) in Rs
    by (unfold scrape; cbn; rewrite Hreply; reflexivity).
  destruct (replay_sources tr rest (S (length (requests w))) None)
    as [E|[k Hk]].
  - left. rewrite Rs. exact E.
  - rewrite <- Rs in Hk.
    destruct (state w') as [found|]; [|left; reflexivity].
    right. exists k, found. split; [exact Hk | reflexivity].
Qed.

Lemma armed_away_page_is_not_scraped_witness :
  exists c l' w',
    async_update sample_context_path armed_away_once 2 Unbound
                 (signed_in None) = (c, l', w') /\
    exists new,
      requests w' =
        requests (signed_in None) ++ dashboard_get sample_context_path :: new /\
      (state w' = None \/
       exists k found,
         scrape_at armed_away_once 1 new k (Some found) /\
         state w' = Some found).
Proof.
  do 3 eexists. split.
  - lazy. reflexivity.
  - eapply (armed_away_page_is_not_scraped
              sample_context_path armed_away_once 1 Unbound (signed_in None)).
    + reflexivity.
    + reflexivity.
    + lazy. reflexivity.
Defined.

(** ** Recovery of [async_update] *)

(** C2, as it holds on the code. Every scrape that finds no state element
    is followed by one login and, unless that login raises, one more
    dashboard GET; the retry recovers the same way, so the logins of a
    completed refresh number as many as its failed scrapes (plus the one
    of the session check when no session was held), with no bound of one.
    After a failed scrape the state is [None] or the text of a later
    scrape, never the value held before. *)
Theorem refresh_recovers_per_failed_scrape
        ctx tr fuel l w c l' w' :
  async_update ctx tr fuel l w = (c, l', w') ->
  exists new,
    requests w' = requests w ++ new /\
    (c <> OutOfFuel ->
     count is_login_get new =
       (if is_active w then 0 else 1)
       + failed_scrapes tr (length (requests w)) new /\
     count is_dashboard_get new + raised c =
       1 + failed_scrapes tr (length (requests w)) new) /\
    (forall k,
       scrape_at tr (length (requests w)) new k None ->
       state w' = None \/
       exists k' found,
         k < k' /\ scrape_at tr (length (requests w)) new k' (Some found) /\
         state w' = Some found).
Proof.
  intros H.
  destruct (async_update_run ctx tr fuel l w c l' w' H)
    as (_ & _ & _ & new & [Rq Rs Rc Rl Rr]).
  exists new. split; [exact Rq|]. split.
  - intros Hc.
    assert (F : fuel_left c = true) by (destruct c; try reflexivity; contradiction).
    split; [exact (Rl F) | exact (Rr F)].
  - intros k Hk. rewrite Rs. apply replay_after_failure with (k := k). exact Hk.
Qed.

Lemma refresh_recovers_per_failed_scrape_witness :
  exists c l' w',
    async_update sample_context_path expires_once 2 Unbound
                 (signed_in (Some "Disarmed")) = (c, l', w') /\
    exists new,
      requests w' = requests (signed_in (Some "Disarmed")) ++ new /\
      (c <> OutOfFuel ->
       count is_login_get new = 0 + failed_scrapes expires_once 0 new /\
       count is_dashboard_get new + raised c =
         1 + failed_scrapes expires_once 0 new) /\
      (forall k,
         scrape_at expires_once 0 new k None ->
         state w' = None \/
         exists k' found,
           k < k' /\ scrape_at expires_once 0 new k' (Some found) /\
           state w' = Some found).
Proof.
  do 3 eexists. split.
  - lazy. reflexivity.
  - eapply (refresh_recovers_per_failed_scrape
              sample_context_path expires_once 2 Unbound
              (signed_in (Some "Disarmed"))).
    lazy. reflexivity.
Defined.

(** C2 as stated fails: when the page after the first recovery again has
    no state element, the refresh logs in twice and fetches the dashboard
    three times. *)
Lemma refresh_recovers_twice :
  is_active (signed_in (Some "Disarmed")) = true /\
  ~ recovers_once sample_context_path expires_twice
                  (signed_in (Some "Disarmed")).
Proof.
  split; [reflexivity|]. intros H.
  destruct (async_update sample_context_path expires_twice 3 Unbound
                         (signed_in (Some "Disarmed")))
    as [[c l'] w'] eqn:E.
  specialize (H signed_out_page 3 Unbound c l' w' eq_refl eq_refl E).
  vm_compute in E. inversion E; subst; clear E.
  destruct H as [H _]; [discriminate|].
  vm_compute in H. discriminate.
Qed.

Lemma recovery_trace_counts ctx u p k :
  length (recovery_trace ctx u p k) = 3 * k + 1 /\
  count is_login_get (recovery_trace ctx u p k) = k /\
  count is_command_post (recovery_trace ctx u p k) = S k.
Proof.
  induction k as [|k (IH1 & IH2 & IH3)]; [repeat split; reflexivity|].
  cbn [recovery_trace]. rewrite !count_cons. cbn [length].
  rewrite IH1, IH2, IH3. cbn. repeat split; lia.
Qed.

(** X26. A Disarm on a held session whose reply has no message element
    [k] times in a row (every login in between completing) and whose next
    reply carries a message without "command" returns, given fuel for
    [k + 1] calls, after [k] logins, [k] re-dispatches and [3k + 1]
    transport calls (four when [k = 1]): each round is the Disarm, the
    login GET and the credentials POST; [k] is not bounded. *)
Theorem disarm_recovery_repeats ctx tr k :
  brace_free ctx = true ->
  forall fuel l w d key,
    _login_info w = Some d ->
    Dict.get d "sessionkey" = Some key ->
    (forall i, i < k ->
       expires ctx tr (_username w) (_password w)
               (length (requests w) + 3 * i)) ->
    notice_at ctx tr (length (requests w) + 3 * k) ->
    exists w',
      _send ctx tr (S k + fuel) "Disarm" l w = (Normal VNone, l, w') /\
      requests w' =
        requests w ++ recovery_trace ctx (_username w) (_password w) k /\
      length (requests w') = length (requests w) + 3 * k + 1 /\
      count is_login_get (requests w') = count is_login_get (requests w) + k /\
      count is_command_post (requests w') =
        count is_command_post (requests w) + S k.
Proof.
  intros Hctx.
  assert (Htrace : forall fuel l w d key,
    _login_info w = Some d ->
    Dict.get d "sessionkey" = Some key ->
    (forall i, i < k ->
       expires ctx tr (_username w) (_password w)
               (length (requests w) + 3 * i)) ->
    notice_at ctx tr (length (requests w) + 3 * k) ->
    exists w',
      _send ctx tr (S k + fuel) "Disarm" l w = (Normal VNone, l, w') /\
      _username w' = _username w /\ _password w' = _password w /\
      requests w' =
        requests w ++ recovery_trace ctx (_username w) (_password w) k).
  { induction k as [|k IH]; intros fuel l w d key Hli Hkey Hexp Hnote.
    - destruct Hnote as (r & tag & more & Hreply & Hsel & Hmsg).
      rewrite Nat.add_0_r in Hreply.
      destruct (send_notice ctx tr Hctx fuel "Disarm" (disarm_post ctx)
                            l w d key r tag more Hli Hkey eq_refl
                            Hreply Hsel Hmsg) as [recs E].
      eexists. split; [exact E|]. repeat split; reflexivity.
    - destruct (Hexp 0 (Nat.lt_0_succ k))
        as ((r & Hreply & Hsel) & (r1 & key1 & H1 & H2) & (r2 & H3)).
      rewrite Nat.add_0_r in Hreply, H1, H3.
      destruct (send_recovers ctx tr Hctx (S k + fuel) "Disarm" "Disarm"
                              (disarm_post ctx) l w d key r r1 key1 r2
                              Hli Hkey eq_refl eq_refl Hreply Hsel H1 H2 H3)
        as [recs Hstep].
      match type of Hstep with
      | forall v l4 w4, _send _ _ _ _ _ ?w3 = _ -> _ =>
          destruct (IH fuel Unbound w3 [("sessionkey", key1)] key1)
            as (w4 & Hinner & Hu & Hp & Hreq)
      end.
      + reflexivity.
      + reflexivity.
      + intros i Hi. unfold advance. cbn [requests _username _password].
        rewrite length_app. cbn [length].
        replace (length (requests w) + 3 + 3 * i)
          with (length (requests w) + 3 * S i) by lia.
        apply Hexp. lia.
      + unfold advance. cbn [requests]. rewrite length_app. cbn [length].
        replace (length (requests w) + 3 + 3 * k)
          with (length (requests w) + 3 * S k) by lia.
        exact Hnote.
      + eexists. split; [exact (Hstep _ _ _ Hinner)|].
        cbn in Hu, Hp, Hreq. cbn. rewrite app_nil_r.
        repeat split; try assumption.
        rewrite Hreq, <- app_assoc. reflexivity. }
  intros fuel l w d key Hli Hkey Hexp Hnote.
  destruct (Htrace fuel l w d key Hli Hkey Hexp Hnote)
    as (w' & E & _ & _ & Hreq).
  destruct (recovery_trace_counts ctx (_username w) (_password w) k)
    as (T1 & T2 & T3).
  exists w'. split; [exact E|]. split; [exact Hreq|].
  rewrite Hreq, length_app, !count_app, T1, T2, T3. repeat split; lia.
Qed.

Lemma disarm_recovery_repeats_witness :
  exists w',
    _send sample_context_path expired_once_for_send 2 "Disarm" Unbound
          (signed_in None) = (Normal VNone, Unbound, w') /\
    requests w' =
      requests (signed_in None)
      ++ recovery_trace sample_context_path "user" "secret" 1 /\
    length (requests w') = length (requests (signed_in None)) + 3 * 1 + 1 /\
    count is_login_get (requests w') =
      count is_login_get (requests (signed_in None)) + 1 /\
    count is_command_post (requests w') =
      count is_command_post (requests (signed_in None)) + 2.
Proof.
  apply (disarm_recovery_repeats sample_context_path expired_once_for_send 1
           eq_refl 0 Unbound (signed_in None)
           [("sessionkey", "0123ABCD")] "0123ABCD" eq_refl eq_refl).
  - intros i Hi. assert (i = 0) by lia. subst i.
    split; [|split].
    + exists signed_out_page. split; reflexivity.
    + exists signin_page, "0123ABCD". split; reflexivity.
    + exists signed_out_page. reflexivity.
  - exists notice_page. do 2 eexists. repeat split; reflexivity.
Defined.


(** C4, on the code. An Arm+Stay whose reply has no message element is
    followed, after the login, by a POST of the Arm+Away form: the
    recovery of Arm+Stay does not re-issue Arm+Stay. *)
Theorem arm_stay_recovery_posts_arm_away
        ctx tr fuel l w d key r r1 key1 r2 r3 tag more :
  brace_free ctx = true ->
  _login_info w = Some d ->
  Dict.get d "sessionkey" = Some key ->
  tr (length (requests w)) (arm_stay_post ctx) = Responds r ->
  select ("#" ++ MESSAGE_CONTROL)%string (text r) = [] ->
  tr (S (length (requests w))) (login_get ctx) = Responds r1 ->
  Dict.get (cookies r1) "JSESSIONID" = Some key1 ->
  tr (S (S (length (requests w))))
     (login_post ctx (_username w) (_password w)) = Responds r2 ->
  (forall rq, tr (S (S (S (length (requests w))))) rq = Responds r3) ->
  select ("#" ++ MESSAGE_CONTROL)%string (text r3) = tag :: more ->
  contains "command" (get_text tag) = false ->
  exists w',
    _send ctx tr (S (S fuel)) "Arm+Stay" l w = (Normal VNone, l, w') /\
    requests w' =
      requests w ++ [ arm_stay_post ctx; login_get ctx;
                      login_post ctx (_username w) (_password w);
                      arm_away_post ctx ] /\
    arm_away_post ctx <> arm_stay_post ctx.
Proof.
  intros Hctx Hli Hkey Hreply Hsel H1 H2 H3 H4 Hsel3 Hmsg.
  destruct (send_recovers_once ctx tr Hctx fuel "Arm+Stay" "Arm+Away"
                               (arm_stay_post ctx) (arm_away_post ctx)
                               l w d key r r1 key1 r2 r3 tag more
                               Hli Hkey eq_refl eq_refl eq_refl
                               Hreply Hsel H1 H2 H3 H4 Hsel3 Hmsg)
    as (w' & E & Hreq).
  exists w'. split; [exact E|]. split; [exact Hreq|]. discriminate.
Qed.

Lemma arm_stay_recovery_posts_arm_away_witness :
  exists w',
    _send sample_context_path expired_once_for_send 2 "Arm+Stay" Unbound
          (signed_in None) = (Normal VNone, Unbound, w') /\
    requests w' =
      requests (signed_in None)
      ++ [ arm_stay_post sample_context_path; login_get sample_context_path;
           login_post sample_context_path "user" "secret";
           arm_away_post sample_context_path ] /\
    arm_away_post sample_context_path <> arm_stay_post sample_context_path.
Proof.
  apply (arm_stay_recovery_posts_arm_away
           sample_context_path expired_once_for_send 0 Unbound (signed_in None)
           [("sessionkey", "0123ABCD")] "0123ABCD"
           signed_out_page signin_page "0123ABCD" signed_out_page notice_page
           (Tag "div" [("id", "warnMsgContents")]
                [NavigableString "Please try again."]) []);
    try reflexivity.
Defined.

(** The other two commands are re-issued as themselves. *)
Lemma disarm_and_arm_away_recover_as_themselves
      ctx tr fuel event rq l w d key r r1 key1 r2 r3 tag more :
  brace_free ctx = true ->
  event = "Disarm" \/ event = "Arm+Away" ->
  _login_info w = Some d ->
  Dict.get d "sessionkey" = Some key ->
  command_request ctx event = Some rq ->
  tr (length (requests w)) rq = Responds r ->
  select ("#" ++ MESSAGE_CONTROL)%string (text r) = [] ->
  tr (S (length (requests w))) (login_get ctx) = Responds r1 ->
  Dict.get (cookies r1) "JSESSIONID" = Some key1 ->
  tr (S (S (length (requests w))))
     (login_post ctx (_username w) (_password w)) = Responds r2 ->
  (forall q, tr (S (S (S (length (requests w))))) q = Responds r3) ->
  select ("#" ++ MESSAGE_CONTROL)%string (text r3) = tag :: more ->
  contains "command" (get_text tag) = false ->
  exists w',
    _send ctx tr (S (S fuel)) event l w = (Normal VNone, l, w') /\
    requests w' =
      requests w ++ [ rq; login_get ctx;
                      login_post ctx (_username w) (_password w); rq ].
Proof.
  intros Hctx Hev Hli Hkey Hrq.
  apply (send_recovers_once ctx tr Hctx fuel event event rq rq l w d key);
    try assumption.
  destruct Hev as [-> | ->]; reflexivity.
Qed.

(** C7, on the code. When the POST of a command fails in the transport,
    [_send] logs the error, issues no further request, and then raises
    [UnboundLocalError] from its [finally] clause: it does not return. *)
Theorem send_transport_failure_raises ctx tr fuel event rq l w d key e :
  brace_free ctx = true ->
  _login_info w = Some d ->
  Dict.get d "sessionkey" = Some key ->
  command_request ctx event = Some rq ->
  tr (length (requests w)) rq = Fails e ->
  _send ctx tr (S fuel) event l w =
    (Raise (UnboundLocalError "response"), l,
     advance w (Some d) (state w) [rq] [] []
             [ mkLog DEBUG (AStr "Sending %s to AdtPulse.com") [AStr event];
               mkLog ERROR
                     (AStr "Error while trying to disarm AdtPulse.com system")
                     [] ]).
Proof.
  intros Hctx. apply send_transport_failure. exact Hctx.
Qed.

Lemma send_transport_failure_raises_witness :
  _send sample_context_path unreachable 1 "Disarm" Unbound (signed_in None) =
    (Raise (UnboundLocalError "response"), Unbound,
     advance (signed_in None) (Some [("sessionkey", "0123ABCD")]) None
             [disarm_post sample_context_path] [] []
             [ mkLog DEBUG (AStr "Sending %s to AdtPulse.com") [AStr "Disarm"];
               mkLog ERROR
                     (AStr "Error while trying to disarm AdtPulse.com system")
                     [] ]).
Proof.
  apply (send_transport_failure_raises
           sample_context_path unreachable 0 "Disarm"
           (disarm_post sample_context_path) Unbound (signed_in None)
           [("sessionkey", "0123ABCD")] "0123ABCD" Connection);
    reflexivity.
Defined.

(** *** At the public coroutines *)

(** A wrapper [async_alarm_*] passes on what its [_send] does. *)
Lemma wrapper_passes_on (m : M PyVal) l w c l1 w' :
  m Unbound w = (c, l1, w') ->
  (forall v, c <> Return v) ->
  call (m ;; skip) l w =
    (match c with Normal _ => Normal VNone | other => other end, l, w').
Proof.
  intros H Hret. unfold call, bind, skip, ret. rewrite H.
  destruct c as [v|v|e|]; try reflexivity.
  exfalso. exact (Hret v eq_refl).
Qed.

(** The exception of a failed POST leaves [async_alarm_disarm],
    [async_alarm_arm_home] and [async_alarm_arm_away] as well. *)
Lemma public_commands_raise_on_transport_failure ctx tr fuel l w d key :
  brace_free ctx = true ->
  _login_info w = Some d ->
  Dict.get d "sessionkey" = Some key ->
  (forall rq e, tr (length (requests w)) rq = Fails e ->
     rq = disarm_post ctx ->
     fst (fst (async_alarm_disarm ctx tr (S fuel) l w))
     = Raise (UnboundLocalError "response")) /\
  (forall rq e, tr (length (requests w)) rq = Fails e ->
     rq = arm_stay_post ctx ->
     fst (fst (async_alarm_arm_home ctx tr (S fuel) l w))
     = Raise (UnboundLocalError "response")) /\
  (forall rq e, tr (length (requests w)) rq = Fails e ->
     rq = arm_away_post ctx ->
     fst (fst (async_alarm_arm_away ctx tr (S fuel) l w))
     = Raise (UnboundLocalError "response")).
Proof.
  intros Hctx Hli Hkey.
  repeat split; intros rq e Hreply ->.
  - unfold async_alarm_disarm.
    erewrite wrapper_passes_on;
      [ | apply (send_transport_failure ctx tr Hctx fuel "Disarm" _ Unbound w d key e
                   Hli Hkey eq_refl Hreply) | intros v; discriminate ].
    reflexivity.
  - unfold async_alarm_arm_home.
    erewrite wrapper_passes_on;
      [ | apply (send_transport_failure ctx tr Hctx fuel "Arm+Stay" _ Unbound w d key e
                   Hli Hkey eq_refl Hreply) | intros v; discriminate ].
    reflexivity.
  - unfold async_alarm_arm_away.
    erewrite wrapper_passes_on;
      [ | apply (send_transport_failure ctx tr Hctx fuel "Arm+Away" _ Unbound w d key e
                   Hli Hkey eq_refl Hreply) | intros v; discriminate ].
    reflexivity.
Qed.

(** [async_alarm_arm_home] under an expired session: the Arm+Away form
    is what follows the login. *)
Lemma arm_home_recovery_posts_arm_away :
  exists w',
    async_alarm_arm_home sample_context_path expired_once_for_send 2 Unbound
                         (signed_in None) = (Normal VNone, Unbound, w') /\
    requests w' =
      [ arm_stay_post sample_context_path; login_get sample_context_path;
        login_post sample_context_path "user" "secret";
        arm_away_post sample_context_path ].
Proof.
  eexists. split; [vm_compute; reflexivity | reflexivity].
Qed.

(** ** Relations every coroutine keeps *)

Section Keeps.

Variable R : World -> World -> Prop.
Hypothesis R_refl : forall w, R w w.
Hypothesis R_trans : forall w1 w2 w3, R w1 w2 -> R w2 w3 -> R w1 w3.

Lemma keeps_pure {A : Type} (m : M A) :
  (forall l w, snd (m l w) = w) -> keeps R m.
Proof.
  intros H l w c l' w' E. specialize (H l w). rewrite E in H. cbn in H.
  subst w'. apply R_refl.
Qed.

Lemma keeps_bind {A B : Type} (m : M A) (k : A -> M B) :
  keeps R m -> (forall a, keeps R (k a)) -> keeps R (bind m k).
Proof.
  intros Hm Hk l w c l' w' E. unfold bind in E.
  destruct (m l w) as [[c1 l1] w1] eqn:E1. specialize (Hm _ _ _ _ _ E1).
  destruct c1 as [a|v|e|]; try (inversion E; subst; exact Hm).
  apply (R_trans _ _ _ Hm). exact (Hk a _ _ _ _ _ E).
Qed.

Lemma keeps_when (b : bool) (m : M unit) :
  keeps R m -> keeps R (when b m).
Proof.
  intros Hm. destruct b; [exact Hm|].
  apply keeps_pure. reflexivity.
Qed.

Lemma keeps_try_except (body : M unit) (handlers : Exn -> option (M unit)) :
  keeps R body ->
  (forall e h, handlers e = Some h -> keeps R h) ->
  keeps R (try_except body handlers).
Proof.
  intros Hb Hh l w c l' w' E. unfold try_except in E.
  destruct (body l w) as [[c1 l1] w1] eqn:E1. specialize (Hb _ _ _ _ _ E1).
  destruct c1 as [a|v|e|]; try (inversion E; subst; exact Hb).
  destruct (handlers e) as [h|] eqn:Eh; [|inversion E; subst; exact Hb].
  apply (R_trans _ _ _ Hb). exact (Hh e h Eh _ _ _ _ _ E).
Qed.

Lemma keeps_try_finally (body fin : M unit) :
  keeps R body -> keeps R fin -> keeps R (try_finally body fin).
Proof.
  intros Hb Hf l w c l' w' E. unfold try_finally in E.
  destruct (body l w) as [[c1 l1] w1] eqn:E1. specialize (Hb _ _ _ _ _ E1).
  destruct c1 as [a|v|e|]; try (inversion E; subst; exact Hb).
  all: destruct (fin l1 w1) as [[c2 l2] w2] eqn:E2.
  all: specialize (Hf _ _ _ _ _ E2).
  all: apply (R_trans _ _ _ Hb).
  all: destruct c2; inversion E; subst; exact Hf.
Qed.

Lemma keeps_call (body : M unit) : keeps R body -> keeps R (call body).
Proof.
  intros Hb l w c l' w' E. unfold call in E.
  destruct (body Unbound w) as [[c1 l1] w1] eqn:E1. specialize (Hb _ _ _ _ _ E1).
  destruct c1; inversion E; subst; exact Hb.
Qed.

(** What the relation must allow: one more record, a new state or
    session, a release, a request with its reply. *)
Hypothesis R_emit : forall lvl m a l w, R w (snd (emit lvl m a l w)).
Hypothesis R_set_state : forall v l w, R w (snd (set_state v l w)).
Hypothesis R_set_login_info : forall v l w, R w (snd (set_login_info v l w)).
Hypothesis R_release : forall rid l w, R w (snd (release rid l w)).
Hypothesis R_send_request :
  forall tr rq l w, R w (snd (send_request tr rq l w)).

Lemma keeps_step {A : Type} (m : M A) :
  (forall l w, R w (snd (m l w))) -> keeps R m.
Proof.
  intros H l w c l' w' E. specialize (H l w). rewrite E in H. exact H.
Qed.

Ltac keeps_tac :=
  repeat
    first
      [ apply keeps_call
      | apply keeps_bind
      | apply keeps_when
      | apply keeps_try_finally
      | apply keeps_try_except
      | apply keeps_step; solve [ apply R_emit | apply R_set_state
                                | apply R_set_login_info | apply R_release
                                | apply R_send_request ]
      | apply keeps_pure; intros ? ?;
        solve [ reflexivity
              | cbv [getitem subscript first lift get_response];
                repeat match goal with
                       | |- context [match ?x with _ => _ end] => destruct x
                       end; reflexivity ]
      | match goal with
        | |- forall _ : _ * _, _ => intros [? ?]
        | |- forall _, _ => intro
        | H : (if transport_error ?e then _ else _) = Some _ |- _ =>
            destruct (transport_error e); [inversion H; subst; clear H|]
        | H : match ?e with TimeoutError => _ | _ => _ end = Some _ |- _ =>
            destruct e; inversion H; subst; clear H
        | H : None = Some _ |- _ => discriminate H
        | |- keeps R (if ?b then _ else _) => destruct b
        | |- keeps R (match ?x with _ => _ end) => destruct x
        end ].

Variable ctx : string.
Variable tr : Transport.

Lemma keeps_async_login : keeps R (async_login ctx tr).
Proof.
  unfold async_login, _LOGGER_debug, _LOGGER_info, _LOGGER_error,
    websession_get, websession_post, skip.
  keeps_tac.
Qed.

Lemma keeps_release_response : keeps R release_response.
Proof.
  unfold release_response, skip. keeps_tac.
Qed.

Lemma keeps_update_try (retry : M PyVal) :
  keeps R retry -> keeps R (update_try ctx tr retry).
Proof.
  intros Hretry.
  unfold update_try, _LOGGER_debug, _LOGGER_error, websession_get, skip.
  apply keeps_try_finally; [|apply keeps_release_response].
  keeps_tac; try exact Hretry.
Qed.

Lemma keeps_async_update fuel : keeps R (async_update ctx tr fuel).
Proof.
  induction fuel as [|fuel IH].
  - apply keeps_pure. reflexivity.
  - rewrite async_update_S. unfold _LOGGER_debug, skip.
    apply keeps_call. repeat (apply keeps_bind; [|intro]).
    + keeps_tac.
    + keeps_tac.
    + keeps_tac.
    + apply keeps_when. apply keeps_bind; [apply keeps_async_login|intro].
      keeps_tac.
    + apply keeps_update_try. exact IH.
Qed.

Lemma keeps_send_body event (upd disarm away : M PyVal) :
  keeps R upd -> keeps R disarm -> keeps R away ->
  keeps R (send_body ctx tr event upd disarm away).
Proof.
  intros Hupd Hdis Haway.
  unfold send_body, _LOGGER_debug, _LOGGER_error, websession_post, skip.
  apply keeps_bind; [keeps_tac|intro].
  apply keeps_try_finally; [|apply keeps_release_response].
  apply keeps_try_except.
  2:{ intros e h H. destruct (transport_error e); inversion H; subst.
      keeps_tac. }
  repeat (apply keeps_bind; [keeps_tac|first [intros [rid response] | intro]]).
  apply keeps_try_except.
  - apply keeps_bind; [keeps_tac|intro].
    apply keeps_when. apply keeps_bind; [keeps_tac|intro].
    apply keeps_bind; [exact Hupd|intro]. keeps_tac.
  - intros e h H. destruct e; inversion H; subst; clear H.
    apply keeps_bind; [apply keeps_async_login|intro].
    repeat match goal with
           | |- keeps R (if ?b then _ else _) => destruct b
           end.
    all: try (apply keeps_bind; [assumption|intro]).
    all: keeps_tac.
Qed.

Lemma keeps__send fuel : forall event, keeps R (_send ctx tr fuel event).
Proof.
  induction fuel as [|fuel IH]; intros event.
  - apply keeps_pure. reflexivity.
  - rewrite _send_S. apply keeps_call. apply keeps_send_body.
    + apply keeps_async_update.
    + apply keeps_call. apply keeps_bind; [apply IH|intro]. keeps_tac.
    + apply keeps_call. apply keeps_bind; [apply IH|intro]. keeps_tac.
Qed.

End Keeps.

(** ** The context path *)

Lemma contains_equals_false_cons c s :
  contains "=" (String c s) = false ->
  Ascii.eqb c "=" = false /\ contains "=" s = false.
Proof.
  cbn [contains String.prefix].
  destruct (ascii_dec "=" c) as [<-|Hne].
  - destruct s; discriminate.
  - intros H. split; [|exact H].
    apply Ascii.eqb_neq. intros ->. apply Hne. reflexivity.
Qed.

Lemma contains_equals_app lhs rest :
  contains "=" (lhs ++ String "=" rest) = true.
Proof.
  induction lhs as [|c lhs IH]; cbn [String.append contains String.prefix].
  - destruct rest; reflexivity.
  - destruct (ascii_dec "=" c); [destruct (lhs ++ String "=" rest)%string|];
      try reflexivity; exact IH.
Qed.

Lemma split_once_first lhs rest :
  contains "=" lhs = false ->
  split_once "=" (lhs ++ String "=" rest) = [lhs; rest].
Proof.
  induction lhs as [|c lhs IH]; intros H; [reflexivity|].
  apply contains_equals_false_cons in H. destruct H as [Hc Hl].
  cbn [String.append split_once]. rewrite Hc, (IH Hl). reflexivity.
Qed.

Lemma substring_prefix p : forall t,
  String.substring 0 (String.length p) (p ++ t) = p.
Proof.
  induction p as [|c p IH]; intros t; cbn.
  - destruct t; reflexivity.
  - rewrite IH. reflexivity.
Qed.

Lemma length_append s t :
  String.length (s ++ t) = String.length s + String.length t.
Proof.
  induction s as [|c s IH]; cbn; [reflexivity|]. rewrite IH. reflexivity.
Qed.

(** [s[1:-2]] drops the first character and the last two. *)
Lemma slice_strips q path c1 c2 :
  slice (String q (path ++ String c1 (String c2 EmptyString))) 1 (-2) = path.
Proof.
  unfold slice.
  set (s := String q (path ++ String c1 (String c2 EmptyString))).
  assert (Hlen : String.length s = String.length path + 3).
  { unfold s. cbn [String.length]. rewrite length_append. cbn. lia. }
  rewrite Hlen.
  replace (if (1 <? 0)%Z then _ else _) with 1%Z
    by (cbn [Z.ltb Z.compare]; lia).
  replace (if (-2 <? 0)%Z then _ else _)
    with (Z.of_nat (String.length path) + 1)%Z
    by (cbn [Z.ltb Z.compare]; lia).
  replace (Z.to_nat 1) with 1 by reflexivity.
  replace (Z.to_nat (Z.of_nat (String.length path) + 1 - 1))
    with (String.length path) by lia.
  unfold s. cbn [String.substring]. apply substring_prefix.
Qed.

(** X1. When the fifth script of type text/javascript on the front page
    reads [lhs=Qpath..], with no "=" in [lhs], one character [Q] before
    the path and two after it, [adtpulse_version] returns the path: the
    text after the first "=", without its first character and its last
    two. *)
Theorem version_is_read_from_the_fifth_script
        requests_get url content tag lhs q path c1 c2 :
  requests_get url = inr content ->
  nth_error (find_all "script" "type" "text/javascript" content) 4 = Some tag ->
  tag_string tag
  = Some (lhs ++ String "=" (String q (path ++ String c1 (String c2 EmptyString))))%string ->
  contains "=" lhs = false ->
  adtpulse_version requests_get url = inr path.
Proof.
  intros Hget Hnth Hstr Hlhs. unfold adtpulse_version, BeautifulSoup.
  rewrite Hget, Hnth, Hstr, contains_equals_app, (split_once_first _ _ Hlhs).
  rewrite slice_strips. reflexivity.
Qed.

Lemma version_is_read_from_the_fifth_script_witness :
  adtpulse_version (fun _ => inr front_page) ADTPULSEDOTCOM_URL
  = inr "/myhome/13.0.0-153".
Proof.
  apply (version_is_read_from_the_fifth_script
           (fun _ => inr front_page) ADTPULSEDOTCOM_URL front_page
           (script "var contextPath='/myhome/13.0.0-153';")
           "var contextPath" "'" "/myhome/13.0.0-153" "'" ";");
    reflexivity.
Defined.

(** X2. On a front page with fewer than five scripts of type
    text/javascript, [adtpulse_version] raises [IndexError]. *)
Theorem version_needs_five_scripts requests_get url content :
  requests_get url = inr content ->
  length (find_all "script" "type" "text/javascript" content) <= 4 ->
  adtpulse_version requests_get url = inl IndexError.
Proof.
  intros Hget Hlen. unfold adtpulse_version, BeautifulSoup. rewrite Hget.
  apply nth_error_None in Hlen. rewrite Hlen. reflexivity.
Qed.

Lemma version_needs_five_scripts_witness :
  adtpulse_version (fun _ => inr short_front_page) ADTPULSEDOTCOM_URL
  = inl IndexError.
Proof.
  apply (version_needs_five_scripts
           (fun _ => inr short_front_page) ADTPULSEDOTCOM_URL short_front_page).
  - reflexivity.
  - vm_compute. lia.
Defined.

(** X3. When the fifth script has text without "=", the assignment to
    [value] is skipped and reading it raises [UnboundLocalError]. *)
Theorem version_without_assignment_is_unbound
        requests_get url content tag text :
  requests_get url = inr content ->
  nth_error (find_all "script" "type" "text/javascript" content) 4 = Some tag ->
  tag_string tag = Some text ->
  contains "=" text = false ->
  adtpulse_version requests_get url = inl (UnboundLocalError "value").
Proof.
  intros Hget Hnth Hstr Hno. unfold adtpulse_version, BeautifulSoup.
  rewrite Hget, Hnth, Hstr, Hno. reflexivity.
Qed.

Lemma version_without_assignment_is_unbound_witness :
  adtpulse_version (fun _ => inr odd_front_page) ADTPULSEDOTCOM_URL
  = inl (UnboundLocalError "value").
Proof.
  apply (version_without_assignment_is_unbound
           (fun _ => inr odd_front_page) ADTPULSEDOTCOM_URL odd_front_page
           (script "init();") "init();");
    reflexivity.
Defined.

(** ** More on [async_login] *)

(** X4. When the login GET fails in the transport, [async_login] returns
    [False] without raising: it has made that one request, and session,
    state and responses are as before. *)
Theorem login_get_failure_returns_false ctx tr l w e :
  tr (length (requests w)) (login_get ctx) = Fails e ->
  exists w',
    async_login ctx tr l w = (Normal (VBool false), l, w') /\
    _login_info w' = _login_info w /\ state w' = state w /\
    requests w' = requests w ++ [login_get ctx] /\
    opened w' = opened w /\ released w' = released w.
Proof.
  intros H. destruct (async_login_get_fails ctx tr l w e H) as [recs E].
  eexists. split; [exact E|]. cbn. rewrite !app_nil_r.
  repeat split; reflexivity.
Qed.

Lemma login_get_failure_returns_false_witness :
  exists w',
    async_login sample_context_path unreachable Unbound
                (signed_in (Some "Disarmed"))
    = (Normal (VBool false), Unbound, w') /\
    _login_info w' = Some [("sessionkey", "0123ABCD")] /\
    state w' = Some "Disarmed" /\
    requests w' = [] ++ [login_get sample_context_path] /\
    opened w' = [] /\ released w' = [].
Proof.
  apply (login_get_failure_returns_false
           sample_context_path unreachable Unbound
           (signed_in (Some "Disarmed")) Connection).
  reflexivity.
Defined.

(** X5. When the login page brings a session cookie and the credentials
    POST then fails, [async_login] returns [False], yet the session is
    already stored: the client counts as logged in with the cookie's
    value, whatever it held before. *)
Theorem login_post_failure_keeps_the_new_session ctx tr l w r key e :
  tr (length (requests w)) (login_get ctx) = Responds r ->
  Dict.get (cookies r) "JSESSIONID" = Some key ->
  tr (S (length (requests w)))
     (login_post ctx (_username w) (_password w)) = Fails e ->
  exists w',
    async_login ctx tr l w = (Normal (VBool false), l, w') /\
    _login_info w' = Some [("sessionkey", key)] /\
    is_active w' = true /\
    requests w' =
      requests w ++ [ login_get ctx;
                      login_post ctx (_username w) (_password w) ].
Proof.
  intros H1 H2 H3.
  destruct (async_login_post_fails ctx tr l w r key e H1 H2 H3) as [recs E].
  eexists. split; [exact E|]. repeat split; reflexivity.
Qed.

Lemma login_post_failure_keeps_the_new_session_witness :
  exists w',
    async_login sample_context_path login_post_times_out Unbound
                (signed_out None)
    = (Normal (VBool false), Unbound, w') /\
    _login_info w' = Some [("sessionkey", "0123ABCD")] /\
    is_active w' = true /\
    requests w' =
      [] ++ [ login_get sample_context_path;
              login_post sample_context_path "user" "secret" ].
Proof.
  apply (login_post_failure_keeps_the_new_session
           sample_context_path login_post_times_out Unbound (signed_out None)
           signin_page "0123ABCD" Timeout);
    reflexivity.
Defined.

(** X6. Whatever the transport does, [async_login] ends in one of three
    ways: it returns [None], it returns [False], or [KeyError] for the
    cookie leaves it. It never touches the state and never releases a
    response; it issues the login GET and at most the credentials POST
    after it; the session afterwards is the old one or the cookie's. *)
Theorem login_outcomes ctx tr l w :
  exists c w',
    async_login ctx tr l w = (c, l, w') /\
    (c = Normal VNone \/ c = Normal (VBool false)
     \/ c = Raise (KeyError "JSESSIONID")) /\
    state w' = state w /\ released w' = released w /\
    (requests w' = requests w ++ [login_get ctx] \/
     requests w' =
       requests w ++ [ login_get ctx;
                       login_post ctx (_username w) (_password w) ]) /\
    (_login_info w' = _login_info w \/
     exists key, _login_info w' = Some [("sessionkey", key)]).
Proof.
  destruct (tr (length (requests w)) (login_get ctx)) as [e|r1] eqn:H1.
  { destruct (async_login_get_fails ctx tr l w e H1) as [recs E].
    do 2 eexists. split; [exact E|]. cbn. rewrite app_nil_r.
    repeat split; auto. }
  destruct (Dict.get (cookies r1) "JSESSIONID") as [key|] eqn:H2.
  2:{ destruct (async_login_no_cookie ctx tr l w r1 H1 H2) as [recs E].
      do 2 eexists. split; [exact E|]. cbn. rewrite app_nil_r.
      repeat split; auto. }
  destruct (tr (S (length (requests w)))
               (login_post ctx (_username w) (_password w))) as [e|r2] eqn:H3.
  { destruct (async_login_post_fails ctx tr l w r1 key e H1 H2 H3) as [recs E].
    do 2 eexists. split; [exact E|]. cbn. rewrite app_nil_r.
    repeat split; eauto. }
  destruct (async_login_completes ctx tr l w r1 key r2 H1 H2 H3) as [recs E].
  do 2 eexists. split; [exact E|]. cbn. rewrite app_nil_r.
  repeat split; eauto.
Qed.

(** ** More on [async_update] *)

(** X7. With a session held, a dashboard GET that fails in the transport
    makes [async_update] return [False] without raising; the state and
    the session stay as they were and nothing is opened. *)
Theorem refresh_failure_keeps_state ctx tr fuel l w e :
  is_active w = true ->
  tr (length (requests w)) (dashboard_get ctx) = Fails e ->
  exists w',
    async_update ctx tr (S fuel) l w = (Normal (VBool false), l, w') /\
    state w' = state w /\ _login_info w' = _login_info w /\
    requests w' = requests w ++ [dashboard_get ctx] /\
    opened w' = opened w /\ released w' = released w.
Proof.
  intros Hact H.
  destruct (refresh_transport_failure ctx tr fuel l w e Hact H) as [recs E].
  eexists. split; [exact E|]. cbn. rewrite !app_nil_r.
  repeat split; reflexivity.
Qed.

Lemma refresh_failure_keeps_state_witness :
  exists w',
    async_update sample_context_path unreachable 1 Unbound
                 (signed_in (Some "Disarmed"))
    = (Normal (VBool false), Unbound, w') /\
    state w' = Some "Disarmed" /\
    _login_info w' = Some [("sessionkey", "0123ABCD")] /\
    requests w' = [] ++ [dashboard_get sample_context_path] /\
    opened w' = [] /\ released w' = [].
Proof.
  apply (refresh_failure_keeps_state
           sample_context_path unreachable 0 Unbound
           (signed_in (Some "Disarmed")) Connection);
    reflexivity.
Defined.

(** X8. With a session held and a dashboard page in which the selector
    finds elements, [async_update] sets the state to the text of the
    first of them, keeps the session, returns [None], and releases the
    response it opened, once. *)
Theorem refresh_reads_the_first_match ctx tr fuel l w r tag more :
  is_active w = true ->
  tr (length (requests w)) (dashboard_get ctx) = Responds r ->
  select ALARM_STATE (text r) = tag :: more ->
  exists w',
    async_update ctx tr (S fuel) l w = (Normal VNone, l, w') /\
    state w' = Some (get_text tag) /\ _login_info w' = _login_info w /\
    requests w' = requests w ++ [dashboard_get ctx] /\
    opened w' = opened w ++ [(length (requests w), r)] /\
    released w' = released w ++ [length (requests w)].
Proof.
  intros Hact H Hsel.
  destruct (refresh_releases_its_response ctx tr fuel l w r tag more Hact H Hsel)
    as [recs E].
  eexists. split; [exact E|]. repeat split; reflexivity.
Qed.

Lemma refresh_reads_the_first_match_witness :
  exists w',
    async_update sample_context_path dashboard_up 1 Unbound (signed_in None)
    = (Normal VNone, Unbound, w') /\
    state w' = Some "Disarmed" /\
    _login_info w' = Some [("sessionkey", "0123ABCD")] /\
    requests w' = [] ++ [dashboard_get sample_context_path] /\
    opened w' = [] ++ [(0, state_page)] /\
    released w' = [] ++ [0].
Proof.
  apply (refresh_reads_the_first_match
           sample_context_path dashboard_up 0 Unbound (signed_in None)
           state_page
           (Tag "divorbtextsummary" [] [NavigableString "Disarmed"]) []);
    reflexivity.
Defined.

(** X9. After any run of [async_update] the state is what the dashboard
    pages received during the run leave when read in order: the last
    page received decides (its first match, or [None] when it has none),
    and without any page the state is unchanged. No run posts a command. *)
Theorem refresh_state_is_the_last_scrape ctx tr fuel l w c l' w' :
  async_update ctx tr fuel l w = (c, l', w') ->
  exists new,
    requests w' = requests w ++ new /\
    state w' = replay tr (length (requests w)) new (state w) /\
    count is_command_post new = 0.
Proof.
  intros H.
  destruct (async_update_run ctx tr fuel l w c l' w' H)
    as (_ & _ & _ & new & [Rq Rs Rc _ _]).
  exists new. repeat split; assumption.
Qed.

Lemma refresh_state_is_the_last_scrape_witness :
  exists c l' w',
    async_update sample_context_path expires_then_state 2 Unbound
                 (signed_in (Some "Armed Stay")) = (c, l', w') /\
    exists new,
      requests w' = requests (signed_in (Some "Armed Stay")) ++ new /\
      state w' = replay expires_then_state 0 new (Some "Armed Stay") /\
      count is_command_post new = 0.
Proof.
  do 3 eexists. split.
  - lazy. reflexivity.
  - eapply (refresh_state_is_the_last_scrape
              sample_context_path expires_then_state 2 Unbound
              (signed_in (Some "Armed Stay"))).
    lazy. reflexivity.
Defined.

(** ** What a refresh opens and releases, and how it ends *)

Section Account.

Variable ctx : string.
Variable tr : Transport.

Lemma answered_app rqs1 : forall i rqs2,
  answered tr i (rqs1 ++ rqs2) =
    answered tr i rqs1 ++ answered tr (i + length rqs1) rqs2.
Proof.
  induction rqs1 as [|rq rqs1 IH]; intros i rqs2; cbn.
  - rewrite Nat.add_0_r. reflexivity.
  - rewrite IH, <- app_assoc.
    replace (S i + length rqs1) with (i + S (length rqs1)) by lia.
    reflexivity.
Qed.

Lemma dashboard_answered_app rqs1 : forall i rqs2,
  dashboard_answered tr i (rqs1 ++ rqs2) =
    dashboard_answered tr i rqs1
    ++ dashboard_answered tr (i + length rqs1) rqs2.
Proof.
  induction rqs1 as [|rq rqs1 IH]; intros i rqs2; cbn.
  - rewrite Nat.add_0_r. reflexivity.
  - rewrite IH, <- app_assoc.
    replace (S i + length rqs1) with (i + S (length rqs1)) by lia.
    reflexivity.
Qed.

(** A login opens the responses to its requests and none of them is a
    dashboard response. *)
Lemma async_login_account l w :
  exists c li rqs recs,
    async_login ctx tr l w =
      (c, l, advance w li (state w) rqs
                     (answered tr (length (requests w)) rqs) [] recs)
    /\ dashboard_answered tr (length (requests w)) rqs = []
    /\ (c = Normal VNone \/ c = Normal (VBool false)
        \/ c = Raise (KeyError "JSESSIONID")).
Proof.
  destruct (tr (length (requests w)) (login_get ctx)) as [e|r1] eqn:H1.
  { destruct (async_login_get_fails ctx tr l w e H1) as [recs E].
    exists (Normal (VBool false)), (_login_info w), [login_get ctx], recs.
    cbn [answered]. rewrite H1. split; [exact E|]. split; auto. }
  destruct (Dict.get (cookies r1) "JSESSIONID") as [key|] eqn:H2.
  2:{ destruct (async_login_no_cookie ctx tr l w r1 H1 H2) as [recs E].
      exists (Raise (KeyError "JSESSIONID")), (_login_info w),
        [login_get ctx], recs.
      cbn [answered]. rewrite H1. split; [exact E|]. split; auto. }
  destruct (tr (S (length (requests w)))
               (login_post ctx (_username w) (_password w))) as [e|r2] eqn:H3.
  { destruct (async_login_post_fails ctx tr l w r1 key e H1 H2 H3) as [recs E].
    exists (Normal (VBool false)), (Some [("sessionkey", key)]),
      [login_get ctx; login_post ctx (_username w) (_password w)], recs.
    cbn [answered]. rewrite H1, H3. split; [exact E|]. split; auto. }
  destruct (async_login_completes ctx tr l w r1 key r2 H1 H2 H3) as [recs E].
  exists (Normal VNone), (Some [("sessionkey", key)]),
    [login_get ctx; login_post ctx (_username w) (_password w)], recs.
  cbn [answered]. rewrite H1, H3. split; [exact E|]. split; auto.
Qed.

Lemma update_try_account (retry : M PyVal) :
  (forall l w c l' w', retry l w = (c, l', w') ->
     l' = l /\ refresh_completion c /\
     exists new, refresh_account tr w (fuel_left c) w' new) ->
  forall w c l' w',
    update_try ctx tr retry IsNone w = (c, l', w') ->
    try_completion c /\
    exists new, refresh_account tr w (fuel_left c) w' new.
Proof.
  intros Hretry w c l' w' H.
  unfold update_try, BeautifulSoup in H. unfold_monad. cbn in H.
  destruct (tr (length (requests w))
               {| method := GET; url := BoundFormat (DASHBOARD_URL ctx);
                  data := [] |}) as [e|r] eqn:Hreply.
  - destruct e; cbn in H; inversion H; subst; clear H.
    all: split; [right; left; reflexivity|].
    all: exists [dashboard_get ctx]; unfold dashboard_get; split; cbn.
    all: rewrite ?Hreply, ?app_nil_r; reflexivity.
  - cbn in H. destruct (select ALARM_STATE (text r)) as [|tag rest] eqn:Hsel;
      cbn in H.
    + match type of H with context [retry ?l ?w2] =>
        destruct (retry l w2) as [[c2 l2] w3] eqn:E2 end.
      apply Hretry in E2. destruct E2 as (-> & Hc2 & new & [Rq Ro Rr]).
      cbn in Rq, Ro, Rr.
      rewrite length_app, Nat.add_1_r in Ro, Rr. cbn in Ro, Rr.
      assert (Hacc : forall done w4,
                requests w4 = requests w3 -> opened w4 = opened w3 ->
                (done = true -> fuel_left c2 = true /\
                   released w4 = released w3 ++ [length (requests w)]) ->
                refresh_account tr w done w4
                  ({| method := GET; url := BoundFormat (DASHBOARD_URL ctx);
                      data := [] |} :: new)).
      { intros done w4 Hq Ho Hr. split; cbn.
        - rewrite Hq, Rq, <- app_assoc. reflexivity.
        - rewrite Ho, Ro, Hreply, <- app_assoc. reflexivity.
        - intros D. destruct (Hr D) as [F Hrel].
          rewrite Hrel, (Rr F), Hreply. cbn.
          rewrite <- app_assoc. reflexivity. }
      destruct Hc2 as [->|[->|[->| ->]]]; cbn in H; inversion H; subst; clear H.
      * split; [left; reflexivity|]. eexists. apply Hacc; cbn; auto.
      * split; [left; reflexivity|]. eexists. apply Hacc; cbn; auto.
      * split; [right; right; left; reflexivity|].
        eexists. apply Hacc; cbn; auto.
      * split; [right; right; right; reflexivity|].
        eexists. apply Hacc; cbn; auto. discriminate.
    + inversion H; subst; clear H. split; [left; reflexivity|].
      exists [dashboard_get ctx]. unfold dashboard_get. split; cbn.
      all: rewrite ?Hreply, ?app_nil_r; reflexivity.
Qed.

Lemma refresh_account_after_login w w1 done w' pre new :
  requests w1 = requests w ++ pre ->
  opened w1 = opened w ++ answered tr (length (requests w)) pre ->
  released w1 = released w ->
  dashboard_answered tr (length (requests w)) pre = [] ->
  refresh_account tr w1 done w' new ->
  refresh_account tr w done w' (pre ++ new).
Proof.
  intros Hq Ho Hr Hd [Rq Ro Rr].
  rewrite Hq, length_app in *. split.
  - rewrite Rq, app_assoc. reflexivity.
  - rewrite Ro, Ho, answered_app, app_assoc. reflexivity.
  - intros D. rewrite (Rr D), Hr, dashboard_answered_app, Hd. reflexivity.
Qed.

Lemma async_update_account fuel : forall l w c l' w',
  async_update ctx tr fuel l w = (c, l', w') ->
  l' = l /\ refresh_completion c /\
  exists new, refresh_account tr w (fuel_left c) w' new.
Proof.
  induction fuel as [|fuel IH]; intros l w c l' w' H.
  - cbn in H. inversion H; subst; clear H.
    split; [reflexivity|]. split; [right; right; right; reflexivity|].
    exists []. split; cbn; rewrite ?app_nil_r; try reflexivity; discriminate.
  - destruct (async_update_frame _ _ _ _ _ _ _ _ H) as [-> _].
    split; [reflexivity|].
    rewrite async_update_S in H.
    unfold call, bind, when, skip, ret, set_response, get_login_info,
      _LOGGER_debug, emit in H. cbn in H.
    destruct (truth (_login_info w)) eqn:Hact; cbn in H.
    + match type of H with context [update_try ctx tr ?f ?l ?w0] =>
        destruct (update_try ctx tr f l w0) as [[c1 l1] w1] eqn:E1 end.
      apply (update_try_account _ IH) in E1.
      destruct E1 as (Hc1 & new & [Rq Ro Rr]). cbn in Rq, Ro, Rr.
      destruct Hc1 as [->|[->|[->| ->]]]; inversion H; subst; clear H.
      all: split; [unfold refresh_completion; auto|].
      all: exists new; split; assumption.
    + match type of H with context [async_login ctx tr ?l ?w0] =>
        destruct (async_login_account l w0)
          as (c1 & li & rqs & recs & E1 & Hd & Hc1) end.
      rewrite E1 in H. clear E1. cbn in Hd.
      destruct Hc1 as [->|[->| ->]]; cbn in H.
      3:{ inversion H; subst; clear H.
          split; [unfold refresh_completion; auto|].
          exists (rqs ++ []).
          apply refresh_account_after_login with
            (w1 := advance w None (state w) rqs
                           (answered tr (length (requests w)) rqs) [] []);
            try assumption; cbn; rewrite ?app_nil_r; try reflexivity.
          split; cbn; rewrite ?app_nil_r; reflexivity. }
      all: match type of H with context [update_try ctx tr ?f ?l ?w0] =>
             destruct (update_try ctx tr f l w0) as [[c2 l2] w2] eqn:E2 end.
      all: apply (update_try_account _ IH) in E2;
        destruct E2 as (Hc2 & new & R).
      all: destruct Hc2 as [->|[->|[->| ->]]]; inversion H; subst; clear H.
      all: split; [unfold refresh_completion; auto|].
      all: exists (rqs ++ new).
      all: eapply refresh_account_after_login; try eassumption;
        cbn; rewrite ?app_nil_r; reflexivity.
Qed.

End Account.

(** X10. A refresh ends in one of four ways, whatever the transport does:
    it returns [None], it returns [False], the [KeyError] of a login page
    without cookie leaves it, or it is still recurring when the budget is
    spent. No transport error and no other exception leaves it. *)
Theorem refresh_ends_in_four_ways ctx tr fuel l w c l' w' :
  async_update ctx tr fuel l w = (c, l', w') ->
  l' = l /\
  (c = Normal VNone \/ c = Normal (VBool false)
   \/ c = Raise (KeyError "JSESSIONID") \/ c = OutOfFuel).
Proof.
  intros H.
  destruct (async_update_account ctx tr fuel l w c l' w' H) as (Hl & Hc & _).
  split; [exact Hl | exact Hc].
Qed.

Lemma refresh_ends_in_four_ways_witness :
  exists c l' w',
    async_update sample_context_path expires_twice 3 Unbound
                 (signed_in None) = (c, l', w') /\
    l' = Unbound /\
    (c = Normal VNone \/ c = Normal (VBool false)
     \/ c = Raise (KeyError "JSESSIONID") \/ c = OutOfFuel).
Proof.
  do 3 eexists. split.
  - lazy. reflexivity.
  - eapply (refresh_ends_in_four_ways
              sample_context_path expires_twice 3 Unbound (signed_in None)).
    lazy. reflexivity.
Defined.

(** X13. A refresh that does not run out of fuel releases every dashboard
    response it was handed, each once and the innermost first, and
    releases nothing else; the responses of the logins it makes are
    opened and stay unreleased. *)
Theorem refresh_releases_every_dashboard_response
        ctx tr fuel l w c l' w' :
  async_update ctx tr fuel l w = (c, l', w') ->
  c <> OutOfFuel ->
  exists new,
    requests w' = requests w ++ new /\
    opened w' = opened w ++ answered tr (length (requests w)) new /\
    released w' =
      released w ++ rev (dashboard_answered tr (length (requests w)) new).
Proof.
  intros H Hc.
  destruct (async_update_account ctx tr fuel l w c l' w' H)
    as (_ & _ & new & [Rq Ro Rr]).
  exists new. split; [exact Rq|]. split; [exact Ro|].
  apply Rr. destruct c; try reflexivity. contradiction.
Qed.

Lemma refresh_releases_every_dashboard_response_witness :
  exists c l' w',
    async_update sample_context_path expires_then_state 2 Unbound
                 (signed_in None) = (c, l', w') /\
    exists new,
      requests w' = requests (signed_in None) ++ new /\
      opened w' =
        opened (signed_in None) ++ answered expires_then_state 0 new /\
      released w' =
        released (signed_in None)
        ++ rev (dashboard_answered expires_then_state 0 new).
Proof.
  do 3 eexists. split.
  - lazy. reflexivity.
  - eapply (refresh_releases_every_dashboard_response
              sample_context_path expires_then_state 2 Unbound
              (signed_in None)).
    + lazy. reflexivity.
    + discriminate.
Defined.

(** ** A refresh without a session *)

(** X11. A refresh started without a session goes on to the dashboard
    GET even when the login GET failed: the [False] of [async_login] is
    not looked at. *)
Theorem refresh_continues_after_failed_login ctx tr fuel l w e c l' w' :
  is_active w = false ->
  tr (length (requests w)) (login_get ctx) = Fails e ->
  async_update ctx tr (S fuel) l w = (c, l', w') ->
  exists rest,
    requests w' = requests w ++ login_get ctx :: dashboard_get ctx :: rest.
Proof.
  intros Hact Hget H. rewrite async_update_S in H. unfold is_active in Hact.
  unfold call, bind, when, skip, ret, set_response, get_login_info,
    _LOGGER_debug, emit in H. cbn in H. rewrite Hact in H. cbn in H.
  match type of H with context [async_login ctx tr ?l0 ?w0] =>
    destruct (async_login_get_fails ctx tr l0 w0 e Hget) as [recs E] end.
  rewrite E in H. clear E. cbn in H.
  match type of H with context [update_try ctx tr ?f ?l0 ?w0] =>
    destruct (update_try ctx tr f l0 w0) as [[c2 l2] w2] eqn:E2 end.
  apply update_try_first in E2. cbn in E2. destruct E2 as (rest & E2 & _).
  exists rest.
  destruct c2; inversion H; subst; rewrite E2, <- app_assoc; reflexivity.
Qed.

Lemma refresh_continues_after_failed_login_witness :
  exists c l' w',
    async_update sample_context_path login_down_dashboard_up 1 Unbound
                 (signed_out None) = (c, l', w') /\
    exists rest,
      requests w' =
        requests (signed_out None)
        ++ login_get sample_context_path
           :: dashboard_get sample_context_path :: rest.
Proof.
  do 3 eexists. split.
  - lazy. reflexivity.
  - eapply (refresh_continues_after_failed_login
              sample_context_path login_down_dashboard_up 0 Unbound
              (signed_out None) Connection).
    + reflexivity.
    + reflexivity.
    + lazy. reflexivity.
Defined.

(** X12. A refresh started without a session, when the login page comes
    without the session cookie: the [KeyError] of [async_login] leaves
    [async_update] too, before any dashboard GET; the state is untouched. *)
Theorem refresh_propagates_login_error ctx tr fuel l w r :
  is_active w = false ->
  tr (length (requests w)) (login_get ctx) = Responds r ->
  Dict.get (cookies r) "JSESSIONID" = None ->
  exists w',
    async_update ctx tr (S fuel) l w
    = (Raise (KeyError "JSESSIONID"), l, w') /\
    requests w' = requests w ++ [login_get ctx] /\
    state w' = state w /\ _login_info w' = _login_info w /\
    released w' = released w.
Proof.
  intros Hact H1 H2.
  destruct (async_update ctx tr (S fuel) l w) as [[c l'] w'] eqn:H.
  rewrite async_update_S in H. unfold is_active in Hact.
  unfold call, bind, when, skip, ret, set_response, get_login_info,
    _LOGGER_debug, emit in H. cbn in H. rewrite Hact in H. cbn in H.
  match type of H with context [async_login ctx tr ?l0 ?w0] =>
    destruct (async_login_no_cookie ctx tr l0 w0 r H1 H2) as [recs E] end.
  rewrite E in H. clear E. cbn in H. inversion H; subst; clear H.
  eexists. split; [reflexivity|]. cbn. rewrite ?app_nil_r.
  repeat split; reflexivity.
Qed.

Lemma refresh_propagates_login_error_witness :
  exists w',
    async_update sample_context_path login_without_cookie 1 Unbound
                 (signed_out (Some "Disarmed"))
    = (Raise (KeyError "JSESSIONID"), Unbound, w') /\
    requests w' = [] ++ [login_get sample_context_path] /\
    state w' = Some "Disarmed" /\ _login_info w' = None /\
    released w' = [].
Proof.
  apply (refresh_propagates_login_error
           sample_context_path login_without_cookie 0 Unbound
           (signed_out (Some "Disarmed")) signin_page_no_cookie);
    reflexivity.
Defined.

(** ** A refresh that recovers *)

Lemma refresh_trace_length ctx u p k :
  length (refresh_trace ctx u p k) = 3 * k + 1.
Proof.
  induction k as [|k IH]; [reflexivity|].
  cbn [refresh_trace length]. rewrite IH. lia.
Qed.

(** The [try] statement through [k] lost sessions: it ends normally with
    the state of the page that has one. *)
Lemma update_try_recovers ctx tr k : forall fuel w r tag more,
  (forall i, i < k ->
     session_lost ctx tr (_username w) (_password w)
                  (length (requests w) + 3 * i)) ->
  tr (length (requests w) + 3 * k) (dashboard_get ctx) = Responds r ->
  select ALARM_STATE (text r) = tag :: more ->
  exists l' w',
    update_try ctx tr (async_update ctx tr (k + fuel)) IsNone w
    = (Normal tt, l', w') /\
    _username w' = _username w /\ _password w' = _password w /\
    state w' = Some (get_text tag) /\
    (is_active w = true -> is_active w' = true) /\
    requests w' =
      requests w ++ refresh_trace ctx (_username w) (_password w) k.
Proof.
  induction k as [|k IH]; intros fuel w r tag more Hlost Hreply Hsel.
  - rewrite Nat.mul_0_r, Nat.add_0_r in Hreply.
    destruct (update_try ctx tr (async_update ctx tr (0 + fuel)) IsNone w)
      as [[c l'] w'] eqn:H.
    unfold update_try, BeautifulSoup, dashboard_get in *. unfold_monad.
    cbn in H. rewrite Hreply in H. cbn in H. rewrite Hsel in H. cbn in H.
    inversion H; subst; clear H.
    do 2 eexists. split; [reflexivity|]. cbn. repeat split; auto.
  - destruct (Hlost 0 (Nat.lt_0_succ k))
      as ((r0 & Hreply0 & Hsel0) & (r1 & key1 & H1 & H2) & (r2 & H3)).
    rewrite Nat.mul_0_r, Nat.add_0_r in Hreply0, H1, H3.
    destruct (update_try ctx tr (async_update ctx tr (S k + fuel)) IsNone w)
      as [[c l'] w'] eqn:H.
    unfold update_try, BeautifulSoup in H. unfold_monad. cbn in H.
    fold (dashboard_get ctx) in H.
    rewrite Hreply0 in H. cbn in H. rewrite Hsel0 in H. cbn in H.
    rewrite async_update_S in H.
    unfold call, bind, when, skip, ret, set_response, get_login_info,
      _LOGGER_debug, emit in H. cbn in H.
    match type of H with context [async_login ctx tr ?l0 ?w0] =>
      destruct (async_login_completes ctx tr l0 w0 r1 key1 r2)
        as [recs E]
    end.
    { cbn. rewrite length_app, Nat.add_1_r. exact H1. }
    { exact H2. }
    { cbn. rewrite length_app, Nat.add_1_r. exact H3. }
    rewrite E in H. clear E. cbn in H.
    match type of H with context [update_try ctx tr ?f IsNone ?w3] =>
      destruct (IH fuel w3 r tag more)
        as (l4 & w4 & E4 & Hu & Hp & Hst & Hact & Hreq)
    end.
    { intros i Hi. unfold advance. cbn [requests _username _password].
      rewrite !length_app. cbn [length].
      replace (length (requests w) + 1 + 2 + 3 * i)
        with (length (requests w) + 3 * S i) by lia.
      apply Hlost. lia. }
    { unfold advance. cbn [requests]. rewrite !length_app. cbn [length].
      replace (length (requests w) + 1 + 2 + 3 * k)
        with (length (requests w) + 3 * S k) by lia.
      exact Hreply. }
    { exact Hsel. }
    rewrite E4 in H. cbn in H. inversion H; subst; clear H.
    cbn in Hu, Hp, Hst, Hact, Hreq.
    do 2 eexists. split; [reflexivity|]. cbn.
    split; [exact Hu|]. split; [exact Hp|]. split; [exact Hst|].
    split; [intros _; apply Hact; reflexivity|].
    rewrite Hreq, <- !app_assoc. reflexivity.
Qed.

(** X14. A refresh on a held session that loses the session [k] times in
    a row (each time the login completes) and then gets a page with a
    state element comes back, given fuel for [k + 1] calls: it returns
    [None] with the state of that last page and a session, after
    [3k + 1] requests, the dashboard GET and then [k] rounds of login GET,
    credentials POST and dashboard GET. *)
Theorem refresh_recovers_after_k_lost_sessions
        ctx tr k fuel l w r tag more :
  is_active w = true ->
  (forall i, i < k ->
     session_lost ctx tr (_username w) (_password w)
                  (length (requests w) + 3 * i)) ->
  tr (length (requests w) + 3 * k) (dashboard_get ctx) = Responds r ->
  select ALARM_STATE (text r) = tag :: more ->
  exists w',
    async_update ctx tr (S k + fuel) l w = (Normal VNone, l, w') /\
    state w' = Some (get_text tag) /\ is_active w' = true /\
    requests w' =
      requests w ++ refresh_trace ctx (_username w) (_password w) k /\
    length (requests w') = length (requests w) + 3 * k + 1.
Proof.
  intros Hact Hlost Hreply Hsel.
  destruct (async_update ctx tr (S k + fuel) l w) as [[c l'] w'] eqn:H.
  cbn [Nat.add] in H. rewrite async_update_S in H.
  unfold call, bind, when, skip, ret, set_response, get_login_info,
    _LOGGER_debug, emit in H. cbn in H.
  unfold is_active in Hact. rewrite Hact in H. cbn in H.
  match type of H with context [update_try ctx tr ?f IsNone ?w0] =>
    destruct (update_try_recovers ctx tr k fuel w0 r tag more)
      as (l4 & w4 & E4 & _ & _ & Hst & Hact4 & Hreq)
  end; try assumption.
  rewrite E4 in H. inversion H; subst; clear H.
  cbn in Hst, Hact4, Hreq.
  exists w'. split; [reflexivity|]. split; [exact Hst|].
  split; [apply Hact4; exact Hact|]. split; [exact Hreq|].
  rewrite Hreq, length_app, refresh_trace_length. lia.
Qed.

Lemma refresh_recovers_after_k_lost_sessions_witness :
  exists w',
    async_update sample_context_path expires_then_state 2 Unbound
                 (signed_in (Some "Armed Stay"))
    = (Normal VNone, Unbound, w') /\
    state w' = Some "Disarmed" /\ is_active w' = true /\
    requests w' =
      [] ++ refresh_trace sample_context_path "user" "secret" 1 /\
    length (requests w') = 0 + 3 * 1 + 1.
Proof.
  apply (refresh_recovers_after_k_lost_sessions
           sample_context_path expires_then_state 1 0 Unbound
           (signed_in (Some "Armed Stay")) state_page
           (Tag "divorbtextsummary" [] [NavigableString "Disarmed"]) []).
  - reflexivity.
  - intros i Hi. assert (i = 0) by lia. subst i.
    split; [|split].
    + exists signed_out_page. split; reflexivity.
    + exists signin_page, "0123ABCD". split; reflexivity.
    + exists signed_out_page. reflexivity.
  - reflexivity.
  - reflexivity.
Defined.

(** X15. A refresh started without a session, when the login completes:
    it logs in with the stored credentials, then goes on as a refresh
    with that session; with a state element on the dashboard page it
    returns [None] with that state and the session held. *)
Theorem first_refresh_logs_in_and_reads_the_state
        ctx tr k fuel l w r1 key r2 r tag more :
  is_active w = false ->
  tr (length (requests w)) (login_get ctx) = Responds r1 ->
  Dict.get (cookies r1) "JSESSIONID" = Some key ->
  tr (S (length (requests w)))
     (login_post ctx (_username w) (_password w)) = Responds r2 ->
  (forall i, i < k ->
     session_lost ctx tr (_username w) (_password w)
                  (length (requests w) + 2 + 3 * i)) ->
  tr (length (requests w) + 2 + 3 * k) (dashboard_get ctx) = Responds r ->
  select ALARM_STATE (text r) = tag :: more ->
  exists w',
    async_update ctx tr (S k + fuel) l w = (Normal VNone, l, w') /\
    state w' = Some (get_text tag) /\ is_active w' = true /\
    requests w' =
      requests w
      ++ login_get ctx :: login_post ctx (_username w) (_password w)
         :: refresh_trace ctx (_username w) (_password w) k.
Proof.
  intros Hact H1 H2 H3 Hlost Hreply Hsel.
  destruct (async_update ctx tr (S k + fuel) l w) as [[c l'] w'] eqn:H.
  cbn [Nat.add] in H. rewrite async_update_S in H.
  unfold call, bind, when, skip, ret, set_response, get_login_info,
    _LOGGER_debug, emit in H. cbn in H.
  unfold is_active in Hact. rewrite Hact in H. cbn in H.
  match type of H with context [async_login ctx tr ?l0 ?w0] =>
    destruct (async_login_completes ctx tr l0 w0 r1 key r2 H1 H2 H3)
      as [recs E]
  end.
  rewrite E in H. clear E. cbn in H.
  match type of H with context [update_try ctx tr ?f IsNone ?w0] =>
    destruct (update_try_recovers ctx tr k fuel w0 r tag more)
      as (l4 & w4 & E4 & _ & _ & Hst & Hact4 & Hreq)
  end.
  { intros i Hi. unfold advance. cbn [requests _username _password].
    rewrite length_app. cbn [length]. apply Hlost. exact Hi. }
  { unfold advance. cbn [requests]. rewrite length_app. cbn [length].
    exact Hreply. }
  { exact Hsel. }
  rewrite E4 in H. inversion H; subst; clear H.
  cbn in Hst, Hact4, Hreq.
  exists w'. split; [reflexivity|]. split; [exact Hst|].
  split; [apply Hact4; reflexivity|].
  rewrite Hreq, <- app_assoc. reflexivity.
Qed.

Lemma first_refresh_logs_in_and_reads_the_state_witness :
  exists w',
    async_update sample_context_path login_then_dashboard 1 Unbound
                 (__init__ "user" "secret")
    = (Normal VNone, Unbound, w') /\
    state w' = Some "Disarmed" /\ is_active w' = true /\
    requests w' =
      []
      ++ login_get sample_context_path
         :: login_post sample_context_path "user" "secret"
         :: refresh_trace sample_context_path "user" "secret" 0.
Proof.
  apply (first_refresh_logs_in_and_reads_the_state
           sample_context_path login_then_dashboard 0 0 Unbound
           (__init__ "user" "secret") signin_page "0123ABCD" signed_out_page
           state_page
           (Tag "divorbtextsummary" [] [NavigableString "Disarmed"]) []);
    try reflexivity.
  intros i Hi. lia.
Defined.

(** ** More on [_send] *)

Section SendEdges.

Variable ctx : string.
Variable tr : Transport.
Hypothesis Hctx : brace_free ctx = true.

(** Without a session no request is made. *)
Lemma send_without_session fuel event l w :
  _login_info w = None ->
  _send ctx tr (S fuel) event l w =
    (Raise (UnboundLocalError "response"), l,
     advance w None (state w) [] [] []
             [mkLog DEBUG (AStr "Sending %s to AdtPulse.com") [AStr event]]).
Proof.
  intros Hli. rewrite _send_S. unfold send_body. unfold_monad. cbn.
  rewrite Hli. cbn. unfold advance. rewrite !app_nil_r. reflexivity.
Qed.

(** Nor for an event that is no key of [COMMAND_LIST]. *)
Lemma send_unknown_event fuel event l w d key :
  _login_info w = Some d ->
  Dict.get d "sessionkey" = Some key ->
  Dict.get COMMAND_LIST event = None ->
  _send ctx tr (S fuel) event l w =
    (Raise (UnboundLocalError "response"), l,
     advance w (Some d) (state w) [] [] []
             [mkLog DEBUG (AStr "Sending %s to AdtPulse.com") [AStr event]]).
Proof.
  intros Hli Hkey Hev. rewrite _send_S. unfold send_body. unfold_monad. cbn.
  rewrite Hli. unfold getitem. cbn. rewrite Hkey. cbn.
  rewrite (str_format_brace_free _ _ (brace_free_DASHBOARD_URL ctx Hctx)).
  cbn. rewrite Hev. cbn. unfold advance. rewrite !app_nil_r. reflexivity.
Qed.

(** The message acknowledges the command: the refresh follows, here one
    that finds the state. *)
Lemma send_acknowledged fuel event rq l w d key r tag more r' tag' more' :
  _login_info w = Some d ->
  Dict.get d "sessionkey" = Some key ->
  command_request ctx event = Some rq ->
  tr (length (requests w)) rq = Responds r ->
  select ("#" ++ MESSAGE_CONTROL)%string (text r) = tag :: more ->
  contains "command" (get_text tag) = true ->
  tr (S (length (requests w))) (dashboard_get ctx) = Responds r' ->
  select ALARM_STATE (text r') = tag' :: more' ->
  exists recs,
    _send ctx tr (S (S fuel)) event l w =
      (Normal VNone, l,
       advance w (Some d) (Some (get_text tag')) [rq; dashboard_get ctx]
               [(length (requests w), r); (S (length (requests w)), r')]
               [S (length (requests w)); length (requests w)] recs).
Proof.
  intros Hli Hkey Hrq Hreply Hsel Hmsg Hreply' Hsel'.
  destruct (refresh_releases_its_response
              ctx tr fuel (Obj (length (requests w)) r)
              (advance w (Some d) (state w) [rq] [(length (requests w), r)] []
                       [ mkLog DEBUG (AStr "Sending %s to AdtPulse.com")
                               [AStr event];
                         mkLog DEBUG (AStr "Response from AdtPulse.com %s")
                               [AInt (status r)];
                         mkLog DEBUG (AStr (get_text tag)) [] ])
              r' tag' more') as [recs E].
  { unfold is_active. cbn. destruct d; [discriminate Hkey | reflexivity]. }
  { cbn. rewrite length_app, Nat.add_1_r. exact Hreply'. }
  { exact Hsel'. }
  eexists.
  unfold advance in E. cbn in E.
  rewrite length_app, Nat.add_1_r, <- !app_assoc, ?app_nil_r in E. cbn in E.
  destruct (commands_cases ctx event rq Hrq) as [[-> ->]|[[-> ->]|[-> ->]]].
  all: rewrite _send_S; unfold send_body, BeautifulSoup; unfold_monad;
    cbn; rewrite Hli; unfold getitem; cbn; rewrite Hkey; cbn;
    rewrite (str_format_brace_free _ _ (brace_free_DASHBOARD_URL ctx Hctx));
    cbn.
  all: match goal with
       | |- context [tr _ ?q] =>
           match type of Hreply with tr _ ?rq0 = _ => change q with rq0 end
       end.
  all: rewrite Hreply; cbn.
  all: match goal with
       | |- context [select ?s (text ?p)] =>
           change (select s (text p))
             with (select ("#" ++ MESSAGE_CONTROL)%string (text p))
       end.
  all: rewrite Hsel; cbn; rewrite Hmsg; cbn.
  all: rewrite <- !app_assoc; cbn.
  all: rewrite E; cbn.
  all: unfold advance; rewrite <- ?app_assoc; cbn; reflexivity.
Qed.

(** The session is reported expired and the login GET fails: the command
    is sent again all the same, with the session as it was. *)
Lemma send_redispatches_after_failed_login
      fuel event event' rq rq' l w d key r e r3 tag more :
  _login_info w = Some d ->
  Dict.get d "sessionkey" = Some key ->
  command_request ctx event = Some rq ->
  redispatch event = Some event' ->
  command_request ctx event' = Some rq' ->
  tr (length (requests w)) rq = Responds r ->
  select ("#" ++ MESSAGE_CONTROL)%string (text r) = [] ->
  tr (S (length (requests w))) (login_get ctx) = Fails e ->
  tr (S (S (length (requests w)))) rq' = Responds r3 ->
  select ("#" ++ MESSAGE_CONTROL)%string (text r3) = tag :: more ->
  contains "command" (get_text tag) = false ->
  exists recs,
    _send ctx tr (S (S fuel)) event l w =
      (Normal VNone, l,
       advance w (Some d) (state w) [rq; login_get ctx; rq']
               [(length (requests w), r); (S (S (length (requests w))), r3)]
               [S (S (length (requests w))); length (requests w)] recs).
Proof.
  intros Hli Hkey Hrq Hre Hrq' Hreply Hsel Hget Hreply3 Hsel3 Hmsg.
  destruct (async_login_get_fails
              ctx tr (Obj (length (requests w)) r)
              (advance w (Some d) (state w) [rq] [(length (requests w), r)] []
                       [ mkLog DEBUG (AStr "Sending %s to AdtPulse.com")
                               [AStr event];
                         mkLog DEBUG (AStr "Response from AdtPulse.com %s")
                               [AInt (status r)] ])
              e) as [recs E].
  { cbn. rewrite length_app, Nat.add_1_r. exact Hget. }
  match type of E with
  | _ = (_, _, ?w2) =>
      destruct (send_notice ctx tr Hctx fuel event' rq' Unbound w2 d key
                            r3 tag more eq_refl Hkey Hrq')
        as [recs' Hinner]
  end.
  { cbn. rewrite !length_app. cbn.
    replace (length (requests w) + 1 + 1) with (S (S (length (requests w))))
      by lia.
    exact Hreply3. }
  { exact Hsel3. }
  { exact Hmsg. }
  eexists.
  unfold advance in E, Hinner. cbn in E, Hinner.
  rewrite ?length_app, ?Nat.add_1_r, <- ?app_assoc, ?app_nil_r in E, Hinner.
  cbn in E, Hinner.
  rewrite ?length_app, ?Nat.add_1_r, <- ?app_assoc, ?app_nil_r in Hinner.
  cbn in Hinner.
  destruct (commands_cases ctx event rq Hrq) as [[-> ->]|[[-> ->]|[-> ->]]].
  all: cbn in Hre; inversion Hre; subst event'; clear Hre.
  all: rewrite _send_S; unfold send_body, BeautifulSoup; unfold_monad;
    cbn; rewrite Hli; unfold getitem; cbn; rewrite Hkey; cbn;
    rewrite (str_format_brace_free _ _ (brace_free_DASHBOARD_URL ctx Hctx));
    cbn.
  all: match goal with
       | |- context [tr _ ?q] =>
           match type of Hreply with tr _ ?rq0 = _ => change q with rq0 end
       end.
  all: rewrite Hreply; cbn.
  all: match goal with
       | |- context [select ?s (text ?p)] =>
           change (select s (text p))
             with (select ("#" ++ MESSAGE_CONTROL)%string (text p))
       end.
  all: rewrite Hsel; cbn.
  all: rewrite <- !app_assoc; cbn.
  all: rewrite E; cbn.
  all: rewrite ?length_app, ?Nat.add_1_r, <- ?app_assoc, ?app_nil_r; cbn.
  all: rewrite Hinner; cbn.
  all: unfold advance; rewrite <- ?app_assoc; cbn.
  all: rewrite ?(Nat.add_comm (length (requests w)) 2); cbn; reflexivity.
Qed.

(** The session is reported expired and the login page has no cookie:
    the [KeyError] leaves [_send], after the [finally] clause released
    the response; nothing is sent again. *)
Lemma send_propagates_login_error fuel event rq l w d key r r1 :
  _login_info w = Some d ->
  Dict.get d "sessionkey" = Some key ->
  command_request ctx event = Some rq ->
  tr (length (requests w)) rq = Responds r ->
  select ("#" ++ MESSAGE_CONTROL)%string (text r) = [] ->
  tr (S (length (requests w))) (login_get ctx) = Responds r1 ->
  Dict.get (cookies r1) "JSESSIONID" = None ->
  exists recs,
    _send ctx tr (S fuel) event l w =
      (Raise (KeyError "JSESSIONID"), l,
       advance w (Some d) (state w) [rq; login_get ctx]
               [(length (requests w), r); (S (length (requests w)), r1)]
               [length (requests w)] recs).
Proof.
  intros Hli Hkey Hrq Hreply Hsel H1 H2.
  destruct (async_login_no_cookie
              ctx tr (Obj (length (requests w)) r)
              (advance w (Some d) (state w) [rq] [(length (requests w), r)] []
                       [ mkLog DEBUG (AStr "Sending %s to AdtPulse.com")
                               [AStr event];
                         mkLog DEBUG (AStr "Response from AdtPulse.com %s")
                               [AInt (status r)] ])
              r1) as [recs E].
  { cbn. rewrite length_app, Nat.add_1_r. exact H1. }
  { exact H2. }
  eexists.
  unfold advance in E. cbn in E.
  rewrite ?length_app, ?Nat.add_1_r, <- ?app_assoc, ?app_nil_r in E. cbn in E.
  destruct (commands_cases ctx event rq Hrq) as [[-> ->]|[[-> ->]|[-> ->]]].
  all: rewrite _send_S; unfold send_body, BeautifulSoup; unfold_monad;
    cbn; rewrite Hli; unfold getitem; cbn; rewrite Hkey; cbn;
    rewrite (str_format_brace_free _ _ (brace_free_DASHBOARD_URL ctx Hctx));
    cbn.
  all: match goal with
       | |- context [tr _ ?q] =>
           match type of Hreply with tr _ ?rq0 = _ => change q with rq0 end
       end.
  all: rewrite Hreply; cbn.
  all: match goal with
       | |- context [select ?s (text ?p)] =>
           change (select s (text p))
             with (select ("#" ++ MESSAGE_CONTROL)%string (text p))
       end.
  all: rewrite Hsel; cbn.
  all: rewrite <- !app_assoc; cbn.
  all: rewrite E; cbn.
  all: unfold advance; rewrite <- ?app_assoc; cbn; reflexivity.
Qed.

End SendEdges.

(** ** Credentials and history *)

Lemma extends_refl w : extends w w.
Proof.
  split; try reflexivity; exists []; symmetry; apply app_nil_r.
Qed.

Lemma extends_trans w1 w2 w3 : extends w1 w2 -> extends w2 w3 -> extends w1 w3.
Proof.
  intros [u1 p1 [a1 e1] [b1 f1] [c1 g1] [d1 h1]]
         [u2 p2 [a2 e2] [b2 f2] [c2 g2] [d2 h2]].
  split.
  - congruence.
  - congruence.
  - exists (a1 ++ a2). rewrite e2, e1. symmetry. apply app_assoc.
  - exists (b1 ++ b2). rewrite f2, f1. symmetry. apply app_assoc.
  - exists (c1 ++ c2). rewrite g2, g1. symmetry. apply app_assoc.
  - exists (d1 ++ d2). rewrite h2, h1. symmetry. apply app_assoc.
Qed.

Lemma extends_emit lvl m a l w : extends w (snd (emit lvl m a l w)).
Proof.
  split; cbn; try reflexivity;
    solve [eexists; reflexivity | exists []; symmetry; apply app_nil_r].
Qed.

Lemma extends_set_state v l w : extends w (snd (set_state v l w)).
Proof.
  split; cbn; try reflexivity; exists []; symmetry; apply app_nil_r.
Qed.

Lemma extends_set_login_info v l w :
  extends w (snd (set_login_info v l w)).
Proof.
  split; cbn; try reflexivity; exists []; symmetry; apply app_nil_r.
Qed.

Lemma extends_release rid l w : extends w (snd (release rid l w)).
Proof.
  split; cbn; try reflexivity;
    solve [eexists; reflexivity | exists []; symmetry; apply app_nil_r].
Qed.

Lemma extends_send_request tr rq l w :
  extends w (snd (send_request tr rq l w)).
Proof.
  unfold send_request. destruct (tr (length (requests w)) rq).
  all: split; cbn; try reflexivity;
    solve [eexists; reflexivity | exists []; symmetry; apply app_nil_r].
Qed.

Lemma extends_async_login ctx tr : keeps extends (async_login ctx tr).
Proof.
  apply keeps_async_login;
    first [ exact extends_refl | exact extends_trans | exact extends_emit
          | exact extends_set_state | exact extends_set_login_info
          | exact extends_release | exact extends_send_request ].
Qed.

Lemma extends_async_update ctx tr fuel :
  keeps extends (async_update ctx tr fuel).
Proof.
  apply keeps_async_update;
    first [ exact extends_refl | exact extends_trans | exact extends_emit
          | exact extends_set_state | exact extends_set_login_info
          | exact extends_release | exact extends_send_request ].
Qed.

Lemma extends__send ctx tr fuel event :
  keeps extends (_send ctx tr fuel event).
Proof.
  apply keeps__send;
    first [ exact extends_refl | exact extends_trans | exact extends_emit
          | exact extends_set_state | exact extends_set_login_info
          | exact extends_release | exact extends_send_request ].
Qed.

(** ** The first request of a command *)

Lemma bind_normal {A B : Type} (m : M A) (k : A -> M B) l w a l1 w1 :
  m l w = (Normal a, l1, w1) -> bind m k l w = k a l1 w1.
Proof. intros H. unfold bind. rewrite H. reflexivity. Qed.

Lemma guarded_bind {A : Type} (m : M A) (k : A -> M unit) h f l w a l1 w1 :
  m l w = (Normal a, l1, w1) ->
  try_finally (try_except (bind m k) h) f l w =
  try_finally (try_except (k a) h) f l1 w1.
Proof.
  intros H. unfold try_finally, try_except, bind. rewrite H. reflexivity.
Qed.

Ltac extends_side :=
  first [ exact extends_refl | exact extends_trans | exact extends_emit
        | exact extends_set_state | exact extends_set_login_info
        | exact extends_release | exact extends_send_request ].

(** [keeps extends] for a statement built from the primitives and the
    coroutines. *)
Ltac extends_tac :=
  repeat
    first
      [ apply extends_async_login
      | apply extends_async_update
      | apply extends__send
      | apply keeps_call
      | apply keeps_bind; [extends_side | |]
      | apply keeps_when; [extends_side |]
      | apply keeps_try_finally; [extends_side | |]
      | apply keeps_try_except; [extends_side | |]
      | apply keeps_release_response; extends_side
      | apply keeps_step;
        solve [ intros; apply extends_emit | intros; apply extends_set_state
              | intros; apply extends_set_login_info
              | intros; apply extends_release
              | intros; apply extends_send_request ]
      | apply keeps_pure; [extends_side |];
        intros ? ?;
        solve [ reflexivity
              | cbv [getitem subscript first lift get_response];
                repeat match goal with
                       | |- context [match ?x with _ => _ end] => destruct x
                       end; reflexivity ]
      | match goal with
        | |- forall _ : _ * _, _ => intros [? ?]
        | |- forall _, _ => intro
        | H : match ?e with TimeoutError => _ | _ => _ end = Some _ |- _ =>
            destruct e; inversion H; subst; clear H
        | H : (if ?b then _ else _) = Some _ |- _ =>
            destruct b; inversion H; subst; clear H
        | H : None = Some _ |- _ => discriminate H
        | |- keeps extends (if ?b then _ else _) => destruct b
        | |- keeps extends (match ?x with _ => _ end) => destruct x
        end ].

Section FirstRequest.

Variable ctx : string.
Variable tr : Transport.
Hypothesis Hctx : brace_free ctx = true.

(** On a held session, whatever the reply, the first request of [_send]
    is the form of the command. *)
Lemma send_first_request fuel event rq l w d key c l' w' :
  _login_info w = Some d ->
  Dict.get d "sessionkey" = Some key ->
  command_request ctx event = Some rq ->
  _send ctx tr (S fuel) event l w = (c, l', w') ->
  exists rest, requests w' = requests w ++ rq :: rest.
Proof.
  intros Hli Hkey Hrq H.
  destruct (tr (length (requests w)) rq) as [e|r] eqn:Hreply.
  { rewrite (send_transport_failure ctx tr Hctx fuel event rq l w d key e
               Hli Hkey Hrq Hreply) in H.
    inversion H; subst. exists []. reflexivity. }
  rewrite _send_S in H. unfold call in H.
  match type of H with context [send_body ?a ?b ?c ?d ?e ?f Unbound w] =>
    destruct (send_body a b c d e f Unbound w) as [[c1 l1] w1] eqn:Hb
  end.
  assert (Hw : requests w' = requests w1)
    by (destruct c1; inversion H; reflexivity).
  rewrite Hw. clear H Hw.
  destruct (commands_cases ctx event rq Hrq) as [[-> ->]|[[-> ->]|[-> ->]]].
  all: unfold send_body in Hb.
  all: erewrite bind_normal in Hb by reflexivity.
  all: erewrite guarded_bind in Hb by reflexivity.
  all: erewrite guarded_bind in Hb
    by (cbn [_login_info]; rewrite Hli; unfold subscript, getitem;
        rewrite Hkey; reflexivity).
  all: erewrite guarded_bind in Hb
    by (rewrite (str_format_brace_free _ _ (brace_free_DASHBOARD_URL ctx Hctx));
        reflexivity).
  all: do 4 (erewrite guarded_bind in Hb by reflexivity).
  all: erewrite guarded_bind in Hb
    by (unfold websession_post, send_request; cbn [requests];
        match goal with
        | |- context [tr _ ?q] =>
            match type of Hreply with tr _ ?rq0 = _ => change q with rq0 end
        end;
        rewrite Hreply; reflexivity).
  all: cbv beta iota in Hb.
  all: match type of Hb with
       | ?m _ _ = _ =>
           assert (K : keeps extends m) by extends_tac;
             apply K in Hb
       end.
  all: destruct Hb as [_ _ [new Hnew] _ _ _]; cbn in Hnew.
  all: exists new; rewrite Hnew, <- app_assoc; reflexivity.
Qed.

End FirstRequest.

(** ** Commands: edge cases *)

(** X16. A command sent by a client that holds no session contacts
    nothing: reading the session key fails, and what leaves [_send] is
    the [UnboundLocalError] of its [finally] clause, for any event. *)
Theorem send_without_session_raises ctx tr fuel event l w :
  _login_info w = None ->
  exists w',
    _send ctx tr (S fuel) event l w
    = (Raise (UnboundLocalError "response"), l, w') /\
    requests w' = requests w /\ state w' = state w /\
    _login_info w' = None /\ released w' = released w.
Proof.
  intros Hli. rewrite (send_without_session ctx tr fuel event l w Hli).
  eexists. split; [reflexivity|]. cbn. rewrite !app_nil_r.
  repeat split; reflexivity.
Qed.

Lemma send_without_session_raises_witness :
  exists w',
    _send sample_context_path command_noticed 1 "Disarm" Unbound
          (signed_out (Some "Armed Away"))
    = (Raise (UnboundLocalError "response"), Unbound, w') /\
    requests w' = [] /\ state w' = Some "Armed Away" /\
    _login_info w' = None /\ released w' = [].
Proof.
  apply (send_without_session_raises
           sample_context_path command_noticed 0 "Disarm" Unbound
           (signed_out (Some "Armed Away"))).
  reflexivity.
Defined.

(** X17. An event that is no key of [COMMAND_LIST] contacts nothing
    either: the lookup fails before the POST and [UnboundLocalError]
    leaves [_send]. *)
Theorem send_unknown_command_raises ctx tr fuel event l w d key :
  brace_free ctx = true ->
  _login_info w = Some d ->
  Dict.get d "sessionkey" = Some key ->
  Dict.get COMMAND_LIST event = None ->
  exists w',
    _send ctx tr (S fuel) event l w
    = (Raise (UnboundLocalError "response"), l, w') /\
    requests w' = requests w /\ state w' = state w /\
    _login_info w' = Some d /\ released w' = released w.
Proof.
  intros Hctx Hli Hkey Hev.
  rewrite (send_unknown_event ctx tr Hctx fuel event l w d key Hli Hkey Hev).
  eexists. split; [reflexivity|]. cbn. rewrite !app_nil_r.
  repeat split; reflexivity.
Qed.

Lemma send_unknown_command_raises_witness :
  exists w',
    _send sample_context_path command_noticed 1 "Arm+Night" Unbound
          (signed_in None)
    = (Raise (UnboundLocalError "response"), Unbound, w') /\
    requests w' = [] /\ state w' = None /\
    _login_info w' = Some [("sessionkey", "0123ABCD")] /\ released w' = [].
Proof.
  apply (send_unknown_command_raises
           sample_context_path command_noticed 0 "Arm+Night" Unbound
           (signed_in None) [("sessionkey", "0123ABCD")] "0123ABCD");
    reflexivity.
Defined.

(** X18. When the reply to a command carries a message that does not
    contain "command", [_send] returns [None] after that one request:
    no refresh follows, state and session stay as they were, and the
    response is released once. *)
Theorem send_notice_returns ctx tr fuel event rq l w d key r tag more :
  brace_free ctx = true ->
  _login_info w = Some d ->
  Dict.get d "sessionkey" = Some key ->
  command_request ctx event = Some rq ->
  tr (length (requests w)) rq = Responds r ->
  select ("#" ++ MESSAGE_CONTROL)%string (text r) = tag :: more ->
  contains "command" (get_text tag) = false ->
  exists w',
    _send ctx tr (S fuel) event l w = (Normal VNone, l, w') /\
    requests w' = requests w ++ [rq] /\
    state w' = state w /\ _login_info w' = Some d /\
    opened w' = opened w ++ [(length (requests w), r)] /\
    released w' = released w ++ [length (requests w)].
Proof.
  intros Hctx Hli Hkey Hrq Hreply Hsel Hmsg.
  destruct (send_notice ctx tr Hctx fuel event rq l w d key r tag more
                        Hli Hkey Hrq Hreply Hsel Hmsg) as [recs E].
  eexists. split; [exact E|]. repeat split; reflexivity.
Qed.

Lemma send_notice_returns_witness :
  exists w',
    _send sample_context_path command_noticed 1 "Arm+Away" Unbound
          (signed_in (Some "Disarmed")) = (Normal VNone, Unbound, w') /\
    requests w' = [] ++ [arm_away_post sample_context_path] /\
    state w' = Some "Disarmed" /\
    _login_info w' = Some [("sessionkey", "0123ABCD")] /\
    opened w' = [] ++ [(0, notice_page)] /\
    released w' = [] ++ [0].
Proof.
  apply (send_notice_returns
           sample_context_path command_noticed 0 "Arm+Away"
           (arm_away_post sample_context_path) Unbound
           (signed_in (Some "Disarmed"))
           [("sessionkey", "0123ABCD")] "0123ABCD" notice_page
           (Tag "div" [("id", "warnMsgContents")]
                [NavigableString "Please try again."]) []);
    reflexivity.
Defined.

(** X19. When the message of the reply contains "command", [_send] goes
    on with a refresh: the dashboard GET follows the POST, and with a
    state element on that page the state is set from it; both responses
    are released, the refresh's first, and [_send] returns [None]. *)
Theorem send_acknowledged_refreshes
        ctx tr fuel event rq l w d key r tag more r' tag' more' :
  brace_free ctx = true ->
  _login_info w = Some d ->
  Dict.get d "sessionkey" = Some key ->
  command_request ctx event = Some rq ->
  tr (length (requests w)) rq = Responds r ->
  select ("#" ++ MESSAGE_CONTROL)%string (text r) = tag :: more ->
  contains "command" (get_text tag) = true ->
  tr (S (length (requests w))) (dashboard_get ctx) = Responds r' ->
  select ALARM_STATE (text r') = tag' :: more' ->
  exists w',
    _send ctx tr (S (S fuel)) event l w = (Normal VNone, l, w') /\
    requests w' = requests w ++ [rq; dashboard_get ctx] /\
    state w' = Some (get_text tag') /\ _login_info w' = Some d /\
    released w' =
      released w ++ [S (length (requests w)); length (requests w)].
Proof.
  intros Hctx Hli Hkey Hrq Hreply Hsel Hmsg Hreply' Hsel'.
  destruct (send_acknowledged ctx tr Hctx fuel event rq l w d key r tag more
                              r' tag' more' Hli Hkey Hrq Hreply Hsel Hmsg
                              Hreply' Hsel') as [recs E].
  eexists. split; [exact E|]. repeat split; reflexivity.
Qed.

Lemma send_acknowledged_refreshes_witness :
  exists w',
    _send sample_context_path command_acknowledged 2 "Arm+Stay" Unbound
          (signed_in (Some "Disarmed")) = (Normal VNone, Unbound, w') /\
    requests w' =
      [] ++ [ arm_stay_post sample_context_path;
              dashboard_get sample_context_path ] /\
    state w' = Some "Disarmed" /\
    _login_info w' = Some [("sessionkey", "0123ABCD")] /\
    released w' = [] ++ [1; 0].
Proof.
  apply (send_acknowledged_refreshes
           sample_context_path command_acknowledged 0 "Arm+Stay"
           (arm_stay_post sample_context_path) Unbound
           (signed_in (Some "Disarmed"))
           [("sessionkey", "0123ABCD")] "0123ABCD" acknowledged_page
           (Tag "div" [("id", "warnMsgContents")]
                [NavigableString "Your command has been sent."]) []
           state_page
           (Tag "divorbtextsummary" [] [NavigableString "Disarmed"]) []);
    reflexivity.
Defined.

(** X20. On a client that holds a session, each public command first
    POSTs its own form to the dashboard URL, whatever the transport
    replies: [async_alarm_disarm] the Disarm form, [async_alarm_arm_home]
    the Arm+Stay form, [async_alarm_arm_away] the Arm+Away form. The
    request is the same for every session key: the key is read but is
    no part of the URL or of the form. *)
Theorem public_commands_post_their_form ctx tr fuel l w d key :
  brace_free ctx = true ->
  _login_info w = Some d ->
  Dict.get d "sessionkey" = Some key ->
  (exists rest,
     requests (snd (async_alarm_disarm ctx tr (S fuel) l w))
     = requests w ++ disarm_post ctx :: rest) /\
  (exists rest,
     requests (snd (async_alarm_arm_home ctx tr (S fuel) l w))
     = requests w ++ arm_stay_post ctx :: rest) /\
  (exists rest,
     requests (snd (async_alarm_arm_away ctx tr (S fuel) l w))
     = requests w ++ arm_away_post ctx :: rest).
Proof.
  intros Hctx Hli Hkey.
  assert (Hwrap : forall event rq,
            command_request ctx event = Some rq ->
            exists rest,
              requests (snd (call (_send ctx tr (S fuel) event ;; skip) l w))
              = requests w ++ rq :: rest).
  { intros event rq Hrq. unfold call, bind, skip, ret.
    destruct (_send ctx tr (S fuel) event Unbound w) as [[c l1] w1] eqn:E.
    destruct (send_first_request ctx tr Hctx fuel event rq Unbound w d key
                                 c l1 w1 Hli Hkey Hrq E) as [rest Hreq].
    exists rest. destruct c; exact Hreq. }
  split; [|split].
  - apply (Hwrap "Disarm"). reflexivity.
  - apply (Hwrap "Arm+Stay"). reflexivity.
  - apply (Hwrap "Arm+Away"). reflexivity.
Qed.

Lemma public_commands_post_their_form_witness :
  (exists rest,
     requests (snd (async_alarm_disarm sample_context_path
                      expired_once_for_send 2 Unbound (signed_in None)))
     = requests (signed_in None) ++ disarm_post sample_context_path :: rest) /\
  (exists rest,
     requests (snd (async_alarm_arm_home sample_context_path
                      expired_once_for_send 2 Unbound (signed_in None)))
     = requests (signed_in None)
       ++ arm_stay_post sample_context_path :: rest) /\
  (exists rest,
     requests (snd (async_alarm_arm_away sample_context_path
                      expired_once_for_send 2 Unbound (signed_in None)))
     = requests (signed_in None)
       ++ arm_away_post sample_context_path :: rest).
Proof.
  apply (public_commands_post_their_form
           sample_context_path expired_once_for_send 1 Unbound
           (signed_in None) [("sessionkey", "0123ABCD")] "0123ABCD");
    reflexivity.
Defined.

(** X22. When the reply to a command has no message element and the
    login GET that follows fails in the transport, the command is sent
    again all the same, under the session the client already held: the
    [False] of [async_login] is not looked at. *)
Theorem send_redispatches_even_if_login_failed
        ctx tr fuel event event' rq rq' l w d key r e r3 tag more :
  brace_free ctx = true ->
  _login_info w = Some d ->
  Dict.get d "sessionkey" = Some key ->
  command_request ctx event = Some rq ->
  redispatch event = Some event' ->
  command_request ctx event' = Some rq' ->
  tr (length (requests w)) rq = Responds r ->
  select ("#" ++ MESSAGE_CONTROL)%string (text r) = [] ->
  tr (S (length (requests w))) (login_get ctx) = Fails e ->
  tr (S (S (length (requests w)))) rq' = Responds r3 ->
  select ("#" ++ MESSAGE_CONTROL)%string (text r3) = tag :: more ->
  contains "command" (get_text tag) = false ->
  exists w',
    _send ctx tr (S (S fuel)) event l w = (Normal VNone, l, w') /\
    requests w' = requests w ++ [rq; login_get ctx; rq'] /\
    _login_info w' = Some d /\
    released w' =
      released w ++ [S (S (length (requests w))); length (requests w)].
Proof.
  intros Hctx Hli Hkey Hrq Hre Hrq' Hreply Hsel Hget Hreply3 Hsel3 Hmsg.
  destruct (send_redispatches_after_failed_login
              ctx tr Hctx fuel event event' rq rq' l w d key r e r3 tag more
              Hli Hkey Hrq Hre Hrq' Hreply Hsel Hget Hreply3 Hsel3 Hmsg)
    as [recs E].
  eexists. split; [exact E|]. repeat split; reflexivity.
Qed.

Lemma send_redispatches_even_if_login_failed_witness :
  exists w',
    _send sample_context_path expired_login_down 2 "Disarm" Unbound
          (signed_in None) = (Normal VNone, Unbound, w') /\
    requests w' =
      [] ++ [ disarm_post sample_context_path;
              login_get sample_context_path;
              disarm_post sample_context_path ] /\
    _login_info w' = Some [("sessionkey", "0123ABCD")] /\
    released w' = [] ++ [2; 0].
Proof.
  apply (send_redispatches_even_if_login_failed
           sample_context_path expired_login_down 0 "Disarm" "Disarm"
           (disarm_post sample_context_path)
           (disarm_post sample_context_path) Unbound (signed_in None)
           [("sessionkey", "0123ABCD")] "0123ABCD" signed_out_page
           Connection notice_page
           (Tag "div" [("id", "warnMsgContents")]
                [NavigableString "Please try again."]) []);
    reflexivity.
Defined.

(** X23. When the reply to a command has no message element and the
    login page then comes without the session cookie, the [KeyError] of
    [async_login] leaves [_send]: nothing is sent again, and the
    response to the command has been released by the [finally] clause. *)
Theorem send_propagates_the_login_error
        ctx tr fuel event rq l w d key r r1 :
  brace_free ctx = true ->
  _login_info w = Some d ->
  Dict.get d "sessionkey" = Some key ->
  command_request ctx event = Some rq ->
  tr (length (requests w)) rq = Responds r ->
  select ("#" ++ MESSAGE_CONTROL)%string (text r) = [] ->
  tr (S (length (requests w))) (login_get ctx) = Responds r1 ->
  Dict.get (cookies r1) "JSESSIONID" = None ->
  exists w',
    _send ctx tr (S fuel) event l w
    = (Raise (KeyError "JSESSIONID"), l, w') /\
    requests w' = requests w ++ [rq; login_get ctx] /\
    _login_info w' = Some d /\
    released w' = released w ++ [length (requests w)].
Proof.
  intros Hctx Hli Hkey Hrq Hreply Hsel H1 H2.
  destruct (send_propagates_login_error
              ctx tr Hctx fuel event rq l w d key r r1
              Hli Hkey Hrq Hreply Hsel H1 H2) as [recs E].
  eexists. split; [exact E|]. repeat split; reflexivity.
Qed.

Lemma send_propagates_the_login_error_witness :
  exists w',
    _send sample_context_path expired_login_without_cookie 1 "Arm+Stay"
          Unbound (signed_in None)
    = (Raise (KeyError "JSESSIONID"), Unbound, w') /\
    requests w' =
      [] ++ [ arm_stay_post sample_context_path;
              login_get sample_context_path ] /\
    _login_info w' = Some [("sessionkey", "0123ABCD")] /\
    released w' = [] ++ [0].
Proof.
  apply (send_propagates_the_login_error
           sample_context_path expired_login_without_cookie 0 "Arm+Stay"
           (arm_stay_post sample_context_path) Unbound (signed_in None)
           [("sessionkey", "0123ABCD")] "0123ABCD"
           signed_out_page signin_page_no_cookie);
    reflexivity.
Defined.

(** ** An acknowledged command and its refresh *)

Section Acknowledged.

Variable ctx : string.
Variable tr : Transport.
Hypothesis Hctx : brace_free ctx = true.

(** The run of [_send] after an acknowledging reply, in terms of the
    refresh it starts. *)
Lemma send_acknowledged_run fuel event rq l w d key r tag more c l' w' :
  _login_info w = Some d ->
  Dict.get d "sessionkey" = Some key ->
  command_request ctx event = Some rq ->
  tr (length (requests w)) rq = Responds r ->
  select ("#" ++ MESSAGE_CONTROL)%string (text r) = tag :: more ->
  contains "command" (get_text tag) = true ->
  _send ctx tr (S fuel) event l w = (c, l', w') ->
  l' = l /\
  (c = Normal VNone \/ c = Raise (KeyError "JSESSIONID") \/ c = OutOfFuel) /\
  exists new,
    requests w' = requests w ++ rq :: new /\
    count is_command_post new = 0 /\
    state w' = replay tr (S (length (requests w))) new (state w) /\
    (c <> OutOfFuel ->
     released w' =
       released w
       ++ rev (dashboard_answered tr (S (length (requests w))) new)
       ++ [length (requests w)]).
Proof.
  intros Hli Hkey Hrq Hreply Hsel Hmsg.
  destruct (commands_cases ctx event rq Hrq) as [[-> ->]|[[-> ->]|[-> ->]]].
  all: rewrite _send_S; unfold send_body, BeautifulSoup; unfold_monad;
    cbn; rewrite Hli; unfold getitem; cbn; rewrite Hkey; cbn;
    rewrite (str_format_brace_free _ _ (brace_free_DASHBOARD_URL ctx Hctx));
    cbn.
  all: match goal with
       | |- context [tr _ ?q] =>
           match type of Hreply with tr _ ?rq0 = _ => change q with rq0 end
       end.
  all: rewrite Hreply; cbn.
  all: match goal with
       | |- context [select ?s (text ?p)] =>
           change (select s (text p))
             with (select ("#" ++ MESSAGE_CONTROL)%string (text p))
       end.
  all: rewrite Hsel; cbn; rewrite Hmsg; cbn.
  all: rewrite <- ?app_assoc; cbn.
  all: match goal with
       | |- context [async_update ?cx ?t ?f ?l0 ?w0] =>
           destruct (async_update cx t f l0 w0) as [[c1 l1] w1] eqn:E1;
           destruct (async_update_run cx t f l0 w0 c1 l1 w1 E1)
             as (-> & _ & _ & new & [Rq Rs Rc _ _]);
           destruct (async_update_account cx t f l0 w0 c1 _ w1 E1)
             as (_ & Hc1 & new' & [Rq' _ Rr])
       end.
  all: cbn in Rq, Rs, Rq', Rr.
  all: rewrite Rq in Rq'; apply app_inv_head in Rq'; subst new'.
  all: rewrite length_app, Nat.add_1_r in Rs, Rr.
  all: rewrite <- app_assoc in Rq; cbn in Rq.
  all: destruct Hc1 as [->|[->|[->| ->]]]; cbn; intros H; inversion H; subst;
    clear H.
  all: split; [reflexivity|]; split; [auto|]; exists new; cbn.
  all: split; [exact Rq|]; split; [exact Rc|]; split; [exact Rs|].
  all: intros Hc; try (exfalso; apply Hc; reflexivity).
  all: rewrite (Rr eq_refl), <- app_assoc; reflexivity.
Qed.

End Acknowledged.

(** X24. A command whose reply carries a message containing "command"
    ends as the refresh it starts: after the one POST every further
    request belongs to that refresh and none is a command; the state
    afterwards is what the dashboard pages of the refresh leave; [_send]
    returns [None] whether the refresh returned [None] or [False], and
    only the [KeyError] of a login page without cookie can leave it.
    Unless the budget is spent, the response to the command is released
    last, after the dashboard responses of the refresh. *)
Theorem acknowledged_command_ends_as_its_refresh
        ctx tr fuel event rq l w d key r tag more c l' w' :
  brace_free ctx = true ->
  _login_info w = Some d ->
  Dict.get d "sessionkey" = Some key ->
  command_request ctx event = Some rq ->
  tr (length (requests w)) rq = Responds r ->
  select ("#" ++ MESSAGE_CONTROL)%string (text r) = tag :: more ->
  contains "command" (get_text tag) = true ->
  _send ctx tr (S fuel) event l w = (c, l', w') ->
  l' = l /\
  (c = Normal VNone \/ c = Raise (KeyError "JSESSIONID") \/ c = OutOfFuel) /\
  exists new,
    requests w' = requests w ++ rq :: new /\
    count is_command_post new = 0 /\
    state w' = replay tr (S (length (requests w))) new (state w) /\
    (c <> OutOfFuel ->
     released w' =
       released w
       ++ rev (dashboard_answered tr (S (length (requests w))) new)
       ++ [length (requests w)]).
Proof.
  intros Hctx.
  apply (send_acknowledged_run ctx tr Hctx fuel event rq l w d key r tag more
                               c l' w').
Qed.


Lemma acknowledged_command_ends_as_its_refresh_witness :
  exists c l' w',
    _send sample_context_path command_acknowledged 2 "Arm+Stay" Unbound
          (signed_in (Some "Armed Away")) = (c, l', w') /\
    l' = Unbound /\
    (c = Normal VNone \/ c = Raise (KeyError "JSESSIONID") \/ c = OutOfFuel) /\
    exists new,
      requests w' =
        requests (signed_in (Some "Armed Away"))
        ++ arm_stay_post sample_context_path :: new /\
      count is_command_post new = 0 /\
      state w' = replay command_acknowledged 1 new (Some "Armed Away") /\
      (c <> OutOfFuel ->
       released w' =
         released (signed_in (Some "Armed Away"))
         ++ rev (dashboard_answered command_acknowledged 1 new) ++ [0]).
Proof.
  do 3 eexists. split.
  - lazy. reflexivity.
  - eapply (acknowledged_command_ends_as_its_refresh
              sample_context_path command_acknowledged 1 "Arm+Stay"
              (arm_stay_post sample_context_path) Unbound
              (signed_in (Some "Armed Away"))
              [("sessionkey", "0123ABCD")] "0123ABCD" acknowledged_page
              (Tag "div" [("id", "warnMsgContents")]
                   [NavigableString "Your command has been sent."]) []);
      lazy; reflexivity.
Defined.

(** ** How a command can end *)

Section CommandEnds.

Variable ctx : string.
Variable tr : Transport.

Ltac ends_here :=
  let H := fresh "H" in
  cbn; intros H; inversion H; subst;
  split;
  [ reflexivity
  | first [ left; reflexivity
          | right; left; reflexivity
          | right; right; left; reflexivity
          | right; right; right; reflexivity ] ].

Lemma _send_completion fuel : forall event l w c l' w',
  _send ctx tr fuel event l w = (c, l', w') ->
  l' = l /\
  (c = Normal VNone \/ c = Raise (UnboundLocalError "response")
   \/ c = Raise (KeyError "JSESSIONID") \/ c = OutOfFuel).
Proof.
  induction fuel as [|fuel IH]; intros event l w c l' w'.
  - ends_here.
  - rewrite _send_S; unfold send_body, BeautifulSoup; unfold_monad; cbn.
    destruct (_login_info w) as [d|]; cbn; [|ends_here].
    unfold getitem; cbn.
    destruct (Dict.get d "sessionkey") as [key|]; cbn; [|ends_here].
    destruct (str_format (DASHBOARD_URL ctx) [key]) as [e|target]; cbn;
      [destruct e; unfold bind, skip, ret; ends_here|].
    destruct (Dict.get COMMAND_LIST event) as [command|]; cbn; [|ends_here].
    destruct (Dict.get command "eventvalidation") as [ev|]; cbn;
      [|ends_here].
    destruct (Dict.get command "command") as [field|]; cbn; [|ends_here].
    match goal with
    | |- context [tr ?n ?q] => destruct (tr n q) as [e|r]
    end; cbn.
    { destruct e; ends_here. }
    match goal with
    | |- context [mkWorld ?u ?p ?li ?st ?rqs ?ops ?rels ?recs] =>
        generalize (mkWorld u p li st rqs ops rels recs); intros w1
    end.
    generalize (length (requests w)); intros n.
    destruct (select (String "#" MESSAGE_CONTROL) (text r)) as [|tag more];
      cbn.
    + match goal with
      | |- context [async_login ?cx ?t ?l0 ?w0] =>
          destruct (async_login_account cx t l0 w0)
            as (c1 & li & rqs & recs & -> & _ & Hc1)
      end.
      match goal with
      | |- context [advance ?a ?b ?c0 ?d0 ?e0 ?f0 ?g0] =>
          generalize (advance a b c0 d0 e0 f0 g0); intros w2
      end.
      assert (Hnested : forall event',
                 exists c2 l2 w3,
                   _send ctx tr fuel event' Unbound w2 = (c2, l2, w3) /\
                   (c2 = Normal VNone \/
                    c2 = Raise (UnboundLocalError "response") \/
                    c2 = Raise (KeyError "JSESSIONID") \/ c2 = OutOfFuel)).
      { intros event'.
        destruct (_send ctx tr fuel event' Unbound w2) as [[c2 l2] w3] eqn:E.
        exists c2, l2, w3. split; [reflexivity|].
        exact (proj2 (IH _ _ _ _ _ _ E)). }
      destruct (Hnested "Disarm") as (cd & ld & wd & Ed & Hd).
      destruct (Hnested "Arm+Away") as (ca & la & wa & Ea & Ha).
      clear Hnested.
      destruct Hc1 as [->|[->| ->]]; cbn; [| |ends_here].
      all: destruct (String.eqb event "Disarm");
        [ cbn; rewrite Ed;
          destruct Hd as [->|[->|[->| ->]]]; unfold bind, skip, ret; ends_here
        |].
      all: destruct (String.eqb event "Arm+Stay");
        [ cbn; rewrite Ea;
          destruct Ha as [->|[->|[->| ->]]]; unfold bind, skip, ret; ends_here
        |].
      all: destruct (String.eqb event "Arm+Away");
        [ cbn; rewrite Ea;
          destruct Ha as [->|[->|[->| ->]]]; unfold bind, skip, ret; ends_here
        | unfold bind, skip, ret; ends_here ].
    + destruct (contains "command" (get_text tag)); cbn;
        [|unfold bind, skip, ret; ends_here].
      match goal with
      | |- context [async_update ?cx ?t ?f ?l0 ?w0] =>
          destruct (async_update cx t f l0 w0) as [[c1 l1] w2] eqn:E1;
          destruct (async_update_account cx t f l0 w0 c1 l1 w2 E1)
            as (-> & Hc1 & _)
      end.
      destruct Hc1 as [->|[->|[->| ->]]]; unfold bind, skip, ret; ends_here.
Qed.

End CommandEnds.

(** X25. Whatever the transport does, [_send] and the three public
    commands end in one of four ways: they return [None]; the
    [UnboundLocalError] of the [finally] clause leaves them (no response
    was bound: no session, an unknown event, or a failed POST); the
    [KeyError] of a login page without cookie leaves them; or the
    recursion budget is spent. No transport error and no other exception
    leaves a command, and none returns a value. *)
Theorem commands_end_in_four_ways ctx tr fuel event l w c l' w' :
  _send ctx tr fuel event l w = (c, l', w') \/
  async_alarm_disarm ctx tr fuel l w = (c, l', w') \/
  async_alarm_arm_home ctx tr fuel l w = (c, l', w') \/
  async_alarm_arm_away ctx tr fuel l w = (c, l', w') ->
  l' = l /\
  (c = Normal VNone \/ c = Raise (UnboundLocalError "response")
   \/ c = Raise (KeyError "JSESSIONID") \/ c = OutOfFuel).
Proof.
  assert (Hwrap : forall event',
            call (_send ctx tr fuel event' ;; skip) l w = (c, l', w') ->
            l' = l /\
            (c = Normal VNone \/ c = Raise (UnboundLocalError "response")
             \/ c = Raise (KeyError "JSESSIONID") \/ c = OutOfFuel)).
  { intros event'. unfold call, bind, skip, ret.
    destruct (_send ctx tr fuel event' Unbound w) as [[c1 l1] w1] eqn:E.
    destruct (_send_completion ctx tr fuel event' Unbound w c1 l1 w1 E)
      as [_ [->|[->|[->| ->]]]];
      intros H; inversion H; subst; auto 6. }
  intros [H|[H|[H|H]]].
  - exact (_send_completion ctx tr fuel event l w c l' w' H).
  - exact (Hwrap "Disarm" H).
  - exact (Hwrap "Arm+Stay" H).
  - exact (Hwrap "Arm+Away" H).
Qed.

Lemma commands_end_in_four_ways_witness :
  exists c l' w',
    async_alarm_arm_home sample_context_path expired_login_without_cookie 2
                         Unbound (signed_in None) = (c, l', w') /\
    l' = Unbound /\
    (c = Normal VNone \/ c = Raise (UnboundLocalError "response")
     \/ c = Raise (KeyError "JSESSIONID") \/ c = OutOfFuel).
Proof.
  do 3 eexists. split.
  - lazy. reflexivity.
  - eapply (commands_end_in_four_ways
              sample_context_path expired_login_without_cookie 2 "Arm+Stay"
              Unbound (signed_in None)).
    right; right; left. lazy. reflexivity.
Defined.

(** ** Every run of a Disarm *)









Section DisarmRuns.

Variable ctx : string.
Variable tr : Transport.
Hypothesis Hctx : brace_free ctx = true.





End DisarmRuns.


